(** * Lasso logistic regression on the breast-cancer dataset

    A shallow embedding of the two notebooks of the repository
    ([lasso_breast_cancer.ipynb] and the second, unnamed notebook) and of
    the library calls they make.  Python floats are IEEE-754 binary64
    numbers ([spec_float] at precision 53), labels are integers, a
    [dict] is an insertion-ordered association list, estimator objects
    live in a store addressed by references. *)

From Stdlib Require Import ZArith QArith Qabs List Lia Lqa Bool Permutation.
From Stdlib Require Import Floats.SpecFloat.
From stdpp Require Import base option list strings gmap.

Local Open Scope Z_scope.

(** ** Binary64 arithmetic of Python and numpy *)

Module F64.

Definition float : Type := spec_float.

Definition prec : Z := 53.
Definition emax : Z := 1024.

Definition add : float -> float -> float := SFadd prec emax.
Definition sub : float -> float -> float := SFsub prec emax.
Definition mul : float -> float -> float := SFmul prec emax.
Definition div : float -> float -> float := SFdiv prec emax.
Definition eqb : float -> float -> bool := SFeqb.
Definition ltb : float -> float -> bool := SFltb.
Definition leb : float -> float -> bool := SFleb.
Definition succ : float -> float := SFsucc prec emax.
Definition pred : float -> float := SFpred prec emax.

(** Conversion of a Python [int] to a float (exact below 2^53). *)
Definition of_Z (z : Z) : float := binary_normalize prec emax z 0 false.

Definition zero : float := S754_zero false.
Definition one : float := of_Z 1.
Definition nan : float := S754_nan.

(** A decimal literal [num / den] of the source text, read the way
    Python reads it: the binary64 number nearest to the quotient. *)
Definition literal (num den : positive) : float :=
  SFdiv prec emax (S754_finite false num 0) (S754_finite false den 0).

Definition is_finite (x : float) : bool :=
  match x with
  | S754_zero _ | S754_finite _ _ _ => true
  | _ => false
  end.

(** The rational value of a finite float. *)
Definition to_Q (x : float) : Q :=
  match x with
  | S754_finite s m e =>
      let n := if s then Z.neg m else Z.pos m in
      match e with
      | Z0 => inject_Z n
      | Z.pos p => inject_Z (n * 2 ^ Z.pos p)
      | Z.neg p => Qmake n (2 ^ p)
      end
  | _ => 0%Q
  end.

(** Unit in the last place of a finite float in canonical form. *)
Definition ulp_Q (x : float) : Q :=
  match x with
  | S754_finite _ _ e =>
      match e with
      | Z0 => 1%Q
      | Z.pos p => inject_Z (2 ^ Z.pos p)
      | Z.neg p => Qmake 1 (2 ^ p)
      end
  | _ => 0%Q
  end.

(** [nearest q x]: [x] is a canonical binary64 number strictly closer to
    the rational [q] than any other one (so reading [q] gives [x]). *)
Definition nearest (q : Q) (x : float) : bool :=
  match x with
  | S754_finite _ m _ =>
      valid_binary prec emax x
      && negb (Pos.eqb m (2 ^ 52))
      && match Qcompare (Qabs (to_Q x - q) * inject_Z 2) (ulp_Q x) with
         | Lt => true
         | _ => false
         end
  | _ => false
  end.

(** Ceiling of a finite float, as C's [ceil] followed by a conversion to
    an integer. *)
Definition ceil (x : float) : option Z :=
  match x with
  | S754_zero _ => Some 0
  | S754_finite s m e =>
      let n := if s then Z.neg m else Z.pos m in
      match e with
      | Z0 => Some n
      | Z.pos p => Some (n * 2 ^ Z.pos p)
      | Z.neg p => Some (- ((- n) / 2 ^ Z.pos p))
      end
  | _ => None
  end.

(** Leibniz equality of two floats, decided. *)
Definition same (x y : float) : bool :=
  match x, y with
  | S754_zero s, S754_zero s' => Bool.eqb s s'
  | S754_infinity s, S754_infinity s' => Bool.eqb s s'
  | S754_nan, S754_nan => true
  | S754_finite s m e, S754_finite s' m' e' =>
      Bool.eqb s s' && Pos.eqb m m' && Z.eqb e e'
  | _, _ => false
  end.

End F64.

Abbreviation float := F64.float.

(** ** numpy: [np.arange] on floats

    [np.arange(start, stop, step)] with float arguments has
    [ceil((stop - start) / step)] entries; the first is [start], the
    second [start + step], and entry [i] is [start + i * delta] where
    [delta] is the difference of the first two, everything in binary64. *)

Module np.

Definition arange_length (start stop step : float) : option Z :=
  F64.ceil (F64.div (F64.sub stop start) step).

Definition arange_fill (start next : float) (length : nat) : list float :=
  let delta := F64.sub next start in
  map (fun i : nat =>
         match i with
         | O => start
         | S O => next
         | _ => F64.add start (F64.mul (F64.of_Z (Z.of_nat i)) delta)
         end)
      (seq 0 length).

Definition arange (start stop step : float) : option (list float) :=
  match arange_length start stop step with
  | Some len => Some (arange_fill start (F64.add start step) (Z.to_nat len))
  | None => None
  end.

End np.

(** ** The hyperparameter grid of both notebooks

    [grid = {"C": np.arange(0.01, 1, 0.01)}] *)

Definition grid_C : option (list float) :=
  np.arange (F64.literal 1 100) (F64.of_Z 1) (F64.literal 1 100).

(** The grid as a plain list (the call above does not fail). *)
Definition grid_values : list float := default [] grid_C.

(** An entry agrees with a decimal when it is the binary64 number nearest
    to the decimal or one of its two neighbours. *)
Definition within_one_ulp (x d : float) : bool :=
  F64.eqb x d || F64.eqb x (F64.succ d) || F64.eqb x (F64.pred d).

Definition hundredth (k : nat) : float :=
  F64.literal (Pos.of_nat k) 100.

(** Entry [i] of [np.arange(0.01, 1, 0.01)] as numpy computes it. *)
Definition grid_formula (i : nat) : float :=
  F64.add (hundredth 1) (F64.mul (F64.of_Z (Z.of_nat i)) (hundredth 1)).

Definition grid_entry_ok (i : nat) (x : float) : bool :=
  F64.is_finite x
  && within_one_ulp x (hundredth (S i))
  && F64.leb (hundredth 1) x && F64.leb x (hundredth 99)
  && match Qcompare (Qabs (F64.to_Q x - Qmake (Z.of_nat (S i)) 100)) (Qmake 1 (2 ^ 53)) with
     | Gt => false
     | _ => true
     end.

(** ** Python: [zip], [dict], the test [v != 0] *)

Module py.

(** [zip(a, b)] stops at the end of the shorter argument. *)
Definition zip {A B : Type} (a : list A) (b : list B) : list (A * B) :=
  combine a b.

(** A [dict] keeps its keys in insertion order; storing under a key
    that is already present replaces the value and keeps the place. *)
Definition dict (V : Type) : Type := list (string * V).

Fixpoint setitem {V : Type} (d : dict V) (k : string) (v : V) : dict V :=
  match d with
  | [] => [(k, v)]
  | (k', v') :: d' =>
      if String.eqb k' k then (k', v) :: d' else (k', v') :: setitem d' k v
  end.

(** [dict(pairs)] *)
Definition dict_of {V : Type} (pairs : list (string * V)) : dict V :=
  fold_left (fun d kv => setitem d (fst kv) (snd kv)) pairs [].

Definition items {V : Type} (d : dict V) : list (string * V) := d.
Definition keys {V : Type} (d : dict V) : list string := map fst d.

(** [v != 0] on a float: the negation of IEEE equality with zero. *)
Definition ne_zero (v : float) : bool := negb (F64.eqb v F64.zero).

End py.

(** ** pandas: frames and series *)

Module pd.

(** A [DataFrame] of floats: column labels and the rows of values. *)
Record DataFrame : Type := {
  columns : list string;
  values : list (list float)
}.

Record Series : Type := {
  name : string;
  labels : list Z
}.

Definition nrows (df : DataFrame) : nat := length (values df).

(** [pd.DataFrame(data, columns=names)]: every row must have one value
    per column, otherwise the constructor raises. *)
Definition new_DataFrame (data : list (list float)) (names : list string)
  : option DataFrame :=
  if forallb (fun row => Nat.eqb (length row) (length names)) data
  then Some {| columns := names; values := data |}
  else None.

(** [pd.concat([X, Y], axis=1)] for two objects on the same range
    index: the columns of [X] followed by the column named after [Y];
    a position present in only one of them is filled with NaN. *)
Definition concat_axis1 (X : DataFrame) (Y : Series) : DataFrame :=
  let n := Nat.max (nrows X) (length (labels Y)) in
  {| columns := columns X ++ [name Y];
     values :=
       map (fun i =>
              nth i (values X) (repeat F64.nan (length (columns X)))
              ++ [match nth_error (labels Y) i with
                  | Some y => F64.of_Z y
                  | None => F64.nan
                  end])
           (seq 0 n) |}.

(** Position of a column label. *)
Fixpoint get_loc (names : list string) (k : string) : option nat :=
  match names with
  | [] => None
  | k' :: rest =>
      if String.eqb k' k then Some O
      else match get_loc rest k with
           | Some i => Some (S i)
           | None => None
           end
  end.

(** [df[names]]: the listed columns in the listed order; a label that is
    not a column raises [KeyError]. *)
Definition getitem (df : DataFrame) (names : list string) : option DataFrame :=
  match mapM (get_loc (columns df)) names with
  | Some locs =>
      Some {| columns := names;
              values := map (fun row => map (fun j => nth j row F64.nan) locs)
                            (values df) |}
  | None => None
  end.

(** Positional row selection ([iloc]); a position past the end raises. *)
Definition take {A : Type} (rows : list A) (positions : list nat)
  : option (list A) :=
  mapM (fun i => nth_error rows i) positions.

Definition iloc (df : DataFrame) (positions : list nat) : option DataFrame :=
  match take (values df) positions with
  | Some rows => Some {| columns := columns df; values := rows |}
  | None => None
  end.

End pd.

(** ** scikit-learn: estimators, metrics, model selection *)

Module sklearn.

(** Constructor parameters of [LogisticRegression] that the notebooks
    set or rely on. *)
Record Params : Type := {
  C : float;
  penalty : string;
  solver : string;
  max_iter : Z;
  random_state : option Z
}.

(** [LogisticRegression(C=..., penalty=..., solver=..., max_iter=...)].
    A keyword that the call leaves out takes the default of the
    signature: [C=1.0], [random_state=None]. *)
Definition LogisticRegression (C : option float) (penalty solver : string)
    (max_iter : Z) : Params :=
  {| C := default (F64.of_Z 1) C;
     penalty := penalty;
     solver := solver;
     max_iter := max_iter;
     random_state := None |}.

(** An estimator object: its parameters and, once fitted, the attributes
    [coef_[0]] and [intercept_[0]]. *)
Record Estimator : Type := {
  params : Params;
  coef_ : option (list float);
  intercept_ : option float
}.

Definition unfitted (p : Params) : Estimator :=
  {| params := p; coef_ := None; intercept_ := None |}.

(** [clone(est)]: a new unfitted estimator with the same parameters. *)
Definition clone (est : Estimator) : Estimator := unfitted (params est).

(** [est.set_params(C=c)] *)
Definition set_params_C (c : float) (p : Params) : Params :=
  {| C := c;
     penalty := penalty p;
     solver := solver p;
     max_iter := max_iter p;
     random_state := random_state p |}.

(** The numerical code outside the repository: numpy's seeded random
    generator, the liblinear solver and the linear decision function. *)
Record Backend : Type := {
  RandomState : Type;
  (** [np.random.RandomState(seed)] *)
  RandomState_seed : Z -> RandomState;
  (** [rng.permutation(n)] (also the effect of [rng.shuffle] on [arange(n)]) *)
  permutation : RandomState -> nat -> list nat * RandomState;
  (** [rng.randint(np.iinfo("i").max)], the seed handed to liblinear *)
  randint : RandomState -> Z * RandomState;
  (** the coefficients and the intercept liblinear returns *)
  liblinear_train :
    Params -> pd.DataFrame -> list Z -> Z -> list float * float;
  (** [x @ coef + intercept] for one row *)
  decision_function : list float -> float -> list float -> float
}.

(** What the notebooks rely on: a permutation of [0..n-1] is returned,
    and liblinear returns one coefficient per column. *)
Record Backend_ok (B : Backend) : Prop := {
  permutation_ok :
    forall (g : RandomState B) (n : nat),
      Permutation (fst (permutation B g n)) (seq 0 n);
  coef_length :
    forall p X y s,
      length (fst (liblinear_train B p X y s)) = length (pd.columns X)
}.

(** *** Metrics *)

Definition count_equal (a b : list Z) : nat :=
  length (List.filter (fun p => Z.eqb (fst p) (snd p)) (combine a b)).

(** Modelled from the spec: [accuracy_score] is scikit-learn's and not
    under src/.  The glossary has accuracy as the fraction of
    predictions exactly matching the true label; the quotient is taken
    in binary64 (the mean of the 0/1 match vector), and vectors of
    different lengths are refused. *)
Definition accuracy_score (y_true y_pred : list Z) : option float :=
  if Nat.eqb (length y_true) (length y_pred)
  then Some (F64.div (F64.of_Z (Z.of_nat (count_equal y_true y_pred)))
                     (F64.of_Z (Z.of_nat (length y_true))))
  else None.

(** The exact fraction behind [accuracy_score]. *)
Definition accuracy_fraction (y_true y_pred : list Z) : Q :=
  (inject_Z (Z.of_nat (count_equal y_true y_pred))
   / inject_Z (Z.of_nat (length y_true)))%Q.

Definition sum_abs_diff (a b : list Z) : Z :=
  fold_right Z.add 0 (map (fun p => Z.abs (fst p - snd p)) (combine a b)).

(** Modelled from the spec: the scorer ["neg_mean_absolute_error"] is
    scikit-learn's.  Glossary: the average of the absolute differences
    between predicted and true values; the scorer negates it so that
    greater is better.  The value is kept as an exact rational. *)
Definition neg_mean_absolute_error (y_true y_pred : list Z) : option Q :=
  if Nat.eqb (length y_true) (length y_pred)
  then Some (- (inject_Z (sum_abs_diff y_true y_pred)
                / inject_Z (Z.of_nat (length y_true))))%Q
  else None.

(** *** Choice of the best candidate *)

Definition Qsum (l : list Q) : Q := fold_right Qplus 0%Q l.

(** Average over all folds and repeats. *)
Definition average (scores : list Q) : Q :=
  (Qsum scores / inject_Z (Z.of_nat (length scores)))%Q.

(** Scan of the mean scores from position [i] on: the incumbent [b]
    (with mean [mb]) is replaced only by a strictly greater mean. *)
Fixpoint scan_best (means : list Q) (i b : nat) (mb : Q) : nat * Q :=
  match means with
  | [] => (b, mb)
  | m :: rest =>
      match Qcompare mb m with
      | Lt => scan_best rest (S i) i m
      | _ => scan_best rest (S i) b mb
      end
  end.

(** Modelled from the spec: the selection rule of [GridSearchCV] is
    scikit-learn's.  Section 4.2: the grid value with the best
    (highest) average score; ties: first occurrence in iteration
    order. *)
Definition best_index (means : list Q) : option (nat * Q) :=
  match means with
  | [] => None
  | m :: rest => Some (scan_best rest 1 0 m)
  end.

(** The candidate selected for a grid and its table of fold scores
    (one row of scores per grid value). *)
Definition select_best (grid : list float) (cv_scores : list (list Q))
  : option (nat * float * Q) :=
  if Nat.eqb (length grid) (length cv_scores) then
    match best_index (map average cv_scores) with
    | Some (i, m) =>
        match nth_error grid i with
        | Some c => Some (i, c, m)
        | None => None
        end
    | None => None
    end
  else None.

(** *** Fitting and predicting *)

Section WithBackend.

Context (B : Backend).

(** [est.fit(X, y)] once the seed of the solver is known. *)
Definition fit_with_seed (p : Params) (X : pd.DataFrame) (y : list Z)
    (seed : Z) : Estimator :=
  let wb := liblinear_train B p X y seed in
  {| params := p; coef_ := Some (fst wb); intercept_ := Some (snd wb) |}.

(** [check_random_state(p.random_state)] followed by the draw of the
    solver seed: an integer seeds a fresh generator, [None] stands for
    the process-wide generator [g], which the draw advances. *)
Definition draw_solver_seed (p : Params) (g : RandomState B)
  : Z * RandomState B :=
  match random_state p with
  | Some s => (fst (randint B (RandomState_seed B s)), g)
  | None => randint B g
  end.

(** [est.predict(X)]: class 1 where the decision function is positive,
    class 0 elsewhere; an estimator that was never fitted raises. *)
Definition predict (est : Estimator) (X : pd.DataFrame) : option (list Z) :=
  match coef_ est, intercept_ est with
  | Some w, Some b =>
      Some (map (fun row =>
                   if F64.ltb F64.zero (decision_function B w b row)
                   then 1 else 0)
                (pd.values X))
  | _, _ => None
  end.

(** [est.score(X, y)], the accuracy of the predictions on [X]. *)
Definition score (est : Estimator) (X : pd.DataFrame) (y : list Z)
  : option float :=
  match predict est X with
  | Some y_pred => accuracy_score y y_pred
  | None => None
  end.

(** *** [train_test_split] *)

(** [train_test_split(X, Y, test_size=t, random_state=seed)]: the test
    part has [ceil(t * n)] samples, the first ones of a permutation
    drawn from a generator seeded with [seed]; the training part is the
    rest of that permutation. *)
Definition n_test_samples (test_size : float) (n : nat) : option nat :=
  if F64.ltb F64.zero test_size && F64.ltb test_size (F64.of_Z 1)
  then match F64.ceil (F64.mul test_size (F64.of_Z (Z.of_nat n))) with
       | Some k => Some (Z.to_nat k)
       | None => None
       end
  else None.

Definition split_indices (n n_test : nat) (seed : Z) : list nat * list nat :=
  let perm := fst (permutation B (RandomState_seed B seed) n) in
  (firstn (n - n_test) (skipn n_test perm), firstn n_test perm).

Definition train_test_split (X : pd.DataFrame) (Y : pd.Series)
    (test_size : float) (seed : Z)
  : option (pd.DataFrame * pd.DataFrame * pd.Series * pd.Series) :=
  let n := pd.nrows X in
  if negb (Nat.eqb n (length (pd.labels Y))) then None else
  match n_test_samples test_size n with
  | None => None
  | Some n_test =>
      if Nat.eqb (n - n_test) 0 then None else
      let '(ind_train, ind_test) := split_indices n n_test seed in
      match pd.iloc X ind_train, pd.iloc X ind_test,
            pd.take (pd.labels Y) ind_train, pd.take (pd.labels Y) ind_test with
      | Some x_train, Some x_test, Some y_train, Some y_test =>
          Some (x_train, x_test,
                {| pd.name := pd.name Y; pd.labels := y_train |},
                {| pd.name := pd.name Y; pd.labels := y_test |})
      | _, _, _, _ => None
      end
  end.

(** *** [RepeatedKFold] *)

Record RepeatedKFold : Type := {
  n_splits : nat;
  n_repeats : nat;
  cv_random_state : Z
}.

(** The first [n mod k] folds have one sample more than the others. *)
Definition fold_sizes (n k : nat) : list nat :=
  map (fun j => (n / k + (if Nat.ltb j (n mod k) then 1 else 0))%nat) (seq 0 k).

Fixpoint chunks (l : list nat) (sizes : list nat) : list (list nat) :=
  match sizes with
  | [] => []
  | s :: rest => firstn s l :: chunks (skipn s l) rest
  end.

Definition mem (i : nat) (l : list nat) : bool := existsb (Nat.eqb i) l.

(** One shuffled [KFold]: every chunk of the shuffled positions is the
    test part of one fold, as a mask over [0..n-1]. *)
Definition KFold_split (k : nat) (shuffled : list nat) (n : nat)
  : list (list nat * list nat) :=
  map (fun test =>
         (List.filter (fun i => negb (mem i test)) (seq 0 n),
          List.filter (fun i => mem i test) (seq 0 n)))
      (chunks shuffled (fold_sizes n k)).

Fixpoint repeated_folds (k repeats : nat) (g : RandomState B) (n : nat)
  : list (list nat * list nat) :=
  match repeats with
  | O => []
  | S r =>
      let pg := permutation B g n in
      KFold_split k (fst pg) n ++ repeated_folds k r (snd pg) n
  end.

(** [cv.split(X)]: more splits than samples is refused. *)
Definition split (cv : RepeatedKFold) (n : nat)
  : option (list (list nat * list nat)) :=
  if Nat.ltb n (n_splits cv) then None
  else Some (repeated_folds (n_splits cv) (n_repeats cv)
                            (RandomState_seed B (cv_random_state cv)) n).

(** *** [GridSearchCV] *)

Record GridSearchCV : Type := {
  estimator : nat;                (* reference to the estimator object *)
  param_grid : option (list float); (* the axis "C" of the grid *)
  scoring : string;
  cv : RepeatedKFold;
  n_jobs : Z
}.

(** What [search.fit] leaves on the search object. *)
Record SearchResults : Type := {
  best_index_ : nat;
  best_params_C : float;          (* best_params_["C"] *)
  best_score_ : Q;
  best_estimator_ : Estimator;
  cv_scores : list (list Q)
}.

(** One task of the search: fit a clone with [C = c] on the training
    part of a fold and score it on the held-out part. *)
Definition fit_and_score (base : Params) (X : pd.DataFrame) (y : list Z)
    (c : float) (fold : list nat * list nat) (seed : Z) : option Q :=
  match pd.iloc X (fst fold), pd.take y (fst fold),
        pd.iloc X (snd fold), pd.take y (snd fold) with
  | Some x_tr, Some y_tr, Some x_te, Some y_te =>
      let est := fit_with_seed (set_params_C c base) x_tr y_tr seed in
      match predict est x_te with
      | Some y_pred => neg_mean_absolute_error y_te y_pred
      | None => None
      end
  | _, _, _, _ => None
  end.

(** The tasks run in worker processes ([n_jobs=-1]); the solver seed of
    task number [t] comes from the generator of the worker that runs
    it, here [task_seed t].  Candidates are the outer loop, folds the
    inner one. *)
Definition cross_validate (base : Params) (X : pd.DataFrame) (y : list Z)
    (grid : list float) (folds : list (list nat * list nat))
    (task_seed : nat -> Z) : option (list (list Q)) :=
  mapM (fun ac : nat * float =>
          mapM (fun bf : nat * (list nat * list nat) =>
                  fit_and_score base X y (snd ac) (snd bf)
                    (task_seed (fst ac * length folds + fst bf)%nat))
               (combine (seq 0 (length folds)) folds))
       (combine (seq 0 (length grid)) grid).

(** [search.fit(X, y)].  The estimator handed to the constructor is
    cloned, never modified; the best candidate is refitted on all of
    [X] in the calling process, which draws one solver seed from the
    process-wide generator [g]. *)
Definition GridSearchCV_fit (search : GridSearchCV) (base : Estimator)
    (X : pd.DataFrame) (y : list Z) (task_seed : nat -> Z)
    (g : RandomState B) : option (SearchResults * RandomState B) :=
  match param_grid search, split (cv search) (pd.nrows X) with
  | Some grid, Some folds =>
      match cross_validate (params (clone base)) X y grid folds task_seed with
      | Some table =>
          match select_best grid table with
          | Some (i, c, m) =>
              let p := set_params_C c (params (clone base)) in
              let sg := draw_solver_seed p g in
              Some ({| best_index_ := i;
                       best_params_C := c;
                       best_score_ := m;
                       best_estimator_ := fit_with_seed p X y (fst sg);
                       cv_scores := table |},
                    snd sg)
          | None => None
          end
      | None => None
      end
  | _, _ => None
  end.

End WithBackend.

End sklearn.

(** ** The notebook session

    A cell runs in a session that holds the estimator objects (Python
    variables bind references to them), the process-wide numpy random
    generator, which no cell seeds, and the outputs shown so far.  An
    exception ends the run. *)

Inductive Value : Type :=
  | VIndex (names : list string)
  | VEstimator (est : sklearn.Estimator)
  | VScore (s : Q)
  | VFloat (x : float)
  | VParams (c : float)
  | VDict (d : py.dict float)
  | VList (names : list string)
  | VArray (a : list Z).

Inductive Output : Type :=
  | Print (label : string) (v : Value)   (* print(label, v) *)
  | Display (v : Value).                 (* value of the last expression *)

Section Session.

Context (B : sklearn.Backend).

Record State : Type := {
  heap : list sklearn.Estimator;
  np_random : sklearn.RandomState B;
  out : list Output
}.

Definition NB (A : Type) : Type := State -> option (A * State).

Definition ret {A : Type} (a : A) : NB A := fun s => Some (a, s).

Definition bind {A C : Type} (m : NB A) (k : A -> NB C) : NB C :=
  fun s => match m s with
           | Some (a, s') => k a s'
           | None => None
           end.

(** An operation that may raise. *)
Definition lift {A : Type} (o : option A) : NB A :=
  fun s => match o with
           | Some a => Some (a, s)
           | None => None
           end.

(** A new object; the result is the reference to it. *)
Definition alloc (est : sklearn.Estimator) : NB nat :=
  fun s => Some (length (heap s),
                 {| heap := heap s ++ [est];
                    np_random := np_random s;
                    out := out s |}).

Definition load (r : nat) : NB sklearn.Estimator :=
  fun s => match nth_error (heap s) r with
           | Some est => Some (est, s)
           | None => None
           end.

Definition store (r : nat) (est : sklearn.Estimator) : NB unit :=
  fun s => Some (tt, {| heap := <[r := est]> (heap s);
                        np_random := np_random s;
                        out := out s |}).

Definition emit (o : Output) : NB unit :=
  fun s => Some (tt, {| heap := heap s;
                        np_random := np_random s;
                        out := out s ++ [o] |}).

(** Run a computation that draws from the process-wide generator. *)
Definition with_np_random {A : Type}
    (f : sklearn.RandomState B -> A * sklearn.RandomState B) : NB A :=
  fun s => let ag := f (np_random s) in
           Some (fst ag, {| heap := heap s;
                            np_random := snd ag;
                            out := out s |}).

End Session.

Arguments ret {B A} a.
Arguments bind {B A C} m k.
Arguments lift {B A} o.
Arguments alloc {B} est.
Arguments load {B} r.
Arguments store {B} r est.
Arguments emit {B} o.
Arguments with_np_random {B A} f.
Arguments heap {B} s.
Arguments np_random {B} s.
Arguments out {B} s.

Notation "'let*' x ':=' m 'in' k" := (bind m (fun x => k))
  (at level 10, x name, m at level 100, k at level 200).
Notation "'let*' ' p ':=' m 'in' k" := (bind m (fun x => match x with p => k end))
  (at level 10, p pattern, m at level 100, k at level 200).
Notation "m ';;' k" := (bind m (fun _ => k))
  (at level 100, k at level 200, right associativity).

Section Notebooks.

Context (B : sklearn.Backend).

(** [lasso_model.fit(X, y)] on the object behind a reference: the
    object is updated in place and returned. *)
Definition fit (r : nat) (X : pd.DataFrame) (y : list Z)
  : NB B sklearn.Estimator :=
  let* est := load r in
  let* seed := with_np_random (sklearn.draw_solver_seed B (sklearn.params est)) in
  let fitted := sklearn.fit_with_seed B (sklearn.params est) X y seed in
  store r fitted ;;
  ret fitted.

(** [search.fit(X, y)]: reads the estimator behind the reference held
    by the search object. *)
Definition search_fit (search : sklearn.GridSearchCV) (X : pd.DataFrame)
    (y : list Z) (task_seed : nat -> Z) : NB B sklearn.SearchResults :=
  let* base := load (sklearn.estimator search) in
  fun s =>
    match sklearn.GridSearchCV_fit B search base X y task_seed (np_random s) with
    | Some (res, g) =>
        Some (res, {| heap := heap s; np_random := g; out := out s |})
    | None => None
    end.

(** The object returned by [sklearn.datasets.load_breast_cancer()]. *)
Record Bunch : Type := {
  data : list (list float);
  feature_names : list string;
  target : list Z
}.

(** The variables bound by the cells that load, split and tune; these
    cells are the same in both notebooks. *)
Record Tuned : Type := {
  X : pd.DataFrame;
  Y : pd.Series;
  data_ : pd.DataFrame;            (* the variable [data] *)
  x_train : pd.DataFrame;
  x_test : pd.DataFrame;
  y_train : pd.Series;
  y_test : pd.Series;
  lasso_model : nat;
  search : sklearn.GridSearchCV;
  results : sklearn.SearchResults
}.

Definition tune (breast_cancer_dataset : Bunch) (task_seed : nat -> Z)
  : NB B Tuned :=
  (* splitting vectors *)
  let* X := lift (pd.new_DataFrame (data breast_cancer_dataset)
                                   (feature_names breast_cancer_dataset)) in
  let Y := {| pd.name := "target"; pd.labels := target breast_cancer_dataset |} in
  let data := pd.concat_axis1 X Y in
  emit (Print "Features: " (VIndex (pd.columns X))) ;;
  (* splitting data *)
  let* '(x_train, x_test, y_train, y_test) :=
    lift (sklearn.train_test_split B X Y (F64.literal 2 10) 123) in
  (* defining the model and the evaluation method *)
  let* lasso_model :=
    alloc (sklearn.unfitted (sklearn.LogisticRegression None "l1" "liblinear" 1000)) in
  let cross_validation :=
    {| sklearn.n_splits := 10; sklearn.n_repeats := 3;
       sklearn.cv_random_state := 321 |} in
  (* defining the Grid Search Cross Validation *)
  let grid := grid_C in
  let search :=
    {| sklearn.estimator := lasso_model;
       sklearn.param_grid := grid;
       sklearn.scoring := "neg_mean_absolute_error";
       sklearn.cv := cross_validation;
       sklearn.n_jobs := -1 |} in
  (* tuning *)
  let* results := search_fit search x_train (pd.labels y_train) task_seed in
  let* fitted := fit lasso_model x_train (pd.labels y_train) in
  emit (Display (VEstimator fitted)) ;;
  ret {| X := X; Y := Y; data_ := data;
         x_train := x_train; x_test := x_test;
         y_train := y_train; y_test := y_test;
         lasso_model := lasso_model; search := search; results := results |}.

(** [dict(zip(data.columns, lasso_model.coef_[0]))] *)
Definition feature_importance_of (columns : list string) (coef : list float)
  : py.dict float :=
  py.dict_of (py.zip columns coef).

(** [[k for k, v in feature_importance.items() if v != 0]] *)
Definition selected_of (feature_importance : py.dict float) : list string :=
  map fst (List.filter (fun kv => py.ne_zero (snd kv)) (py.items feature_importance)).

(** [lasso_model.coef_[0]]; reading it before any fit raises. *)
Definition coef_0 (r : nat) : NB B (list float) :=
  let* est := load r in
  lift (sklearn.coef_ est).

(** [LogisticRegression(C=results.best_params_["C"], penalty="l1",
    solver="liblinear", max_iter=1000)] *)
Definition refit_params (results : sklearn.SearchResults) : sklearn.Params :=
  sklearn.LogisticRegression (Some (sklearn.best_params_C results))
                             "l1" "liblinear" 1000.

(** The variables at the end of a notebook. *)
Record Final : Type := {
  tuned : Tuned;
  feature_importance : py.dict float;
  x_train_selected : pd.DataFrame;
  x_test_selected : pd.DataFrame;
  final_model : nat                (* the last binding of [lasso_model] *)
}.

(** *** src/lasso_breast_cancer.ipynb

    The score is shown rounded to five digits; the outputs below carry
    the values themselves, not their printed form. *)

Definition lasso_breast_cancer (breast_cancer_dataset : Bunch)
    (task_seed : nat -> Z) : NB B Final :=
  let* t := tune breast_cancer_dataset task_seed in
  emit (Print "MAE: " (VScore (sklearn.best_score_ (results t)))) ;;
  emit (Print "Config: " (VParams (sklearn.best_params_C (results t)))) ;;
  (* feature selection *)
  let* coef := coef_0 (lasso_model t) in
  let feature_importance := feature_importance_of (pd.columns (data_ t)) coef in
  emit (Display (VDict feature_importance)) ;;
  let* x_train_selected :=
    lift (pd.getitem (x_train t) (selected_of feature_importance)) in
  let* x_test_selected :=
    lift (pd.getitem (x_test t) (selected_of feature_importance)) in
  (* training the model *)
  let* lasso_model := alloc (sklearn.unfitted (refit_params (results t))) in
  let* fitted := fit lasso_model x_train_selected (pd.labels (y_train t)) in
  emit (Display (VEstimator fitted)) ;;
  (* making predictions and checking the model score *)
  let* model := load lasso_model in
  let* predicted_y := lift (sklearn.predict B model x_test_selected) in
  emit (Display (VArray predicted_y)) ;;
  let* model := load lasso_model in
  let* s := lift (sklearn.score B model x_test_selected (pd.labels (y_test t))) in
  emit (Print "score:" (VFloat s)) ;;
  ret {| tuned := t; feature_importance := feature_importance;
         x_train_selected := x_train_selected;
         x_test_selected := x_test_selected;
         final_model := lasso_model |}.

(** *** src/unnamed/part_000 *)

Definition part_000 (breast_cancer_dataset : Bunch)
    (task_seed : nat -> Z) : NB B Final :=
  let* t := tune breast_cancer_dataset task_seed in
  emit (Print "MAE = " (VScore (sklearn.best_score_ (results t)))) ;;
  emit (Print "The optimum ʎ =" (VParams (sklearn.best_params_C (results t)))) ;;
  (* feature selection *)
  let* coef := coef_0 (lasso_model t) in
  let feature_importance := feature_importance_of (pd.columns (data_ t)) coef in
  emit (Display (VDict feature_importance)) ;;
  let selected_ := selected_of feature_importance in
  emit (Print "Selected features: " (VList selected_)) ;;
  let* x_train_selected := lift (pd.getitem (x_train t) selected_) in
  let* x_test_selected := lift (pd.getitem (x_test t) selected_) in
  (* fitting the model with the best hyperparameter and the selected features *)
  let* lasso_model := alloc (sklearn.unfitted (refit_params (results t))) in
  let* fitted := fit lasso_model x_train_selected (pd.labels (y_train t)) in
  emit (Display (VEstimator fitted)) ;;
  (* making predictions and checking the model score *)
  let* model := load lasso_model in
  let* y_pred := lift (sklearn.predict B model x_train_selected) in
  let* a := lift (sklearn.accuracy_score y_pred (pd.labels (y_train t))) in
  emit (Print "Accuracy on training data:" (VFloat a)) ;;
  let* model := load lasso_model in
  let* y_pred := lift (sklearn.predict B model x_test_selected) in
  let* a := lift (sklearn.accuracy_score y_pred (pd.labels (y_test t))) in
  emit (Display (VFloat a)) ;;
  ret {| tuned := t; feature_importance := feature_importance;
         x_train_selected := x_train_selected;
         x_test_selected := x_test_selected;
         final_model := lasso_model |}.

(** A run starts with no objects, nothing shown, and the process-wide
    generator in whatever state [g] the process gave it. *)
Definition initial (g : sklearn.RandomState B) : State B :=
  {| heap := []; np_random := g; out := [] |}.

End Notebooks.

(** ** What the notebooks show

    The outputs stored in the two notebook files, transcribed: a decimal
    shown by Python stands for the binary64 number nearest to it. *)

Module recorded.

Definition neg_literal (num den : positive) : float :=
  SFopp (F64.literal num den).

(** The 30 feature names printed by the cell that builds [data] (the
    same in both notebooks). *)
Definition feature_names : list string :=
  ["mean radius"; "mean texture"; "mean perimeter"; "mean area";
   "mean smoothness"; "mean compactness"; "mean concavity";
   "mean concave points"; "mean symmetry"; "mean fractal dimension";
   "radius error"; "texture error"; "perimeter error"; "area error";
   "smoothness error"; "compactness error"; "concavity error";
   "concave points error"; "symmetry error"; "fractal dimension error";
   "worst radius"; "worst texture"; "worst perimeter"; "worst area";
   "worst smoothness"; "worst compactness"; "worst concavity";
   "worst concave points"; "worst symmetry"; "worst fractal dimension"].

(** [feature_importance] as displayed in src/lasso_breast_cancer.ipynb. *)
Definition feature_importance_lasso_breast_cancer : py.dict float :=
  [("mean radius", F64.literal 4676032476733902 1000000000000000);
   ("mean texture", F64.literal 13861617423350192 100000000000000000);
   ("mean perimeter", neg_literal 31260077498069366 100000000000000000);
   ("mean area", neg_literal 15187357927418205 1000000000000000000);
   ("mean smoothness", F64.zero);
   ("mean compactness", F64.zero);
   ("mean concavity", F64.zero);
   ("mean concave points", F64.zero);
   ("mean symmetry", F64.zero);
   ("mean fractal dimension", F64.zero);
   ("radius error", F64.zero);
   ("texture error", F64.literal 17703818706914807 10000000000000000);
   ("perimeter error", F64.zero);
   ("area error", neg_literal 941036525398894 10000000000000000);
   ("smoothness error", F64.zero);
   ("compactness error", F64.zero);
   ("concavity error", F64.zero);
   ("concave points error", F64.zero);
   ("symmetry error", F64.zero);
   ("fractal dimension error", F64.zero);
   ("worst radius", F64.zero);
   ("worst texture", neg_literal 3944082053909299 10000000000000000);
   ("worst perimeter", neg_literal 54189009992269076 1000000000000000000);
   ("worst area", neg_literal 14895905720181025 1000000000000000000);
   ("worst smoothness", F64.zero);
   ("worst compactness", F64.zero);
   ("worst concavity", neg_literal 3388136304067478 1000000000000000);
   ("worst concave points", F64.zero);
   ("worst symmetry", F64.zero);
   ("worst fractal dimension", F64.zero)].

(** [feature_importance] as displayed in src/unnamed/part_000. *)
Definition feature_importance_part_000 : py.dict float :=
  [("mean radius", F64.literal 43709647723744816 10000000000000000);
   ("mean texture", F64.literal 13537840215857122 100000000000000000);
   ("mean perimeter", neg_literal 25790269053419024 100000000000000000);
   ("mean area", neg_literal 1583579744291656 100000000000000000);
   ("mean smoothness", F64.zero);
   ("mean compactness", F64.zero);
   ("mean concavity", F64.zero);
   ("mean concave points", F64.zero);
   ("mean symmetry", F64.zero);
   ("mean fractal dimension", F64.zero);
   ("radius error", F64.zero);
   ("texture error", F64.literal 174890982969327 100000000000000);
   ("perimeter error", F64.zero);
   ("area error", neg_literal 943892589732414 10000000000000000);
   ("smoothness error", F64.zero);
   ("compactness error", F64.zero);
   ("concavity error", F64.zero);
   ("concave points error", F64.zero);
   ("symmetry error", F64.zero);
   ("fractal dimension error", F64.zero);
   ("worst radius", F64.zero);
   ("worst texture", neg_literal 38930985324454537 100000000000000000);
   ("worst perimeter", neg_literal 60549036816239174 1000000000000000000);
   ("worst area", neg_literal 14416518854851793 1000000000000000000);
   ("worst smoothness", F64.zero);
   ("worst compactness", F64.zero);
   ("worst concavity", neg_literal 35930329589942347 10000000000000000);
   ("worst concave points", F64.zero);
   ("worst symmetry", F64.zero);
   ("worst fractal dimension", F64.zero)].


(** [best_params_["C"]] as printed: 0.87 in src/lasso_breast_cancer.ipynb,
    0.9 in src/unnamed/part_000. *)
Definition best_C_lasso_breast_cancer : float := F64.literal 87 100.
Definition best_C_part_000 : float := F64.literal 9 10.

(** [predicted_y] as displayed in src/lasso_breast_cancer.ipynb. *)
Definition predicted_y : list Z :=
  [1; 1; 0; 1; 0; 1; 1; 1; 1; 1; 1; 0; 0; 1; 0; 1; 1; 1; 1; 1; 0; 0; 1; 1;
   1; 0; 0; 1; 0; 1; 0; 1; 1; 1; 0; 1; 1; 1; 1; 0; 0; 1; 0; 1; 0; 1; 0; 0;
   1; 0; 0; 0; 1; 1; 1; 0; 1; 0; 0; 1; 0; 1; 1; 1; 1; 0; 1; 1; 1; 0; 1; 1;
   0; 1; 0; 1; 1; 0; 0; 0; 1; 0; 0; 1; 1; 1; 0; 1; 0; 1; 0; 1; 1; 0; 1; 1;
   1; 1; 1; 1; 1; 1; 1; 1; 1; 1; 1; 1; 1; 1; 1; 1; 1; 0].

(** The test accuracy both notebooks show, 0.9824561403508771, and the
    training accuracy src/unnamed/part_000 prints, 0.9538461538461539. *)
Definition test_accuracy : float :=
  F64.literal 9824561403508771 10000000000000000.
Definition training_accuracy : float :=
  F64.literal 9538461538461539 10000000000000000.


End recorded.

(** ** A small backend and dataset on which the notebooks can be run *)

Module toy.

(** The generator state is a counter; the solver returns its seed as
    every other coefficient, so that the seed is visible in the result. *)
Definition backend : sklearn.Backend :=
  {| sklearn.RandomState := Z;
     sklearn.RandomState_seed := fun seed => seed;
     sklearn.permutation := fun g n => (rev (seq 0 n), g + 1);
     sklearn.randint := fun g => (g, g + 1);
     sklearn.liblinear_train := fun p X y seed =>
       (map (fun j : nat => if Nat.even j then F64.of_Z seed else F64.zero)
            (seq 0 (length (pd.columns X))),
        F64.zero);
     sklearn.decision_function := fun w b row =>
       F64.add (F64.mul (nth 0 w F64.zero) (nth 0 row F64.zero)) b |}.

(** Twenty samples with the 30 feature columns of the real dataset. *)
Definition dataset : Bunch :=
  {| data := map (fun i : nat => repeat (F64.of_Z (Z.of_nat i - 10)) 30) (seq 0 20);
     feature_names := recorded.feature_names;
     target := map (fun i : nat => Z.of_nat (i mod 2)) (seq 0 20) |}.

(** A dataset of the real size, 569 samples. *)
Definition dataset_569 : Bunch :=
  {| data := repeat (repeat F64.zero 30) 569;
     feature_names := recorded.feature_names;
     target := repeat 0 569 |}.

Definition task_seed (t : nat) : Z := Z.of_nat t.

End toy.


(** ** Conditions and observations used in the statements *)

(** A well-formed dataset: one value per feature name in every row, one
    label per row, and a split that leaves the ten samples that the
    ten folds need. *)
Definition dataset_ok (ds : Bunch) : bool :=
  forallb (fun row => Nat.eqb (length row) (length (feature_names ds))) (data ds)
  && Nat.eqb (length (data ds)) (length (target ds))
  && match sklearn.n_test_samples (F64.literal 2 10) (length (data ds)) with
     | Some k => Nat.leb 10 (length (data ds) - k)
     | None => false
     end.

(** The parameters of the estimator built by the cell that defines the
    model: no [C] is passed. *)
Definition untuned_params : sklearn.Params :=
  sklearn.LogisticRegression None "l1" "liblinear" 1000.

(** The floats a run has shown (printed or displayed), in order. *)
Definition float_outputs (outs : list Output) : list float :=
  flat_map (fun o => match o with
                     | Print _ (VFloat x) | Display (VFloat x) => [x]
                     | _ => []
                     end) outs.

(** What the cells that load, split and tune leave behind, for a run
    started with the process-wide generator in state [g]: the variables
    [t] and the one estimator object [full]. *)
Definition tune_post (B : sklearn.Backend) (ds : Bunch) (task_seed : nat -> Z)
    (g : sklearn.RandomState B) (t : Tuned) (full : sklearn.Estimator) : Prop :=
  pd.new_DataFrame (data ds) (feature_names ds) = Some (X t) /\
  Y t = {| pd.name := "target"; pd.labels := target ds |} /\
  data_ t = pd.concat_axis1 (X t) (Y t) /\
  sklearn.train_test_split B (X t) (Y t) (F64.literal 2 10) 123
  = Some (x_train t, x_test t, y_train t, y_test t) /\
  lasso_model t = 0%nat /\
  sklearn.param_grid (search t) = grid_C /\
  sklearn.GridSearchCV_fit B (search t) (sklearn.unfitted untuned_params)
    (x_train t) (pd.labels (y_train t)) task_seed g
  = Some (results t, snd (sklearn.randint B g)) /\
  In (sklearn.best_params_C (results t)) grid_values /\
  full = sklearn.fit_with_seed B untuned_params (x_train t)
           (pd.labels (y_train t))
           (fst (sklearn.randint B (snd (sklearn.randint B g)))) /\
  pd.columns (x_train t) = feature_names ds /\
  pd.columns (x_test t) = feature_names ds /\
  pd.nrows (x_train t) = length (pd.labels (y_train t)) /\
  pd.nrows (x_test t) = length (pd.labels (y_test t)).

(** What the cells after the tuning compute, in either notebook: the
    coefficients [coef] of the object fitted before, the two reduced
    frames, and the object [refit] fitted on the reduced training
    frame. *)
Definition selection_post (B : sklearn.Backend) (ds : Bunch)
    (g : sklearn.RandomState B) (t : Tuned) (full : sklearn.Estimator)
    (coef : list float) (xs xts : pd.DataFrame) (refit : sklearn.Estimator)
  : Prop :=
  sklearn.coef_ full = Some coef /\
  length coef = length (feature_names ds) /\
  pd.getitem (x_train t)
    (selected_of (feature_importance_of (pd.columns (data_ t)) coef)) = Some xs /\
  pd.getitem (x_test t)
    (selected_of (feature_importance_of (pd.columns (data_ t)) coef)) = Some xts /\
  refit = sklearn.fit_with_seed B (refit_params (results t)) xs
            (pd.labels (y_train t))
            (fst (sklearn.randint B
                    (snd (sklearn.randint B (snd (sklearn.randint B g)))))).






(** [first_max l b m]: position [b] of [l] holds [m], no entry of [l]
    exceeds [m], and every entry before [b] is strictly below [m]. *)
Definition first_max (l : list Q) (b : nat) (m : Q) : Prop :=
  nth_error l b = Some m /\
  (forall (j : nat) (x : Q), nth_error l j = Some x -> (x <= m)%Q) /\
  (forall (j : nat) (x : Q), (j < b)%nat -> nth_error l j = Some x -> (x < m)%Q).

(** The two notebooks of the repository. *)
Definition is_notebook (B : sklearn.Backend)
    (nb : Bunch -> (nat -> Z) -> NB B Final) : Prop :=
  nb = lasso_breast_cancer B \/ nb = part_000 B.

(** Reduction of the session state after a step of a notebook. *)
Ltac nb_simpl :=
  cbn [heap np_random out length app nth_error
       sklearn.estimator sklearn.params sklearn.coef_ sklearn.intercept_
       sklearn.fit_with_seed].


(** ** Further conditions used in the statements *)

(** A class label of the dataset: 0 or 1. *)
Definition binary (v : Z) : Prop := v = 0 \/ v = 1.


(** A frame whose rows all have one value per column. *)
Definition well_formed (df : pd.DataFrame) : Prop :=
  List.Forall (fun row => length row = length (pd.columns df)) (pd.values df).

(** [nb_simpl] in a hypothesis. *)
Ltac nb_simpl_in H :=
  cbn [heap np_random out length app nth_error
       sklearn.estimator sklearn.params sklearn.coef_ sklearn.intercept_
       sklearn.fit_with_seed] in H.

(** * Properties *)

(** ** Lists by position *)

Lemma forallb_indexed {A : Type} (f : nat -> A -> bool) (l : list A) :
  forall k : nat,
    forallb (fun p => f (fst p) (snd p)) (combine (seq k (length l)) l) = true ->
    forall (i : nat) (x : A), nth_error l i = Some x -> f (k + i)%nat x = true.
Proof.
  induction l as [|a l IH]; intros k H i x Hi.
  - destruct i; discriminate.
  - simpl in H. apply andb_prop in H as [Ha Hl].
    destruct i as [|i]; simpl in Hi.
    + injection Hi as <-. now rewrite Nat.add_0_r.
    + rewrite Nat.add_succ_r. apply (IH (S k) Hl i x Hi).
Qed.

Lemma forallb_indexed_0 {A : Type} (f : nat -> A -> bool) (l : list A) :
  forallb (fun p => f (fst p) (snd p)) (combine (seq 0 (length l)) l) = true ->
  forall (i : nat) (x : A), nth_error l i = Some x -> f i x = true.
Proof.
  intros H i x Hi. exact (forallb_indexed f l 0 H i x Hi).
Qed.

(** ** The grid *)

Lemma grid_C_computed : grid_C = Some grid_values.
Proof. vm_compute. reflexivity. Qed.

Lemma grid_values_length : length grid_values = 99%nat.
Proof. vm_compute. reflexivity. Qed.

Lemma grid_entries_checked :
  forallb (fun p => grid_entry_ok (fst p) (snd p))
          (combine (seq 0 (length grid_values)) grid_values) = true.
Proof. vm_compute. reflexivity. Qed.

Lemma float_same_eq (x y : float) : F64.same x y = true -> x = y.
Proof.
  destruct x as [s|s| |s m e], y as [s'|s'| |s' m' e']; simpl;
    try discriminate; try reflexivity.
  - intros H. apply Bool.eqb_prop in H. now subst.
  - intros H. apply Bool.eqb_prop in H. now subst.
  - intros H. apply andb_prop in H as [H He]. apply andb_prop in H as [Hs Hm].
    apply Bool.eqb_prop in Hs. apply Pos.eqb_eq in Hm. apply Z.eqb_eq in He.
    now subst.
Qed.

Lemma grid_formula_checked :
  forallb (fun p => F64.same (snd p) (grid_formula (fst p)))
          (combine (seq 0 (length grid_values)) grid_values) = true.
Proof. vm_compute. reflexivity. Qed.

(** Entry [i] of the grid is the binary64 value of [0.01 + i * 0.01]. *)
Lemma grid_entry_formula (i : nat) (x : float) :
  nth_error grid_values i = Some x -> x = grid_formula i.
Proof.
  intros H. apply float_same_eq.
  exact (forallb_indexed_0 (fun i x => F64.same x (grid_formula i))
           grid_values grid_formula_checked i x H).
Qed.

(** C7. The grid handed to the search has exactly 99 entries; entry [i]
    is the binary64 value of [0.01 + i * 0.01], which is the float
    nearest to the decimal [(i+1)/100] or a neighbour of it (at most
    [2^-53] away from the decimal), the first entry is the float 0.01,
    the last is the float 0.99, and every entry lies between the
    two. *)
Theorem grid_is_hundredths :
  grid_C = Some grid_values /\
  length grid_values = 99%nat /\
  (forall (i : nat) (x : float),
      nth_error grid_values i = Some x ->
      x = grid_formula i /\
      F64.is_finite x = true /\
      within_one_ulp x (hundredth (S i)) = true /\
      F64.leb (hundredth 1) x = true /\
      F64.leb x (hundredth 99) = true /\
      (Qabs (F64.to_Q x - Qmake (Z.of_nat (S i)) 100) <= Qmake 1 (2 ^ 53))%Q) /\
  nth_error grid_values 0 = Some (hundredth 1) /\
  nth_error grid_values 98 = Some (hundredth 99) /\
  F64.nearest (Qmake 1 100) (hundredth 1) = true /\
  F64.nearest (Qmake 99 100) (hundredth 99) = true.
Proof.
  split; [exact grid_C_computed|].
  split; [exact grid_values_length|].
  split.
  - intros i x Hi.
    split; [now apply grid_entry_formula|].
    pose proof (forallb_indexed_0 grid_entry_ok grid_values
                  grid_entries_checked i x Hi) as Hok.
    unfold grid_entry_ok in Hok.
    apply andb_prop in Hok as [Hok Hq].
    apply andb_prop in Hok as [Hok Hle99].
    apply andb_prop in Hok as [Hok Hle1].
    apply andb_prop in Hok as [Hfin Hulp].
    repeat split; try assumption.
    apply Qle_alt.
    destruct (Qcompare _ _); congruence.
  - repeat split; vm_compute; reflexivity.
Qed.

(** The decimals of the source text and of the stored outputs are read
    as the nearest binary64 number. *)
Lemma literals_are_nearest :
  F64.nearest (Qmake 2 10) (F64.literal 2 10) = true /\
  F64.nearest (Qmake 87 100) recorded.best_C_lasso_breast_cancer = true /\
  F64.nearest (Qmake 9 10) recorded.best_C_part_000 = true /\
  F64.nearest (Qmake 9824561403508771 10000000000000000)
              recorded.test_accuracy = true /\
  F64.nearest (Qmake 9538461538461539 10000000000000000)
              recorded.training_accuracy = true.
Proof.
  repeat split; vm_compute; reflexivity.
Qed.

(** ** Dictionaries built from [zip] *)

Lemma setitem_fresh {V : Type} (d : py.dict V) (k : string) (v : V) :
  ~ In k (py.keys d) -> py.setitem d k v = d ++ [(k, v)].
Proof.
  induction d as [|[k' v'] d IH]; simpl; intros Hk.
  - reflexivity.
  - destruct (String.eqb k' k) eqn:E.
    + apply String.eqb_eq in E. tauto.
    + rewrite IH by tauto. reflexivity.
Qed.

Lemma setitem_keys {V : Type} (d : py.dict V) (k : string) (v : V) :
  In k (py.keys d) -> py.keys (py.setitem d k v) = py.keys d.
Proof.
  induction d as [|[k' v'] d IH]; simpl; intros Hk.
  - contradiction.
  - destruct (String.eqb k' k) eqn:E; simpl.
    + reflexivity.
    + apply String.eqb_neq in E. destruct Hk as [Hk|Hk]; [contradiction|].
      f_equal. now apply IH.
Qed.

Lemma setitem_keys_NoDup {V : Type} (d : py.dict V) (k : string) (v : V) :
  List.NoDup (py.keys d) -> List.NoDup (py.keys (py.setitem d k v)).
Proof.
  intros Hd.
  destruct (in_dec String.string_dec k (py.keys d)) as [Hin|Hout].
  - now rewrite setitem_keys.
  - rewrite setitem_fresh by assumption.
    unfold py.keys. rewrite map_app. simpl.
    apply NoDup_Add with (a := k) (l := map fst d); [|split; assumption].
    rewrite <- (app_nil_r (map fst d)) at 1. apply Add_app.
Qed.

Lemma fold_setitem_NoDup {V : Type} (pairs : list (string * V)) :
  forall acc : py.dict V,
    List.NoDup (py.keys acc) ->
    List.NoDup (py.keys (fold_left (fun d kv => py.setitem d (fst kv) (snd kv))
                                   pairs acc)).
Proof.
  induction pairs as [|[k v] pairs IH]; simpl; intros acc Hacc.
  - exact Hacc.
  - apply IH. now apply setitem_keys_NoDup.
Qed.

(** A dict never has two entries under one key. *)
Lemma dict_of_keys_NoDup {V : Type} (pairs : list (string * V)) :
  List.NoDup (py.keys (py.dict_of pairs)).
Proof.
  unfold py.dict_of. apply fold_setitem_NoDup. constructor.
Qed.

Lemma fold_setitem_distinct {V : Type} (pairs : list (string * V)) :
  forall acc : py.dict V,
    List.NoDup (py.keys acc ++ map fst pairs) ->
    fold_left (fun d kv => py.setitem d (fst kv) (snd kv)) pairs acc
    = acc ++ pairs.
Proof.
  induction pairs as [|[k v] pairs IH]; simpl; intros acc Hnd.
  - now rewrite app_nil_r.
  - rewrite setitem_fresh.
    + rewrite IH.
      * now rewrite <- app_assoc.
      * unfold py.keys in *. rewrite map_app. simpl.
        rewrite <- app_assoc. exact Hnd.
    + apply NoDup_remove_2 in Hnd. intros Hin. apply Hnd.
      apply in_or_app. now left.
Qed.

(** With pairwise distinct keys, the dict is the list of pairs itself. *)
Lemma dict_of_distinct {V : Type} (pairs : list (string * V)) :
  List.NoDup (map fst pairs) -> py.dict_of pairs = pairs.
Proof.
  intros Hnd. unfold py.dict_of.
  now rewrite fold_setitem_distinct.
Qed.

(** [zip] ignores what the longer argument has beyond the shorter. *)
Lemma zip_truncates {A C : Type} (a extra : list A) (b : list C) :
  (length b <= length a)%nat -> py.zip (a ++ extra) b = py.zip a b.
Proof.
  unfold py.zip. revert b.
  induction a as [|x a IH]; intros [|y b] Hlen; simpl in *;
    try reflexivity; try lia.
  - destruct extra; reflexivity.
  - f_equal. apply IH. lia.
Qed.

Lemma zip_fst {A C : Type} (a : list A) (b : list C) :
  length a = length b -> map fst (py.zip a b) = a.
Proof.
  unfold py.zip. revert b.
  induction a as [|x a IH]; intros [|y b] Hlen; simpl in *;
    try reflexivity; try discriminate.
  f_equal. apply IH. lia.
Qed.

Lemma zip_snd {A C : Type} (a : list A) (b : list C) :
  length a = length b -> map snd (py.zip a b) = b.
Proof.
  unfold py.zip. revert b.
  induction a as [|x a IH]; intros [|y b] Hlen; simpl in *;
    try reflexivity; try discriminate.
  f_equal. apply IH. lia.
Qed.

Lemma zip_keys_incl {A C : Type} (a : list A) (b : list C) :
  incl (map fst (py.zip a b)) a.
Proof.
  unfold py.zip. revert b.
  induction a as [|x a IH]; intros [|y b]; simpl;
    try (intros z Hz; contradiction).
  intros z [Hz|Hz]; [now left | right; now apply (IH b)].
Qed.

Lemma setitem_keys_incl {V : Type} (d : py.dict V) (k : string) (v : V) :
  incl (py.keys (py.setitem d k v)) (k :: py.keys d).
Proof.
  destruct (in_dec String.string_dec k (py.keys d)) as [Hin|Hout].
  - rewrite setitem_keys by assumption. apply incl_tl, incl_refl.
  - rewrite setitem_fresh by assumption.
    unfold py.keys. rewrite map_app. simpl.
    intros z Hz. apply in_app_or in Hz as [Hz|[Hz|[]]]; [now right | now left].
Qed.

Lemma fold_setitem_keys_incl {V : Type} (pairs : list (string * V)) :
  forall acc : py.dict V,
    incl (py.keys (fold_left (fun d kv => py.setitem d (fst kv) (snd kv))
                             pairs acc))
         (py.keys acc ++ map fst pairs).
Proof.
  induction pairs as [|[k v] pairs IH]; simpl; intros acc.
  - rewrite app_nil_r. apply incl_refl.
  - intros z Hz. apply IH in Hz. apply in_app_or in Hz as [Hz|Hz].
    + apply setitem_keys_incl in Hz as [Hz|Hz].
      * apply in_or_app. right. now left.
      * apply in_or_app. now left.
    + apply in_or_app. right. now right.
Qed.

(** The keys of [dict(zip(columns, coef))] are among the columns. *)
Lemma feature_importance_keys_incl (columns : list string) (coef : list float) :
  incl (py.keys (feature_importance_of columns coef)) columns.
Proof.
  unfold feature_importance_of, py.dict_of.
  intros z Hz. apply fold_setitem_keys_incl in Hz. simpl in Hz.
  now apply zip_keys_incl in Hz.
Qed.

Lemma selected_incl_keys (fi : py.dict float) :
  incl (selected_of fi) (py.keys fi).
Proof.
  unfold selected_of, py.keys, py.items. intros k Hk.
  apply in_map_iff in Hk as [[k' v] [<- Hk]].
  apply filter_In in Hk as [Hk _].
  apply in_map_iff. now exists (k', v).
Qed.





(** ** The keys of [feature_importance] *)

Lemma feature_names_length : length recorded.feature_names = 30%nat.
Proof. reflexivity. Qed.

Lemma feature_names_NoDup : List.NoDup recorded.feature_names.
Proof.
  apply NoDup_ListNoDup.
  apply (bool_decide_unpack (NoDup recorded.feature_names)).
  vm_compute. exact I.
Qed.

Lemma target_not_a_feature_name : ~ In "target" recorded.feature_names.
Proof.
  intros H. unfold recorded.feature_names in H. simpl in H.
  repeat (destruct H as [H|H]; [discriminate H|]). exact H.
Qed.

(** The columns of [data]: the feature columns, then the label column. *)
Lemma concat_axis1_columns (X : pd.DataFrame) (Y : pd.Series) :
  pd.columns (pd.concat_axis1 X Y) = pd.columns X ++ [pd.name Y].
Proof. reflexivity. Qed.

Lemma feature_importance_zip (names extra : list string) (coef : list float) :
  List.NoDup names -> length coef = length names ->
  feature_importance_of (names ++ extra) coef = py.zip names coef.
Proof.
  intros Hnd Hlen. unfold feature_importance_of.
  rewrite zip_truncates by lia.
  apply dict_of_distinct. rewrite zip_fst by lia. exact Hnd.
Qed.

(** C9. [data.columns] has 31 labels and the coefficient vector 30
    entries; [zip] stops after the 30th pair, so [feature_importance]
    has the 30 feature names as its keys, in order, each with its
    coefficient, ["target"] is no key of it, and the label column can
    never be among the selected features. *)
Theorem target_is_never_selected (X : pd.DataFrame) (Y : pd.Series)
    (coef : list float) :
  pd.columns X = recorded.feature_names ->
  pd.name Y = "target" ->
  length coef = 30%nat ->
  length (pd.columns (pd.concat_axis1 X Y)) = 31%nat /\
  feature_importance_of (pd.columns (pd.concat_axis1 X Y)) coef
  = py.zip recorded.feature_names coef /\
  py.keys (feature_importance_of (pd.columns (pd.concat_axis1 X Y)) coef)
  = recorded.feature_names /\
  map snd (py.items (feature_importance_of (pd.columns (pd.concat_axis1 X Y)) coef))
  = coef /\
  length (feature_importance_of (pd.columns (pd.concat_axis1 X Y)) coef) = 30%nat /\
  ~ In "target" (py.keys (feature_importance_of (pd.columns (pd.concat_axis1 X Y)) coef)) /\
  ~ In "target" (selected_of (feature_importance_of (pd.columns (pd.concat_axis1 X Y)) coef)).
Proof.
  intros HX HY Hcoef.
  rewrite concat_axis1_columns, HX, HY.
  assert (Hfi : feature_importance_of (recorded.feature_names ++ ["target"]) coef
                = py.zip recorded.feature_names coef).
  { apply feature_importance_zip; [exact feature_names_NoDup|].
    now rewrite feature_names_length. }
  assert (Hkeys : py.keys (py.zip recorded.feature_names coef)
                  = recorded.feature_names).
  { unfold py.keys. apply zip_fst. now rewrite feature_names_length. }
  rewrite Hfi, Hkeys.
  split; [rewrite length_app, feature_names_length; reflexivity|].
  split; [reflexivity|].
  split; [reflexivity|].
  split; [unfold py.items; apply zip_snd; now rewrite feature_names_length|].
  split.
  { rewrite <- (length_map fst). fold (py.keys (py.zip recorded.feature_names coef)).
    rewrite Hkeys. apply feature_names_length. }
  split; [exact target_not_a_feature_name|].
  intros Hsel. apply selected_incl_keys in Hsel. rewrite Hkeys in Hsel.
  now apply target_not_a_feature_name.
Qed.

Lemma target_is_never_selected_witness :
  length (pd.columns (pd.concat_axis1
            {| pd.columns := recorded.feature_names; pd.values := [] |}
            {| pd.name := "target"; pd.labels := [] |})) = 31%nat /\
  ~ In "target"
      (selected_of
         (feature_importance_of
            (pd.columns (pd.concat_axis1
               {| pd.columns := recorded.feature_names; pd.values := [] |}
               {| pd.name := "target"; pd.labels := [] |}))
            (map snd recorded.feature_importance_part_000))).
Proof.
  pose proof (target_is_never_selected
    {| pd.columns := recorded.feature_names; pd.values := [] |}
    {| pd.name := "target"; pd.labels := [] |}
    (map snd recorded.feature_importance_part_000)
    eq_refl eq_refl eq_refl) as H.
  split; [apply H | apply H].
Defined.

(** ** The selected features of the recorded runs *)



(** ** Accuracy *)

Lemma count_equal_sym (a b : list Z) :
  sklearn.count_equal a b = sklearn.count_equal b a.
Proof.
  unfold sklearn.count_equal. revert b.
  induction a as [|x a IH]; intros [|y b]; simpl; try reflexivity.
  rewrite (Z.eqb_sym y x).
  destruct (Z.eqb x y); simpl; now rewrite IH.
Qed.

Lemma count_equal_le (a b : list Z) :
  (sklearn.count_equal a b <= length a)%nat.
Proof.
  unfold sklearn.count_equal. revert b.
  induction a as [|x a IH]; intros [|y b]; simpl; try lia.
  specialize (IH b). destruct (Z.eqb x y); simpl; lia.
Qed.

(** C10. [accuracy_score] gives the same result, or fails alike, when
    its two arguments are exchanged; so the calls of the unnamed
    notebook, which pass the predictions first, report what
    [lasso_model.score] reports with the labels first. *)
Theorem accuracy_score_symmetric :
  (forall a b : list Z,
      sklearn.accuracy_score a b = sklearn.accuracy_score b a) /\
  (forall (B : sklearn.Backend) (est : sklearn.Estimator)
          (X : pd.DataFrame) (y : list Z),
      sklearn.score B est X y
      = match sklearn.predict B est X with
        | Some y_pred => sklearn.accuracy_score y_pred y
        | None => None
        end).
Proof.
  assert (Hsym : forall a b : list Z,
             sklearn.accuracy_score a b = sklearn.accuracy_score b a).
  { intros a b. unfold sklearn.accuracy_score.
    rewrite (Nat.eqb_sym (length b) (length a)).
    destruct (Nat.eqb (length a) (length b)) eqn:E; [|reflexivity].
    apply Nat.eqb_eq in E.
    now rewrite (count_equal_sym a b), E. }
  split; [exact Hsym|].
  intros B est X y. unfold sklearn.score.
  destruct (sklearn.predict B est X) as [y_pred|]; [apply Hsym | reflexivity].
Qed.

(** The exact fraction of matching labels lies between 0 and 1. *)
Lemma accuracy_fraction_range (y_true y_pred : list Z) :
  y_true <> [] ->
  (0 <= sklearn.accuracy_fraction y_true y_pred <= 1)%Q.
Proof.
  intros Hne. unfold sklearn.accuracy_fraction.
  pose proof (count_equal_le y_true y_pred) as Hle.
  assert (Hpos : (0 < length y_true)%nat)
    by (destruct y_true; [contradiction | simpl; lia]).
  assert (HposQ : (0 < inject_Z (Z.of_nat (length y_true)))%Q).
  { unfold Qlt. simpl. lia. }
  split.
  - apply Qle_shift_div_l; [exact HposQ|].
    unfold Qle. simpl. lia.
  - apply Qle_shift_div_r; [exact HposQ|].
    unfold Qle. simpl. lia.
Qed.






(** ** The choice of the best grid value *)

Lemma first_max_keep (prefix : list Q) (b : nat) (mb m : Q) :
  first_max prefix b mb -> (m <= mb)%Q -> first_max (prefix ++ [m]) b mb.
Proof.
  intros [Hb [Hle Hlt]] Hm.
  assert (Hbl : (b < length prefix)%nat)
    by (apply nth_error_Some; congruence).
  split; [|split].
  - now rewrite nth_error_app1.
  - intros j x Hj.
    destruct (Nat.lt_ge_cases j (length prefix)) as [Hlt'|Hge].
    + rewrite nth_error_app1 in Hj by assumption. eauto.
    + rewrite nth_error_app2 in Hj by assumption.
      destruct (j - length prefix)%nat as [|[|n]]; simpl in Hj;
        try discriminate.
      now injection Hj as <-.
  - intros j x Hjb Hj.
    rewrite nth_error_app1 in Hj by lia. eauto.
Qed.

Lemma first_max_replace (prefix : list Q) (b : nat) (mb m : Q) :
  first_max prefix b mb -> (mb < m)%Q ->
  first_max (prefix ++ [m]) (length prefix) m.
Proof.
  intros [Hb [Hle Hlt]] Hm.
  split; [|split].
  - rewrite nth_error_app2 by lia. now rewrite Nat.sub_diag.
  - intros j x Hj.
    destruct (Nat.lt_ge_cases j (length prefix)) as [Hlt'|Hge].
    + rewrite nth_error_app1 in Hj by assumption.
      apply Qlt_le_weak. eapply Qle_lt_trans; eauto.
    + rewrite nth_error_app2 in Hj by assumption.
      destruct (j - length prefix)%nat as [|[|n]]; simpl in Hj;
        try discriminate.
      injection Hj as <-. apply Qle_refl.
  - intros j x Hjb Hj.
    rewrite nth_error_app1 in Hj by assumption.
    eapply Qle_lt_trans; eauto.
Qed.

Lemma scan_best_first_max (means : list Q) :
  forall (prefix : list Q) (b : nat) (mb : Q),
    first_max prefix b mb ->
    first_max (prefix ++ means)
              (fst (sklearn.scan_best means (length prefix) b mb))
              (snd (sklearn.scan_best means (length prefix) b mb)).
Proof.
  induction means as [|m rest IH]; intros prefix b mb Hfm; simpl.
  - now rewrite app_nil_r.
  - replace (prefix ++ m :: rest) with ((prefix ++ [m]) ++ rest)
      by (rewrite <- app_assoc; reflexivity).
    replace (S (length prefix)) with (length (prefix ++ [m]))
      by (rewrite length_app; simpl; lia).
    destruct (Qcompare mb m) eqn:E.
    + apply IH. apply first_max_keep; [assumption|].
      apply Qeq_alt in E. rewrite E. apply Qle_refl.
    + apply IH. apply first_max_replace with (b := b) (mb := mb); [assumption|].
      now apply Qlt_alt.
    + apply IH. apply first_max_keep; [assumption|].
      apply Qgt_alt in E. now apply Qlt_le_weak.
Qed.

Lemma best_index_first_max (means : list Q) (i : nat) (m : Q) :
  sklearn.best_index means = Some (i, m) -> first_max means i m.
Proof.
  destruct means as [|m0 rest]; simpl; [discriminate|].
  intros [= Hscan].
  assert (H0 : first_max [m0] 0 m0).
  { split; [reflexivity|]. split.
    - intros [|[|j]] x Hj; simpl in Hj; try discriminate.
      injection Hj as <-. apply Qle_refl.
    - intros j x Hj. lia. }
  pose proof (scan_best_first_max rest [m0] 0%nat m0 H0) as H.
  simpl in H. rewrite Hscan in H. exact H.
Qed.

(** The selection on a non-empty grid with one row of scores per value. *)
Lemma select_best_first_max (grid : list float) (table : list (list Q)) :
  grid <> [] ->
  length grid = length table ->
  exists (i : nat) (c : float) (m : Q),
    sklearn.select_best grid table = Some (i, c, m) /\
    nth_error grid i = Some c /\
    first_max (map sklearn.average table) i m.
Proof.
  intros Hne Hlen. unfold sklearn.select_best.
  rewrite Hlen, Nat.eqb_refl.
  destruct (sklearn.best_index (map sklearn.average table)) as [[i m]|] eqn:E.
  - pose proof (best_index_first_max _ _ _ E) as Hfm.
    assert (Hi : (i < length grid)%nat).
    { destruct Hfm as [Hi _]. rewrite Hlen, <- (length_map sklearn.average).
      apply nth_error_Some. congruence. }
    destruct (nth_error grid i) as [c|] eqn:Ec.
    + exists i, c, m. auto.
    + apply nth_error_None in Ec. lia.
  - destruct table; [destruct grid; [contradiction|discriminate]|discriminate].
Qed.

(** ** The calls that may raise do not *)

Lemma take_Some {A : Type} (rows : list A) (positions : list nat) :
  List.Forall (fun i => (i < length rows)%nat) positions ->
  exists r : list A,
    pd.take rows positions = Some r /\ length r = length positions.
Proof.
  intros Hall. unfold pd.take.
  destruct (mapM (fun i => nth_error rows i) positions) as [r|] eqn:E.
  - exists r. split; [reflexivity|]. symmetry. eapply length_mapM. exact E.
  - apply mapM_None_1 in E. apply List.Exists_exists in E as [i [Hi Hnone]].
    rewrite List.Forall_forall in Hall. apply Hall in Hi.
    apply nth_error_None in Hnone. lia.
Qed.

Lemma iloc_Some (X : pd.DataFrame) (positions : list nat) :
  List.Forall (fun i => (i < pd.nrows X)%nat) positions ->
  exists X' : pd.DataFrame,
    pd.iloc X positions = Some X' /\
    pd.columns X' = pd.columns X /\
    pd.nrows X' = length positions.
Proof.
  intros Hall. unfold pd.iloc.
  destruct (take_Some (pd.values X) positions Hall) as [r [-> Hr]].
  eexists. split; [reflexivity|]. split; [reflexivity | exact Hr].
Qed.

Lemma Forall_lt_firstn (n k : nat) (l : list nat) :
  List.Forall (fun i => (i < n)%nat) l ->
  List.Forall (fun i => (i < n)%nat) (firstn k l).
Proof.
  intros H. now apply Forall_take.
Qed.

Lemma Forall_lt_skipn (n k : nat) (l : list nat) :
  List.Forall (fun i => (i < n)%nat) l ->
  List.Forall (fun i => (i < n)%nat) (skipn k l).
Proof.
  intros H. now apply Forall_drop.
Qed.

Section Completion.

Context (B : sklearn.Backend) (HB : sklearn.Backend_ok B).

Lemma permutation_in_range (g : sklearn.RandomState B) (n : nat) :
  List.Forall (fun i => (i < n)%nat) (fst (sklearn.permutation B g n)) /\
  length (fst (sklearn.permutation B g n)) = n.
Proof.
  pose proof (sklearn.permutation_ok B HB g n) as Hp. split.
  - rewrite List.Forall_forall. intros i Hi.
    apply (Permutation_in _ Hp) in Hi. apply in_seq in Hi. lia.
  - rewrite (Permutation_length Hp). apply length_seq.
Qed.

(** The split of [n] samples into [n - k] training and [k] test samples. *)
Lemma train_test_split_Some (X : pd.DataFrame) (Y : pd.Series)
    (test_size : float) (seed : Z) (k : nat) :
  pd.nrows X = length (pd.labels Y) ->
  sklearn.n_test_samples test_size (pd.nrows X) = Some k ->
  (0 < pd.nrows X - k)%nat ->
  exists (x_train x_test : pd.DataFrame) (y_train y_test : pd.Series),
    sklearn.train_test_split B X Y test_size seed
    = Some (x_train, x_test, y_train, y_test) /\
    pd.columns x_train = pd.columns X /\
    pd.columns x_test = pd.columns X /\
    pd.nrows x_train = (pd.nrows X - k)%nat /\
    length (pd.labels y_train) = (pd.nrows X - k)%nat /\
    pd.nrows x_test = k /\
    length (pd.labels y_test) = k.
Proof.
  intros Hlen Hk Hpos. unfold sklearn.train_test_split.
  rewrite <- Hlen, Nat.eqb_refl. simpl. rewrite Hk.
  destruct (Nat.eqb (pd.nrows X - k) 0) eqn:E;
    [apply Nat.eqb_eq in E; lia|].
  unfold sklearn.split_indices.
  destruct (permutation_in_range (sklearn.RandomState_seed B seed) (pd.nrows X))
    as [Hrange Hplen].
  set (perm := fst (sklearn.permutation B (sklearn.RandomState_seed B seed)
                      (pd.nrows X))) in *.
  assert (Htrain : List.Forall (fun i => (i < pd.nrows X)%nat)
                     (firstn (pd.nrows X - k) (skipn k perm)))
    by now apply Forall_lt_firstn, Forall_lt_skipn.
  assert (Htest : List.Forall (fun i => (i < pd.nrows X)%nat) (firstn k perm))
    by now apply Forall_lt_firstn.
  destruct (iloc_Some X _ Htrain) as [x_train [-> [Hc1 Hn1]]].
  destruct (iloc_Some X _ Htest) as [x_test [-> [Hc2 Hn2]]].
  assert (Htrain' : List.Forall (fun i => (i < length (pd.labels Y))%nat)
                      (firstn (pd.nrows X - k) (skipn k perm)))
    by now rewrite <- Hlen.
  assert (Htest' : List.Forall (fun i => (i < length (pd.labels Y))%nat)
                     (firstn k perm))
    by now rewrite <- Hlen.
  destruct (take_Some (pd.labels Y) _ Htrain') as [y_train [-> Hl1]].
  destruct (take_Some (pd.labels Y) _ Htest') as [y_test [-> Hl2]].
  do 4 eexists. split; [reflexivity|]. simpl.
  rewrite Hn1, Hn2, Hl1, Hl2.
  rewrite !length_firstn, length_skipn, Hplen.
  repeat split; try assumption; lia.
Qed.

Lemma KFold_split_in_range (k : nat) (shuffled : list nat) (n : nat) :
  List.Forall (fun fold : list nat * list nat =>
            List.Forall (fun i => (i < n)%nat) (fst fold) /\
            List.Forall (fun i => (i < n)%nat) (snd fold))
         (sklearn.KFold_split k shuffled n).
Proof.
  unfold sklearn.KFold_split. rewrite List.Forall_forall. intros fold Hf.
  apply in_map_iff in Hf as [test [<- _]]. simpl.
  split; rewrite List.Forall_forall; intros i Hi;
    apply filter_In in Hi as [Hi _]; apply in_seq in Hi; lia.
Qed.

Lemma repeated_folds_in_range (k repeats : nat) :
  forall (g : sklearn.RandomState B) (n : nat),
    List.Forall (fun fold : list nat * list nat =>
              List.Forall (fun i => (i < n)%nat) (fst fold) /\
              List.Forall (fun i => (i < n)%nat) (snd fold))
           (sklearn.repeated_folds B k repeats g n).
Proof.
  induction repeats as [|r IH]; intros g n; simpl.
  - constructor.
  - apply List.Forall_app. split; [apply KFold_split_in_range | apply IH].
Qed.

Lemma fit_and_score_Some (base : sklearn.Params) (X : pd.DataFrame)
    (y : list Z) (c : float) (fold : list nat * list nat) (seed : Z) :
  pd.nrows X = length y ->
  List.Forall (fun i => (i < pd.nrows X)%nat) (fst fold) ->
  List.Forall (fun i => (i < pd.nrows X)%nat) (snd fold) ->
  is_Some (sklearn.fit_and_score B base X y c fold seed).
Proof.
  intros Hlen Htr Hte. unfold sklearn.fit_and_score.
  destruct (iloc_Some X _ Htr) as [x_tr [-> _]].
  destruct (iloc_Some X _ Hte) as [x_te [-> [_ Hn]]].
  rewrite Hlen in Htr, Hte.
  destruct (take_Some y _ Htr) as [y_tr [-> _]].
  destruct (take_Some y _ Hte) as [y_te [-> Hl]].
  unfold sklearn.predict, sklearn.fit_with_seed. simpl.
  unfold sklearn.neg_mean_absolute_error.
  rewrite length_map. fold (pd.nrows x_te). rewrite Hl, Hn, Nat.eqb_refl.
  eauto.
Qed.

Lemma cross_validate_Some (base : sklearn.Params) (X : pd.DataFrame)
    (y : list Z) (grid : list float) (folds : list (list nat * list nat))
    (task_seed : nat -> Z) :
  pd.nrows X = length y ->
  List.Forall (fun fold : list nat * list nat =>
            List.Forall (fun i => (i < pd.nrows X)%nat) (fst fold) /\
            List.Forall (fun i => (i < pd.nrows X)%nat) (snd fold)) folds ->
  exists table : list (list Q),
    sklearn.cross_validate B base X y grid folds task_seed = Some table /\
    length table = length grid.
Proof.
  intros Hlen Hfolds. unfold sklearn.cross_validate.
  match goal with
  | |- exists t, mapM ?f ?l = Some t /\ _ =>
      destruct (mapM f l) as [table|] eqn:E
  end.
  - exists table. split; [reflexivity|].
    apply length_mapM in E. rewrite <- E.
    rewrite length_combine, length_seq. lia.
  - exfalso. apply mapM_None_1 in E.
    apply List.Exists_exists in E as [[a c] [_ Hnone]]. simpl in Hnone.
    apply mapM_None_1 in Hnone.
    apply List.Exists_exists in Hnone as [[b fold] [Hin Hnone]].
    simpl in Hnone.
    apply in_combine_r in Hin.
    rewrite List.Forall_forall in Hfolds. destruct (Hfolds _ Hin) as [Htr Hte].
    destruct (fit_and_score_Some base X y c fold
                (task_seed (a * length folds + b)%nat) Hlen Htr Hte) as [q Hq].
    congruence.
Qed.

(** The search completes on at least ten samples, and what it reports
    is the selection made on its table of scores. *)
Lemma GridSearchCV_fit_Some (search : sklearn.GridSearchCV)
    (base : sklearn.Estimator) (X : pd.DataFrame) (y : list Z)
    (grid : list float) (task_seed : nat -> Z) (g : sklearn.RandomState B) :
  sklearn.param_grid search = Some grid ->
  grid <> [] ->
  pd.nrows X = length y ->
  (sklearn.n_splits (sklearn.cv search) <= pd.nrows X)%nat ->
  exists res : sklearn.SearchResults,
    sklearn.GridSearchCV_fit B search base X y task_seed g
    = Some (res, snd (sklearn.draw_solver_seed B
                        (sklearn.set_params_C (sklearn.best_params_C res)
                                              (sklearn.params base)) g)) /\
    length (sklearn.cv_scores res) = length grid /\
    sklearn.select_best grid (sklearn.cv_scores res)
    = Some (sklearn.best_index_ res, sklearn.best_params_C res,
            sklearn.best_score_ res) /\
    In (sklearn.best_params_C res) grid.
Proof.
  intros Hgrid Hne Hlen Hn. unfold sklearn.GridSearchCV_fit, sklearn.split.
  rewrite Hgrid.
  destruct (Nat.ltb (pd.nrows X) (sklearn.n_splits (sklearn.cv search))) eqn:E;
    [apply Nat.ltb_lt in E; lia|].
  destruct (cross_validate_Some (sklearn.params (sklearn.clone base)) X y grid
              _ task_seed Hlen
              (repeated_folds_in_range
                 (sklearn.n_splits (sklearn.cv search))
                 (sklearn.n_repeats (sklearn.cv search))
                 (sklearn.RandomState_seed B
                    (sklearn.cv_random_state (sklearn.cv search)))
                 (pd.nrows X)))
    as [table [-> Htable]].
  destruct (select_best_first_max grid table Hne (eq_sym Htable))
    as [i [c [m [Hsel [Hc _]]]]].
  rewrite Hsel. eexists. split; [reflexivity|]. simpl.
  split; [exact Htable|]. split; [exact Hsel|].
  eapply nth_error_In; eauto.
Qed.

End Completion.

(** ** Running the cells *)

Section Steps.

Context (B : sklearn.Backend).

Lemma bind_lift {A C : Type} (o : option A) (k : A -> NB B C) (s : State B)
    (a : A) :
  o = Some a -> bind (lift o) k s = k a s.
Proof. intros ->. reflexivity. Qed.

Lemma bind_emit {C : Type} (o : Output) (k : unit -> NB B C) (s : State B) :
  bind (emit o) k s
  = k tt {| heap := heap s; np_random := np_random s; out := out s ++ [o] |}.
Proof. reflexivity. Qed.

Lemma bind_alloc {C : Type} (est : sklearn.Estimator) (k : nat -> NB B C)
    (s : State B) :
  bind (alloc est) k s
  = k (length (heap s))
      {| heap := heap s ++ [est]; np_random := np_random s; out := out s |}.
Proof. reflexivity. Qed.

Lemma bind_load {C : Type} (r : nat) (k : sklearn.Estimator -> NB B C)
    (s : State B) (est : sklearn.Estimator) :
  nth_error (heap s) r = Some est -> bind (load r) k s = k est s.
Proof. intros H. unfold bind, load. now rewrite H. Qed.

Lemma bind_ret {A C : Type} (a : A) (k : A -> NB B C) (s : State B) :
  bind (ret a) k s = k a s.
Proof. reflexivity. Qed.

(** Fitting an object whose [random_state] is [None] draws the solver
    seed from the process-wide generator. *)
Lemma bind_fit {C : Type} (r : nat) (X : pd.DataFrame) (y : list Z)
    (k : sklearn.Estimator -> NB B C) (s : State B) (est : sklearn.Estimator) :
  nth_error (heap s) r = Some est ->
  sklearn.random_state (sklearn.params est) = None ->
  bind (fit B r X y) k s
  = k (sklearn.fit_with_seed B (sklearn.params est) X y
         (fst (sklearn.randint B (np_random s))))
      {| heap := <[r := sklearn.fit_with_seed B (sklearn.params est) X y
                          (fst (sklearn.randint B (np_random s)))]> (heap s);
         np_random := snd (sklearn.randint B (np_random s));
         out := out s |}.
Proof.
  intros Hr Hnone. unfold fit.
  unfold bind at 1. unfold bind at 1. unfold load. rewrite Hr.
  unfold bind, with_np_random, store, ret, sklearn.draw_solver_seed.
  rewrite Hnone. reflexivity.
Qed.

Lemma bind_search_fit {C : Type} (search : sklearn.GridSearchCV)
    (X : pd.DataFrame) (y : list Z) (task_seed : nat -> Z)
    (k : sklearn.SearchResults -> NB B C) (s : State B)
    (base : sklearn.Estimator) (res : sklearn.SearchResults)
    (g : sklearn.RandomState B) :
  nth_error (heap s) (sklearn.estimator search) = Some base ->
  sklearn.GridSearchCV_fit B search base X y task_seed (np_random s)
  = Some (res, g) ->
  bind (search_fit B search X y task_seed) k s
  = k res {| heap := heap s; np_random := g; out := out s |}.
Proof.
  intros Hr Hfit. unfold search_fit, bind, load. rewrite Hr, Hfit. reflexivity.
Qed.

Lemma bind_coef_0 {C : Type} (r : nat) (k : list float -> NB B C)
    (s : State B) (est : sklearn.Estimator) (coef : list float) :
  nth_error (heap s) r = Some est ->
  sklearn.coef_ est = Some coef ->
  bind (coef_0 B r) k s = k coef s.
Proof.
  intros Hr Hc. unfold coef_0, bind, load, lift. now rewrite Hr, Hc.
Qed.

End Steps.


Lemma grid_values_nonempty : grid_values <> [].
Proof.
  intros H. pose proof grid_values_length as Hl. rewrite H in Hl. discriminate.
Qed.

Lemma new_DataFrame_columns (rows : list (list float)) (names : list string)
    (X : pd.DataFrame) :
  pd.new_DataFrame rows names = Some X -> pd.columns X = names.
Proof.
  unfold pd.new_DataFrame.
  destruct (forallb (fun row => Nat.eqb (length row) (length names)) rows);
    [|discriminate].
  now intros [= <-].
Qed.

Lemma new_DataFrame_Some (rows : list (list float)) (names : list string) :
  forallb (fun row => Nat.eqb (length row) (length names)) rows = true ->
  pd.new_DataFrame rows names = Some {| pd.columns := names; pd.values := rows |}.
Proof. intros H. unfold pd.new_DataFrame. now rewrite H. Qed.

Section Tune.

Context (B : sklearn.Backend) (HB : sklearn.Backend_ok B).

Lemma tune_completes (ds : Bunch) (task_seed : nat -> Z)
    (g : sklearn.RandomState B) :
  dataset_ok ds = true ->
  exists (t : Tuned) (full : sklearn.Estimator),
    tune B ds task_seed (initial B g)
    = Some (t, {| heap := [full];
                  np_random := snd (sklearn.randint B (snd (sklearn.randint B g)));
                  out := [Print "Features: " (VIndex (feature_names ds));
                          Display (VEstimator full)] |}) /\
    tune_post B ds task_seed g t full.
Proof.
  intros Hds. unfold dataset_ok in Hds.
  apply andb_prop in Hds as [Hds Hsplit]. apply andb_prop in Hds as [Hrows Hlab].
  apply Nat.eqb_eq in Hlab.
  destruct (sklearn.n_test_samples (F64.literal 2 10) (length (data ds)))
    as [k|] eqn:Hk; [|discriminate].
  apply Nat.leb_le in Hsplit.
  pose proof (new_DataFrame_Some _ _ Hrows) as HX.
  set (X0 := {| pd.columns := feature_names ds; pd.values := data ds |}) in *.
  set (Y0 := {| pd.name := "target"; pd.labels := target ds |}).
  destruct (train_test_split_Some B HB X0 Y0 (F64.literal 2 10) 123 k)
    as [xtr [xte [ytr [yte [Hsp [Hc1 [Hc2 [Hn1 [Hl1 [Hn2 Hl2]]]]]]]]]];
    [exact Hlab | exact Hk | unfold pd.nrows; simpl; lia |].
  set (search0 := {| sklearn.estimator := 0%nat;
       sklearn.param_grid := grid_C;
       sklearn.scoring := "neg_mean_absolute_error";
       sklearn.cv := {| sklearn.n_splits := 10; sklearn.n_repeats := 3;
                        sklearn.cv_random_state := 321 |};
       sklearn.n_jobs := -1 |}).
  destruct (GridSearchCV_fit_Some B search0 (sklearn.unfitted untuned_params)
              xtr (pd.labels ytr) grid_values task_seed g)
    as [res [Hfit [_ [_ Hin]]]];
    [exact grid_C_computed | exact grid_values_nonempty | lia
     | simpl; rewrite Hn1; unfold pd.nrows; simpl; lia |].
  change (snd (sklearn.draw_solver_seed B _ g)) with (snd (sklearn.randint B g))
    in Hfit.
  eexists. eexists. split.
  - unfold tune.
    rewrite (bind_lift B _ _ _ _ HX).
    rewrite bind_emit. nb_simpl.
    fold Y0. rewrite (bind_lift B _ _ _ _ Hsp).
    rewrite bind_alloc. nb_simpl.
    fold untuned_params. fold search0.
    erewrite bind_search_fit; [|reflexivity|exact Hfit].
    nb_simpl.
    erewrite bind_fit; [|reflexivity|reflexivity].
    nb_simpl.
    rewrite bind_emit. nb_simpl. unfold ret.
    reflexivity.
  - unfold tune_post.
    cbn [X Y data_ x_train x_test y_train y_test lasso_model search results].
    split; [exact HX|]. split; [reflexivity|]. split; [reflexivity|].
    split; [exact Hsp|]. split; [reflexivity|]. split; [reflexivity|].
    split; [exact Hfit|]. split; [exact Hin|]. split; [reflexivity|].
    split; [exact Hc1|]. split; [exact Hc2|].
    split; [rewrite Hn1, Hl1; reflexivity | rewrite Hn2, Hl2; reflexivity].
Qed.

End Tune.

Lemma get_loc_Some (names : list string) (k : string) :
  In k names -> is_Some (pd.get_loc names k).
Proof.
  induction names as [|k' names IH]; simpl; intros Hk; [contradiction|].
  destruct (String.eqb k' k) eqn:E; [eauto|].
  apply String.eqb_neq in E. destruct Hk as [Hk|Hk]; [contradiction|].
  destruct (IH Hk) as [i ->]. eauto.
Qed.

Lemma getitem_Some (df : pd.DataFrame) (names : list string) :
  incl names (pd.columns df) ->
  exists df' : pd.DataFrame,
    pd.getitem df names = Some df' /\
    pd.columns df' = names /\
    pd.nrows df' = pd.nrows df.
Proof.
  intros Hincl. unfold pd.getitem.
  destruct (mapM (pd.get_loc (pd.columns df)) names) as [locs|] eqn:E.
  - eexists. split; [reflexivity|]. split; [reflexivity|].
    unfold pd.nrows. simpl. apply length_map.
  - exfalso. apply mapM_None_1 in E.
    apply List.Exists_exists in E as [k [Hk Hnone]].
    destruct (get_loc_Some (pd.columns df) k (Hincl k Hk)) as [i Hi].
    congruence.
Qed.

Lemma feature_importance_keys_features (names extra : list string)
    (coef : list float) :
  (length coef <= length names)%nat ->
  incl (py.keys (feature_importance_of (names ++ extra) coef)) names.
Proof.
  intros Hlen. unfold feature_importance_of.
  rewrite zip_truncates by assumption.
  apply (feature_importance_keys_incl names coef).
Qed.

Section Finish.

Context (B : sklearn.Backend) (HB : sklearn.Backend_ok B).

Lemma predict_fitted (p : sklearn.Params) (X X' : pd.DataFrame) (y : list Z)
    (seed : Z) :
  exists y_pred : list Z,
    sklearn.predict B (sklearn.fit_with_seed B p X y seed) X' = Some y_pred /\
    length y_pred = pd.nrows X'.
Proof.
  unfold sklearn.predict, sklearn.fit_with_seed. simpl.
  eexists. split; [reflexivity|]. apply length_map.
Qed.

Lemma accuracy_score_Some (a b : list Z) :
  length a = length b -> is_Some (sklearn.accuracy_score a b).
Proof.
  intros H. unfold sklearn.accuracy_score. rewrite H, Nat.eqb_refl. eauto.
Qed.

(** The columns kept by the selection exist in the training and test
    frames. *)
Lemma selection_Some (ds : Bunch) (task_seed : nat -> Z)
    (g : sklearn.RandomState B) (t : Tuned) (full : sklearn.Estimator) :
  tune_post B ds task_seed g t full ->
  exists (coef : list float) (xs xts : pd.DataFrame),
    sklearn.coef_ full = Some coef /\
    length coef = length (feature_names ds) /\
    pd.getitem (x_train t)
      (selected_of (feature_importance_of (pd.columns (data_ t)) coef)) = Some xs /\
    pd.getitem (x_test t)
      (selected_of (feature_importance_of (pd.columns (data_ t)) coef)) = Some xts /\
    pd.columns xs = selected_of (feature_importance_of (pd.columns (data_ t)) coef) /\
    pd.columns xts = selected_of (feature_importance_of (pd.columns (data_ t)) coef) /\
    pd.nrows xs = length (pd.labels (y_train t)) /\
    pd.nrows xts = length (pd.labels (y_test t)).
Proof.
  intros [HX [HY [Hdata [Hsp [Hlm [Hgrid [Hfit [Hin [Hfull [Hc1 [Hc2 [Hn1 Hn2]]]]]]]]]]]].
  exists (fst (sklearn.liblinear_train B untuned_params (x_train t)
                 (pd.labels (y_train t))
                 (fst (sklearn.randint B (snd (sklearn.randint B g)))))).
  set (coef := fst (sklearn.liblinear_train B untuned_params (x_train t)
                 (pd.labels (y_train t))
                 (fst (sklearn.randint B (snd (sklearn.randint B g)))))).
  assert (Hlen : length coef = length (feature_names ds)).
  { unfold coef. rewrite (sklearn.coef_length B HB). f_equal. exact Hc1. }
  assert (Hcols : pd.columns (data_ t) = (feature_names ds ++ ["target"])%list).
  { rewrite Hdata, concat_axis1_columns, HY.
    rewrite (new_DataFrame_columns _ _ _ HX). reflexivity. }
  assert (Hincl : incl (selected_of (feature_importance_of (pd.columns (data_ t)) coef))
                       (feature_names ds)).
  { rewrite Hcols. intros k Hk. apply selected_incl_keys in Hk.
    apply feature_importance_keys_features in Hk; [assumption | lia]. }
  destruct (getitem_Some (x_train t) _ ltac:(rewrite Hc1; exact Hincl))
    as [xs [Hxs [Hxc Hxn]]].
  destruct (getitem_Some (x_test t) _ ltac:(rewrite Hc2; exact Hincl))
    as [xts [Hxts [Hxtc Hxtn]]].
  exists xs, xts. rewrite Hfull.
  split; [reflexivity|]. split; [exact Hlen|].
  split; [exact Hxs|]. split; [exact Hxts|].
  split; [exact Hxc|]. split; [exact Hxtc|].
  split; [rewrite Hxn; exact Hn1 | rewrite Hxtn; exact Hn2].
Qed.

End Finish.

Section Runs.

Context (B : sklearn.Backend) (HB : sklearn.Backend_ok B).

Lemma part_000_runs (ds : Bunch) (task_seed : nat -> Z)
    (g : sklearn.RandomState B) :
  dataset_ok ds = true ->
  exists (t : Tuned) (full : sklearn.Estimator) (coef : list float)
         (xs xts : pd.DataFrame) (refit : sklearn.Estimator)
         (p_train p_test : list Z) (a_train a_test : float),
    part_000 B ds task_seed (initial B g)
    = Some ({| tuned := t;
               feature_importance :=
                 feature_importance_of (pd.columns (data_ t)) coef;
               x_train_selected := xs;
               x_test_selected := xts;
               final_model := 1 |},
            {| heap := [full; refit];
               np_random :=
                 snd (sklearn.randint B
                        (snd (sklearn.randint B (snd (sklearn.randint B g)))));
               out :=
                 [Print "Features: " (VIndex (feature_names ds));
                  Display (VEstimator full);
                  Print "MAE = " (VScore (sklearn.best_score_ (results t)));
                  Print "The optimum ʎ ="
                        (VParams (sklearn.best_params_C (results t)));
                  Display (VDict (feature_importance_of
                                    (pd.columns (data_ t)) coef));
                  Print "Selected features: "
                        (VList (selected_of
                                  (feature_importance_of
                                     (pd.columns (data_ t)) coef)));
                  Display (VEstimator refit);
                  Print "Accuracy on training data:" (VFloat a_train);
                  Display (VFloat a_test)] |}) /\
    tune_post B ds task_seed g t full /\
    selection_post B ds g t full coef xs xts refit /\
    sklearn.predict B refit xs = Some p_train /\
    sklearn.accuracy_score p_train (pd.labels (y_train t)) = Some a_train /\
    sklearn.predict B refit xts = Some p_test /\
    sklearn.accuracy_score p_test (pd.labels (y_test t)) = Some a_test.
Proof.
  intros Hds.
  destruct (tune_completes B HB ds task_seed g Hds) as [t [full [Htune Hpost]]].
  destruct (selection_Some B HB ds task_seed g t full Hpost)
    as [coef [xs [xts [Hcoef [Hlen [Hxs [Hxts [Hxc [Hxtc [Hxn Hxtn]]]]]]]]]].
  set (g3 := snd (sklearn.randint B (snd (sklearn.randint B g)))).
  set (refit := sklearn.fit_with_seed B (refit_params (results t)) xs
                  (pd.labels (y_train t)) (fst (sklearn.randint B g3))).
  destruct (predict_fitted B (refit_params (results t)) xs xs
              (pd.labels (y_train t)) (fst (sklearn.randint B g3)))
    as [p_train [Hp1 Hl1]].
  destruct (predict_fitted B (refit_params (results t)) xs xts
              (pd.labels (y_train t)) (fst (sklearn.randint B g3)))
    as [p_test [Hp2 Hl2]].
  fold refit in Hp1, Hp2.
  destruct (accuracy_score_Some p_train (pd.labels (y_train t)))
    as [a_train Ha1]; [congruence|].
  destruct (accuracy_score_Some p_test (pd.labels (y_test t)))
    as [a_test Ha2]; [congruence|].
  exists t, full, coef, xs, xts, refit, p_train, p_test, a_train, a_test.
  split; [|split; [exact Hpost|split; [|split; [exact Hp1|split; [exact Ha1|split; [exact Hp2|exact Ha2]]]]]].
  2:{ split; [exact Hcoef|]. split; [exact Hlen|]. split; [exact Hxs|].
      split; [exact Hxts|reflexivity]. }
  unfold part_000.
  unfold bind at 1. rewrite Htune.
  rewrite bind_emit. nb_simpl.
  rewrite bind_emit. nb_simpl.
  assert (Hlm : lasso_model t = 0%nat) by (destruct Hpost as (_ & _ & _ & _ & H & _); exact H).
  rewrite Hlm.
  erewrite (bind_coef_0 B 0 _ _ full coef); [|reflexivity|exact Hcoef].
  rewrite bind_emit. nb_simpl.
  rewrite bind_emit. nb_simpl.
  rewrite (bind_lift B _ _ _ _ Hxs).
  rewrite (bind_lift B _ _ _ _ Hxts).
  rewrite bind_alloc. nb_simpl.
  erewrite bind_fit; [|reflexivity|reflexivity].
  nb_simpl. fold g3. fold refit.
  rewrite bind_emit. nb_simpl.
  erewrite bind_load; [|reflexivity].
  rewrite (bind_lift B _ _ _ _ Hp1).
  rewrite (bind_lift B _ _ _ _ Ha1).
  rewrite bind_emit. nb_simpl.
  erewrite bind_load; [|reflexivity].
  rewrite (bind_lift B _ _ _ _ Hp2).
  rewrite (bind_lift B _ _ _ _ Ha2).
  rewrite bind_emit. nb_simpl.
  reflexivity.
Qed.

Lemma lasso_breast_cancer_runs (ds : Bunch) (task_seed : nat -> Z)
    (g : sklearn.RandomState B) :
  dataset_ok ds = true ->
  exists (t : Tuned) (full : sklearn.Estimator) (coef : list float)
         (xs xts : pd.DataFrame) (refit : sklearn.Estimator)
         (predicted_y : list Z) (a_test : float),
    lasso_breast_cancer B ds task_seed (initial B g)
    = Some ({| tuned := t;
               feature_importance :=
                 feature_importance_of (pd.columns (data_ t)) coef;
               x_train_selected := xs;
               x_test_selected := xts;
               final_model := 1 |},
            {| heap := [full; refit];
               np_random :=
                 snd (sklearn.randint B
                        (snd (sklearn.randint B (snd (sklearn.randint B g)))));
               out :=
                 [Print "Features: " (VIndex (feature_names ds));
                  Display (VEstimator full);
                  Print "MAE: " (VScore (sklearn.best_score_ (results t)));
                  Print "Config: "
                        (VParams (sklearn.best_params_C (results t)));
                  Display (VDict (feature_importance_of
                                    (pd.columns (data_ t)) coef));
                  Display (VEstimator refit);
                  Display (VArray predicted_y);
                  Print "score:" (VFloat a_test)] |}) /\
    tune_post B ds task_seed g t full /\
    selection_post B ds g t full coef xs xts refit /\
    sklearn.predict B refit xts = Some predicted_y /\
    sklearn.score B refit xts (pd.labels (y_test t)) = Some a_test.
Proof.
  intros Hds.
  destruct (tune_completes B HB ds task_seed g Hds) as [t [full [Htune Hpost]]].
  destruct (selection_Some B HB ds task_seed g t full Hpost)
    as [coef [xs [xts [Hcoef [Hlen [Hxs [Hxts [Hxc [Hxtc [Hxn Hxtn]]]]]]]]]].
  set (g3 := snd (sklearn.randint B (snd (sklearn.randint B g)))).
  set (refit := sklearn.fit_with_seed B (refit_params (results t)) xs
                  (pd.labels (y_train t)) (fst (sklearn.randint B g3))).
  destruct (predict_fitted B (refit_params (results t)) xs xts
              (pd.labels (y_train t)) (fst (sklearn.randint B g3)))
    as [p_test [Hp2 Hl2]].
  fold refit in Hp2.
  destruct (accuracy_score_Some (pd.labels (y_test t)) p_test)
    as [a_test Ha2]; [congruence|].
  assert (Hscore : sklearn.score B refit xts (pd.labels (y_test t)) = Some a_test)
    by (unfold sklearn.score; now rewrite Hp2).
  exists t, full, coef, xs, xts, refit, p_test, a_test.
  split; [|split; [exact Hpost|split; [|split; [exact Hp2|exact Hscore]]]].
  2:{ split; [exact Hcoef|]. split; [exact Hlen|]. split; [exact Hxs|].
      split; [exact Hxts|reflexivity]. }
  unfold lasso_breast_cancer.
  unfold bind at 1. rewrite Htune.
  rewrite bind_emit. nb_simpl.
  rewrite bind_emit. nb_simpl.
  assert (Hlm : lasso_model t = 0%nat)
    by (destruct Hpost as (_ & _ & _ & _ & H & _); exact H).
  rewrite Hlm.
  erewrite (bind_coef_0 B 0 _ _ full coef); [|reflexivity|exact Hcoef].
  rewrite bind_emit. nb_simpl.
  rewrite (bind_lift B _ _ _ _ Hxs).
  rewrite (bind_lift B _ _ _ _ Hxts).
  rewrite bind_alloc. nb_simpl.
  erewrite bind_fit; [|reflexivity|reflexivity].
  nb_simpl.
  rewrite bind_emit. nb_simpl.
  erewrite bind_load; [|reflexivity].
  rewrite (bind_lift B _ _ _ _ Hp2).
  rewrite bind_emit. nb_simpl.
  erewrite bind_load; [|reflexivity].
  rewrite (bind_lift B _ _ _ _ Hscore).
  rewrite bind_emit. nb_simpl.
  reflexivity.
Qed.

End Runs.

(** ** The toy backend and dataset meet the conditions *)

Lemma toy_backend_ok : sklearn.Backend_ok toy.backend.
Proof.
  split.
  - intros g n. simpl. apply Permutation_sym, Permutation_rev.
  - intros p X y s. simpl. now rewrite length_map, length_seq.
Qed.

Lemma toy_dataset_ok : dataset_ok toy.dataset = true.
Proof. vm_compute. reflexivity. Qed.

Lemma toy_dataset_569_ok : dataset_ok toy.dataset_569 = true.
Proof. vm_compute. reflexivity. Qed.

(** ** The search and the fit before the selection *)



(** Three grid values; the last two tie with the best average, and the
    first of the two is returned. *)
Lemma tie_goes_to_first_grid_value :
  sklearn.select_best
    [hundredth 1; hundredth 2; hundredth 3]
    [[Qmake (-1) 10; Qmake (-2) 10];
     [Qmake (-1) 20; Qmake (-1) 20];
     [Qmake 0 20; Qmake (-2) 20]]
  = Some (1%nat, hundredth 2,
          sklearn.average [Qmake (-1) 20; Qmake (-1) 20]).
Proof. reflexivity. Qed.

(** Every value of the grid is below the default [C = 1.0]. *)
Lemma grid_below_default (c : float) :
  In c grid_values ->
  F64.ltb c (F64.of_Z 1) = true /\ F64.eqb (F64.of_Z 1) c = false.
Proof.
  intros Hin.
  assert (Hall : forallb (fun c => F64.ltb c (F64.of_Z 1)
                                   && negb (F64.eqb (F64.of_Z 1) c))
                         grid_values = true)
    by (vm_compute; reflexivity).
  rewrite forallb_forall in Hall. apply Hall in Hin.
  apply andb_prop in Hin as [H1 H2]. split; [exact H1|].
  now apply negb_true_iff in H2.
Qed.

Lemma getitem_columns (df df' : pd.DataFrame) (names : list string) :
  pd.getitem df names = Some df' -> pd.columns df' = names.
Proof.
  unfold pd.getitem. destruct (mapM _ names); [|discriminate].
  now intros [= <-].
Qed.

Section FullFit.

Context (B : sklearn.Backend) (HB : sklearn.Backend_ok B).

(** Either notebook completes, leaving two estimator objects. *)
Lemma notebook_runs (nb : Bunch -> (nat -> Z) -> NB B Final) (ds : Bunch)
    (task_seed : nat -> Z) (g : sklearn.RandomState B) :
  is_notebook B nb ->
  dataset_ok ds = true ->
  exists (t : Tuned) (full : sklearn.Estimator) (coef : list float)
         (xs xts : pd.DataFrame) (refit : sklearn.Estimator) (s : State B),
    nb ds task_seed (initial B g)
    = Some ({| tuned := t;
               feature_importance :=
                 feature_importance_of (pd.columns (data_ t)) coef;
               x_train_selected := xs;
               x_test_selected := xts;
               final_model := 1 |}, s) /\
    heap s = [full; refit] /\
    tune_post B ds task_seed g t full /\
    selection_post B ds g t full coef xs xts refit.
Proof.
  intros [-> | ->] Hds.
  - destruct (lasso_breast_cancer_runs B HB ds task_seed g Hds)
      as (t & full & coef & xs & xts & refit & p & a & Hrun & Ht & Hs & _).
    exists t, full, coef, xs, xts, refit. eexists.
    split; [exact Hrun|]. auto.
  - destruct (part_000_runs B HB ds task_seed g Hds)
      as (t & full & coef & xs & xts & refit & p1 & p2 & a1 & a2
          & Hrun & Ht & Hs & _).
    exists t, full, coef, xs, xts, refit. eexists.
    split; [exact Hrun|]. auto.
Qed.

(** C1 (the code departs from it). In either notebook the object whose
    coefficients are read into [feature_importance] was built without
    [C] and is fitted with the default [C = 1.0]; the search works on
    clones and reports a grid value, which is below 1.0 and so never
    equal to the [C] of that fit.  Only the second object, fitted on the
    selected columns, is built with [C = best_params_["C"]]. *)
Theorem full_fit_keeps_default_C (nb : Bunch -> (nat -> Z) -> NB B Final)
    (ds : Bunch) (task_seed : nat -> Z) (g : sklearn.RandomState B) :
  is_notebook B nb ->
  dataset_ok ds = true ->
  exists (f : Final) (s : State B) (full refit : sklearn.Estimator)
         (coef : list float),
    nb ds task_seed (initial B g) = Some (f, s) /\
    heap s = [full; refit] /\
    sklearn.coef_ full = Some coef /\
    feature_importance f
    = feature_importance_of (pd.columns (data_ (tuned f))) coef /\
    sklearn.C (sklearn.params full) = F64.of_Z 1 /\
    In (sklearn.best_params_C (results (tuned f))) grid_values /\
    F64.ltb (sklearn.best_params_C (results (tuned f)))
            (sklearn.C (sklearn.params full)) = true /\
    F64.eqb (sklearn.C (sklearn.params full))
            (sklearn.best_params_C (results (tuned f))) = false /\
    sklearn.C (sklearn.params refit)
    = sklearn.best_params_C (results (tuned f)).
Proof.
  intros Hnb Hds.
  destruct (notebook_runs nb ds task_seed g Hnb Hds)
    as (t & full & coef & xs & xts & refit & s & Hrun & Hheap & Ht & Hs).
  destruct Ht as (_ & _ & _ & _ & _ & _ & _ & Hin & Hfull & _).
  destruct Hs as (Hcoef & _ & _ & _ & Hrefit).
  destruct (grid_below_default _ Hin) as [Hlt Hne].
  eexists. exists s, full, refit, coef.
  split; [exact Hrun|]. cbn [tuned feature_importance].
  assert (HC : sklearn.C (sklearn.params full) = F64.of_Z 1)
    by (rewrite Hfull; reflexivity).
  assert (HR : sklearn.C (sklearn.params refit)
               = sklearn.best_params_C (results t))
    by (rewrite Hrefit; reflexivity).
  rewrite HC, HR.
  split; [exact Hheap|]. split; [exact Hcoef|]. split; [reflexivity|].
  split; [reflexivity|]. split; [exact Hin|]. split; [exact Hlt|].
  split; [exact Hne | reflexivity].
Qed.

End FullFit.

Lemma full_fit_keeps_default_C_witness :
  exists (f : Final) (s : State toy.backend) (full refit : sklearn.Estimator)
         (coef : list float),
    part_000 toy.backend toy.dataset toy.task_seed (initial toy.backend 5)
    = Some (f, s) /\
    heap s = [full; refit] /\
    sklearn.coef_ full = Some coef /\
    feature_importance f
    = feature_importance_of (pd.columns (data_ (tuned f))) coef /\
    sklearn.C (sklearn.params full) = F64.of_Z 1 /\
    In (sklearn.best_params_C (results (tuned f))) grid_values /\
    F64.ltb (sklearn.best_params_C (results (tuned f)))
            (sklearn.C (sklearn.params full)) = true /\
    F64.eqb (sklearn.C (sklearn.params full))
            (sklearn.best_params_C (results (tuned f))) = false /\
    sklearn.C (sklearn.params refit)
    = sklearn.best_params_C (results (tuned f)).
Proof.
  exact (full_fit_keeps_default_C toy.backend toy_backend_ok
           (part_000 toy.backend) toy.dataset toy.task_seed 5
           (or_intror eq_refl) toy_dataset_ok).
Defined.

Section Reports.

Context (B : sklearn.Backend) (HB : sklearn.Backend_ok B).

(** C4 (as amended). The unnamed notebook computes and shows two
    accuracy values, on the training part and on the held-out test
    part, each from the predictions of the refitted model on the frame
    restricted to the selected columns.  The notebook
    lasso_breast_cancer.ipynb shows one accuracy value only, the score
    on the restricted test frame; it computes no training accuracy. *)
Theorem evaluators_report (ds : Bunch) (task_seed : nat -> Z)
    (g : sklearn.RandomState B) :
  dataset_ok ds = true ->
  (exists (f : Final) (s : State B) (model : sklearn.Estimator)
          (p_train p_test : list Z) (a_train a_test : float),
      part_000 B ds task_seed (initial B g) = Some (f, s) /\
      nth_error (heap s) (final_model f) = Some model /\
      pd.columns (x_train_selected f) = selected_of (feature_importance f) /\
      pd.columns (x_test_selected f) = selected_of (feature_importance f) /\
      sklearn.predict B model (x_train_selected f) = Some p_train /\
      sklearn.accuracy_score p_train (pd.labels (y_train (tuned f)))
      = Some a_train /\
      sklearn.predict B model (x_test_selected f) = Some p_test /\
      sklearn.accuracy_score p_test (pd.labels (y_test (tuned f)))
      = Some a_test /\
      float_outputs (out s) = [a_train; a_test]) /\
  (exists (f : Final) (s : State B) (model : sklearn.Estimator)
          (a_test : float),
      lasso_breast_cancer B ds task_seed (initial B g) = Some (f, s) /\
      nth_error (heap s) (final_model f) = Some model /\
      pd.columns (x_test_selected f) = selected_of (feature_importance f) /\
      sklearn.score B model (x_test_selected f) (pd.labels (y_test (tuned f)))
      = Some a_test /\
      float_outputs (out s) = [a_test]).
Proof.
  intros Hds. split.
  - destruct (part_000_runs B HB ds task_seed g Hds)
      as (t & full & coef & xs & xts & refit & p1 & p2 & a1 & a2
          & Hrun & Ht & Hs & Hp1 & Ha1 & Hp2 & Ha2).
    destruct Hs as (_ & _ & Hxs & Hxts & _).
    do 2 eexists. exists refit, p1, p2, a1, a2.
    split; [exact Hrun|].
    cbn [tuned feature_importance x_train_selected x_test_selected
         final_model heap out nth_error].
    apply getitem_columns in Hxs, Hxts.
    repeat split; try assumption; reflexivity.
  - destruct (lasso_breast_cancer_runs B HB ds task_seed g Hds)
      as (t & full & coef & xs & xts & refit & p & a
          & Hrun & Ht & Hs & Hp & Ha).
    destruct Hs as (_ & _ & Hxs & Hxts & _).
    do 2 eexists. exists refit, a.
    split; [exact Hrun|].
    cbn [tuned feature_importance x_train_selected x_test_selected
         final_model heap out nth_error].
    apply getitem_columns in Hxts.
    repeat split; try assumption; reflexivity.
Qed.

(** C5 (the code departs from it). Two runs of a notebook on the same
    dataset, whatever the states [g] and [g'] of the process-wide
    generator and whatever seeds the worker processes draw, complete
    and produce the same train/test partition.  The coefficient vector
    read into [feature_importance] is what liblinear returns for a
    seed drawn from the process-wide generator, which the notebook
    never seeds: the seed of the first run comes from [g], that of the
    second from [g']. *)
Theorem split_is_seeded_solver_is_not
    (nb : Bunch -> (nat -> Z) -> NB B Final) (ds : Bunch)
    (task_seed task_seed' : nat -> Z) (g g' : sklearn.RandomState B) :
  is_notebook B nb ->
  dataset_ok ds = true ->
  exists (f f' : Final) (s s' : State B) (coef coef' : list float),
    nb ds task_seed (initial B g) = Some (f, s) /\
    nb ds task_seed' (initial B g') = Some (f', s') /\
    x_train (tuned f) = x_train (tuned f') /\
    x_test (tuned f) = x_test (tuned f') /\
    y_train (tuned f) = y_train (tuned f') /\
    y_test (tuned f) = y_test (tuned f') /\
    feature_importance f
    = feature_importance_of (pd.columns (data_ (tuned f))) coef /\
    feature_importance f'
    = feature_importance_of (pd.columns (data_ (tuned f'))) coef' /\
    coef = fst (sklearn.liblinear_train B untuned_params
                  (x_train (tuned f)) (pd.labels (y_train (tuned f)))
                  (fst (sklearn.randint B (snd (sklearn.randint B g))))) /\
    coef' = fst (sklearn.liblinear_train B untuned_params
                   (x_train (tuned f)) (pd.labels (y_train (tuned f)))
                   (fst (sklearn.randint B (snd (sklearn.randint B g'))))).
Proof.
  intros Hnb Hds.
  destruct (notebook_runs B HB nb ds task_seed g Hnb Hds)
    as (t & full & coef & xs & xts & refit & s & Hrun & Hheap & Ht & Hs).
  destruct (notebook_runs B HB nb ds task_seed' g' Hnb Hds)
    as (t' & full' & coef' & xs' & xts' & refit' & s' & Hrun' & Hheap' & Ht' & Hs').
  destruct Ht as (HX & HY & _ & Hsp & _ & _ & _ & _ & Hfull & _).
  destruct Ht' as (HX' & HY' & _ & Hsp' & _ & _ & _ & _ & Hfull' & _).
  destruct Hs as (Hcoef & _). destruct Hs' as (Hcoef' & _).
  assert (HXX : X t = X t') by congruence.
  assert (HYY : Y t = Y t') by congruence.
  rewrite <- HXX, <- HYY, Hsp in Hsp'.
  injection Hsp' as H1 H2 H3 H4.
  rewrite Hfull in Hcoef. rewrite Hfull' in Hcoef'.
  cbn [sklearn.coef_ sklearn.fit_with_seed] in Hcoef, Hcoef'.
  injection Hcoef as Hcoef. injection Hcoef' as Hcoef'.
  do 2 eexists. exists s, s', coef, coef'.
  split; [exact Hrun|]. split; [exact Hrun'|].
  cbn [tuned feature_importance].
  split; [exact H1|]. split; [exact H2|]. split; [exact H3|].
  split; [exact H4|]. split; [reflexivity|]. split; [reflexivity|].
  split; [symmetry; exact Hcoef|].
  rewrite H1, H3. symmetry. exact Hcoef'.
Qed.

End Reports.

Lemma evaluators_report_witness :
  (exists (f : Final) (s : State toy.backend) (a_train a_test : float),
      part_000 toy.backend toy.dataset toy.task_seed (initial toy.backend 5)
      = Some (f, s) /\
      float_outputs (out s) = [a_train; a_test]) /\
  (exists (f : Final) (s : State toy.backend) (a_test : float),
      lasso_breast_cancer toy.backend toy.dataset toy.task_seed
        (initial toy.backend 5) = Some (f, s) /\
      float_outputs (out s) = [a_test]).
Proof.
  destruct (evaluators_report toy.backend toy_backend_ok toy.dataset
              toy.task_seed 5 toy_dataset_ok) as [H1 H2].
  split.
  - destruct H1 as (f & s & m & p1 & p2 & a1 & a2 & Hrun & H).
    exists f, s, a1, a2. split; [exact Hrun | apply H].
  - destruct H2 as (f & s & m & a & Hrun & H).
    exists f, s, a. split; [exact Hrun | apply H].
Defined.

(** On the toy backend and dataset, lasso_breast_cancer.ipynb completes
    and shows a single float: the score on the test part.  No training
    accuracy is among its outputs. *)
Lemma lasso_breast_cancer_shows_test_score_only :
  exists (f : Final) (s : State toy.backend) (model : sklearn.Estimator)
         (a_test : float),
    lasso_breast_cancer toy.backend toy.dataset toy.task_seed
      (initial toy.backend 5) = Some (f, s) /\
    nth_error (heap s) (final_model f) = Some model /\
    sklearn.score toy.backend model (x_test_selected f)
      (pd.labels (y_test (tuned f))) = Some a_test /\
    float_outputs (out s) = [a_test] /\
    length (float_outputs (out s)) = 1%nat.
Proof.
  destruct (lasso_breast_cancer_runs toy.backend toy_backend_ok toy.dataset
              toy.task_seed 5 toy_dataset_ok)
    as (t & full & coef & xs & xts & refit & p & a & Hrun & _ & _ & _ & Ha).
  do 2 eexists. exists refit, a.
  split; [exact Hrun|].
  cbn [tuned x_test_selected final_model heap out nth_error].
  repeat split; try assumption; reflexivity.
Qed.

(** On the toy backend, whose solver shows its seed in the first
    coefficient, two runs of the unnamed notebook that differ only in
    the state of the process-wide generator split the data alike and
    read different coefficients into [feature_importance]. *)
Lemma split_is_seeded_solver_is_not_witness :
  exists (f f' : Final) (s s' : State toy.backend),
    part_000 toy.backend toy.dataset toy.task_seed (initial toy.backend 5)
    = Some (f, s) /\
    part_000 toy.backend toy.dataset toy.task_seed (initial toy.backend 6)
    = Some (f', s') /\
    x_train (tuned f) = x_train (tuned f') /\
    x_test (tuned f) = x_test (tuned f') /\
    y_train (tuned f) = y_train (tuned f') /\
    y_test (tuned f) = y_test (tuned f') /\
    hd_error (py.items (feature_importance f))
    = Some ("mean radius", F64.of_Z 6) /\
    hd_error (py.items (feature_importance f'))
    = Some ("mean radius", F64.of_Z 7) /\
    F64.eqb (F64.of_Z 6) (F64.of_Z 7) = false.
Proof.
  destruct (split_is_seeded_solver_is_not toy.backend toy_backend_ok
              (part_000 toy.backend) toy.dataset toy.task_seed toy.task_seed
              5 6 (or_intror eq_refl) toy_dataset_ok)
    as (f & f' & s & s' & c & c' & H1 & H2 & H3 & H4 & H5 & H6 & _).
  exists f, f', s, s'.
  assert (E1 : option_map (fun r => hd_error (py.items (feature_importance (fst r))))
                 (part_000 toy.backend toy.dataset toy.task_seed
                    (initial toy.backend 5))
               = Some (Some ("mean radius", F64.of_Z 6)))
    by (vm_compute; reflexivity).
  assert (E2 : option_map (fun r => hd_error (py.items (feature_importance (fst r))))
                 (part_000 toy.backend toy.dataset toy.task_seed
                    (initial toy.backend 6))
               = Some (Some ("mean radius", F64.of_Z 7)))
    by (vm_compute; reflexivity).
  rewrite H1 in E1. rewrite H2 in E2.
  cbn [option_map fst] in E1, E2.
  injection E1 as E1. injection E2 as E2.
  split; [exact H1|]. split; [exact H2|]. split; [exact H3|].
  split; [exact H4|]. split; [exact H5|]. split; [exact H6|].
  split; [exact E1|]. split; [exact E2|].
  vm_compute. reflexivity.
Defined.

(** The two runs stored in the repository, whose cells up to the
    display of [feature_importance] are the same, disagree: the selected
    [C] is the grid entry 0.87 in one and 0.9 in the other, and the
    coefficient of the first feature differs, while the keys and the
    selected features agree. *)
Lemma recorded_runs_differ :
  nth_error grid_values 86 = Some recorded.best_C_lasso_breast_cancer /\
  nth_error grid_values 89 = Some recorded.best_C_part_000 /\
  F64.eqb recorded.best_C_lasso_breast_cancer recorded.best_C_part_000 = false /\
  hd_error recorded.feature_importance_lasso_breast_cancer
  = Some ("mean radius", F64.literal 4676032476733902 1000000000000000) /\
  hd_error recorded.feature_importance_part_000
  = Some ("mean radius", F64.literal 43709647723744816 10000000000000000) /\
  F64.eqb (F64.literal 4676032476733902 1000000000000000)
          (F64.literal 43709647723744816 10000000000000000) = false /\
  py.keys recorded.feature_importance_lasso_breast_cancer
  = py.keys recorded.feature_importance_part_000.
Proof.
  repeat split; vm_compute; reflexivity.
Qed.

(** * Further properties of the cells *)

(** ** The train/test split *)

Lemma firstn_plus {A : Type} (a b : nat) (l : list A) :
  firstn (a + b) l = firstn a l ++ firstn b (skipn a l).
Proof.
  revert l. induction a as [|a IH]; intros l; simpl.
  - reflexivity.
  - destruct l as [|x l]; simpl.
    + now rewrite firstn_nil.
    + now rewrite IH.
Qed.

Section Split.

Context (B : sklearn.Backend) (HB : sklearn.Backend_ok B).

Lemma split_indices_partition (n k : nat) (seed : Z) :
  (k <= n)%nat ->
  Permutation (snd (sklearn.split_indices B n k seed)
               ++ fst (sklearn.split_indices B n k seed)) (seq 0 n) /\
  length (fst (sklearn.split_indices B n k seed)) = (n - k)%nat /\
  length (snd (sklearn.split_indices B n k seed)) = k.
Proof.
  intros Hk. unfold sklearn.split_indices. cbn [fst snd].
  destruct (permutation_in_range B HB (sklearn.RandomState_seed B seed) n)
    as [_ Hlen].
  pose proof (sklearn.permutation_ok B HB (sklearn.RandomState_seed B seed) n)
    as Hperm.
  set (perm := fst (sklearn.permutation B (sklearn.RandomState_seed B seed) n))
    in *.
  assert (Hall : firstn (n - k) (skipn k perm) = skipn k perm).
  { apply firstn_all2. rewrite length_skipn. lia. }
  rewrite Hall. split; [|split].
  - rewrite firstn_skipn. exact Hperm.
  - rewrite length_skipn. lia.
  - rewrite length_firstn. lia.
Qed.

(** The sizes of the parts of a split that returned. *)
Lemma train_test_split_sizes (X : pd.DataFrame) (Y : pd.Series)
    (test_size : float) (seed : Z)
    (x_train x_test : pd.DataFrame) (y_train y_test : pd.Series) :
  sklearn.train_test_split B X Y test_size seed
  = Some (x_train, x_test, y_train, y_test) ->
  exists (ind_train ind_test : list nat) (k : nat),
    pd.nrows X = length (pd.labels Y) /\
    sklearn.n_test_samples test_size (pd.nrows X) = Some k /\
    pd.take (pd.labels Y) ind_train = Some (pd.labels y_train) /\
    pd.take (pd.labels Y) ind_test = Some (pd.labels y_test) /\
    pd.nrows x_train = (pd.nrows X - k)%nat /\
    pd.nrows x_test = k.
Proof.
  unfold sklearn.train_test_split. intros H.
  destruct (Nat.eqb (pd.nrows X) (length (pd.labels Y))) eqn:El;
    [|discriminate].
  apply Nat.eqb_eq in El. cbn [negb] in H.
  destruct (sklearn.n_test_samples test_size (pd.nrows X)) as [k|] eqn:Ek;
    [|discriminate].
  destruct (Nat.eqb (pd.nrows X - k) 0) eqn:E0; [discriminate|].
  apply Nat.eqb_neq in E0.
  destruct (split_indices_partition (pd.nrows X) k seed) as [_ [Hl1 Hl2]];
    [lia|].
  destruct (sklearn.split_indices B (pd.nrows X) k seed) as [tr te].
  cbn [fst snd] in *.
  destruct (pd.iloc X tr) as [xtr|] eqn:E1; [|discriminate].
  destruct (pd.iloc X te) as [xte|] eqn:E2; [|discriminate].
  destruct (pd.take (pd.labels Y) tr) as [ytr|] eqn:E3; [|discriminate].
  destruct (pd.take (pd.labels Y) te) as [yte|] eqn:E4; [|discriminate].
  injection H as <- <- <- <-.
  exists tr, te, k. cbn [pd.labels].
  split; [exact El|]. split; [reflexivity|].
  split; [exact E3|]. split; [exact E4|].
  unfold pd.iloc in E1, E2.
  destruct (pd.take (pd.values X) tr) as [r1|] eqn:F1; [|discriminate].
  destruct (pd.take (pd.values X) te) as [r2|] eqn:F2; [|discriminate].
  injection E1 as <-. injection E2 as <-.
  unfold pd.take in F1, F2. apply length_mapM in F1, F2.
  unfold pd.nrows at 1 3. cbn [pd.values].
  rewrite <- F1, <- F2, Hl1, Hl2. auto.
Qed.

(** X1. Whenever [train_test_split] returns, the rows of the two parts
    are the rows of [X] at two lists of positions that together are a
    rearrangement of all positions [0..n-1]: no sample is in both parts
    and none is lost.  The test part has [ceil(test_size * n)] rows, the
    training part the rest, and the labels are cut at the same
    positions. *)
Theorem train_test_split_partitions (X : pd.DataFrame) (Y : pd.Series)
    (test_size : float) (seed : Z)
    (x_train x_test : pd.DataFrame) (y_train y_test : pd.Series) :
  sklearn.train_test_split B X Y test_size seed
  = Some (x_train, x_test, y_train, y_test) ->
  exists (ind_train ind_test : list nat) (k : nat),
    pd.nrows X = length (pd.labels Y) /\
    sklearn.n_test_samples test_size (pd.nrows X) = Some k /\
    (k < pd.nrows X)%nat /\
    Permutation (ind_test ++ ind_train) (seq 0 (pd.nrows X)) /\
    pd.iloc X ind_train = Some x_train /\
    pd.iloc X ind_test = Some x_test /\
    pd.take (pd.labels Y) ind_train = Some (pd.labels y_train) /\
    pd.take (pd.labels Y) ind_test = Some (pd.labels y_test) /\
    pd.nrows x_train = (pd.nrows X - k)%nat /\
    pd.nrows x_test = k /\
    length (pd.labels y_train) = (pd.nrows X - k)%nat /\
    length (pd.labels y_test) = k.
Proof.
  unfold sklearn.train_test_split. intros H.
  destruct (Nat.eqb (pd.nrows X) (length (pd.labels Y))) eqn:El;
    [|discriminate].
  apply Nat.eqb_eq in El.
  cbn [negb] in H.
  destruct (sklearn.n_test_samples test_size (pd.nrows X)) as [k|] eqn:Ek;
    [|discriminate].
  destruct (Nat.eqb (pd.nrows X - k) 0) eqn:E0; [discriminate|].
  apply Nat.eqb_neq in E0.
  destruct (split_indices_partition (pd.nrows X) k seed) as [Hp [Hl1 Hl2]];
    [lia|].
  destruct (sklearn.split_indices B (pd.nrows X) k seed) as [tr te].
  cbn [fst snd] in *.
  destruct (pd.iloc X tr) as [xtr|] eqn:E1; [|discriminate].
  destruct (pd.iloc X te) as [xte|] eqn:E2; [|discriminate].
  destruct (pd.take (pd.labels Y) tr) as [ytr|] eqn:E3; [|discriminate].
  destruct (pd.take (pd.labels Y) te) as [yte|] eqn:E4; [|discriminate].
  injection H as <- <- <- <-.
  exists tr, te, k. cbn [pd.labels].
  split; [exact El|].
  split; [reflexivity|]. split; [lia|]. split; [exact Hp|].
  split; [exact E1|]. split; [exact E2|]. split; [exact E3|].
  split; [exact E4|].
  unfold pd.iloc in E1, E2.
  destruct (pd.take (pd.values X) tr) as [r1|] eqn:F1; [|discriminate].
  destruct (pd.take (pd.values X) te) as [r2|] eqn:F2; [|discriminate].
  injection E1 as <-. injection E2 as <-.
  unfold pd.take in *.
  apply length_mapM in F1, F2, E3, E4.
  unfold pd.nrows at 1 3. cbn [pd.values].
  rewrite <- F1, <- F2, <- E3, <- E4, Hl1, Hl2. auto.
Qed.

End Split.

(** The documented split: 569 samples give 455 training and 114 test
    samples. *)
Lemma train_test_split_partitions_witness :
  exists (x_train x_test : pd.DataFrame) (y_train y_test : pd.Series),
    sklearn.train_test_split toy.backend
      {| pd.columns := feature_names toy.dataset_569;
         pd.values := data toy.dataset_569 |}
      {| pd.name := "target"; pd.labels := target toy.dataset_569 |}
      (F64.literal 2 10) 123
    = Some (x_train, x_test, y_train, y_test) /\
    pd.nrows x_train = 455%nat /\
    pd.nrows x_test = 114%nat.
Proof.
  destruct (train_test_split_Some toy.backend toy_backend_ok
              {| pd.columns := feature_names toy.dataset_569;
                 pd.values := data toy.dataset_569 |}
              {| pd.name := "target"; pd.labels := target toy.dataset_569 |}
              (F64.literal 2 10) 123 114)
    as (xtr & xte & ytr & yte & Hsp & _);
    [reflexivity | vm_compute; reflexivity | vm_compute; lia |].
  exists xtr, xte, ytr, yte. split; [exact Hsp|].
  destruct (train_test_split_partitions toy.backend toy_backend_ok _ _ _ _
              xtr xte ytr yte Hsp)
    as (tr & te & k & _ & Hk & _ & _ & _ & _ & _ & _ & Hn1 & Hn2 & _).
  assert (Hk114 : sklearn.n_test_samples (F64.literal 2 10) 569 = Some 114%nat)
    by (vm_compute; reflexivity).
  change (pd.nrows {| pd.columns := feature_names toy.dataset_569;
                      pd.values := data toy.dataset_569 |}) with 569%nat in *.
  rewrite Hk114 in Hk. injection Hk as <-.
  split; [exact Hn1 | exact Hn2].
Defined.

(** ** The folds of the repeated k-fold *)

Lemma filter_partition {A : Type} (f : A -> bool) (l : list A) :
  Permutation (List.filter f l ++ List.filter (fun x => negb (f x)) l) l.
Proof.
  induction l as [|a l IH]; simpl; [constructor|].
  destruct (f a); simpl.
  - now constructor.
  - apply Permutation_sym, Permutation_cons_app, Permutation_sym, IH.
Qed.

Lemma mem_In (i : nat) (l : list nat) : sklearn.mem i l = true <-> In i l.
Proof.
  unfold sklearn.mem. rewrite existsb_exists. split.
  - intros [x [Hx E]]. apply Nat.eqb_eq in E. now subst.
  - intros H. exists i. split; [exact H | apply Nat.eqb_refl].
Qed.

Lemma fold_sizes_sum_min (q r m : nat) :
  list_sum (map (fun j => (q + (if Nat.ltb j r then 1 else 0))%nat) (seq 0 m))
  = (m * q + Nat.min r m)%nat.
Proof.
  induction m as [|m IH]; [simpl; lia|].
  rewrite seq_S, map_app, list_sum_app, IH. simpl.
  destruct (Nat.ltb m r) eqn:E;
    [apply Nat.ltb_lt in E | apply Nat.ltb_ge in E]; lia.
Qed.

(** The fold sizes add up to the number of samples. *)
Lemma fold_sizes_sum (n k : nat) :
  (0 < k)%nat -> list_sum (sklearn.fold_sizes n k) = n.
Proof.
  intros Hk. unfold sklearn.fold_sizes. rewrite fold_sizes_sum_min.
  pose proof (Nat.mod_upper_bound n k ltac:(lia)) as Hm.
  pose proof (Nat.div_mod_eq n k) as Hd. lia.
Qed.

Lemma fold_sizes_length (n k : nat) : length (sklearn.fold_sizes n k) = k.
Proof. unfold sklearn.fold_sizes. now rewrite length_map, length_seq. Qed.

Lemma chunks_length (l sizes : list nat) :
  length (sklearn.chunks l sizes) = length sizes.
Proof.
  revert l. induction sizes as [|s sizes IH]; intros l; simpl; [reflexivity|].
  now rewrite IH.
Qed.

Lemma chunks_concat (sizes l : list nat) :
  concat (sklearn.chunks l sizes) = firstn (list_sum sizes) l.
Proof.
  revert l. induction sizes as [|s sizes IH]; intros l; simpl; [reflexivity|].
  now rewrite IH, firstn_plus.
Qed.

Lemma chunks_NoDup (sizes l : list nat) :
  List.NoDup l ->
  List.Forall (fun c => List.NoDup c /\ incl c l) (sklearn.chunks l sizes).
Proof.
  revert l. induction sizes as [|s sizes IH]; intros l Hnd; simpl;
    constructor.
  - split.
    + rewrite <- (firstn_skipn s l) in Hnd. now apply NoDup_app_remove_r in Hnd.
    + intros x Hx. rewrite <- (firstn_skipn s l). apply in_or_app. now left.
  - assert (Hs : List.NoDup (skipn s l))
      by (rewrite <- (firstn_skipn s l) in Hnd; now apply NoDup_app_remove_l in Hnd).
    specialize (IH _ Hs). rewrite List.Forall_forall in *.
    intros c Hc. destruct (IH c Hc) as [H1 H2]. split; [exact H1|].
    intros x Hx. apply H2 in Hx. rewrite <- (firstn_skipn s l).
    apply in_or_app. now right.
Qed.

(** The mask of a duplicate-free chunk of positions holds the positions
    of the chunk. *)
Lemma mask_of_chunk (n : nat) (c : list nat) :
  List.NoDup c -> incl c (seq 0 n) ->
  Permutation (List.filter (fun i => sklearn.mem i c) (seq 0 n)) c.
Proof.
  intros Hnd Hincl. apply Permutation.NoDup_Permutation.
  - apply List.NoDup_filter, seq_NoDup.
  - exact Hnd.
  - intros i. rewrite filter_In, mem_In. split; [tauto|].
    intros Hi. split; [now apply Hincl | exact Hi].
Qed.

Lemma concat_masks (n : nat) (cs : list (list nat)) :
  List.Forall (fun c => List.NoDup c /\ incl c (seq 0 n)) cs ->
  Permutation
    (concat (map (fun c => List.filter (fun i => sklearn.mem i c) (seq 0 n)) cs))
    (concat cs).
Proof.
  induction 1 as [|c cs [Hnd Hincl] _ IH]; simpl; [constructor|].
  apply Permutation_app; [now apply mask_of_chunk | exact IH].
Qed.

(** In one shuffled [KFold] every sample is held out exactly once. *)
Lemma KFold_split_tests (k n : nat) (shuffled : list nat) :
  (0 < k)%nat ->
  Permutation shuffled (seq 0 n) ->
  Permutation (concat (map snd (sklearn.KFold_split k shuffled n))) (seq 0 n).
Proof.
  intros Hk Hperm. unfold sklearn.KFold_split. rewrite map_map. cbn [snd].
  assert (Hnd : List.NoDup shuffled).
  { apply (Permutation_NoDup (Permutation_sym Hperm)), seq_NoDup. }
  assert (Hlen : length shuffled = n)
    by (rewrite (Permutation_length Hperm); apply length_seq).
  etransitivity.
  - apply concat_masks.
    pose proof (chunks_NoDup (sklearn.fold_sizes n k) shuffled Hnd) as Hc.
    rewrite List.Forall_forall in *. intros c Hin.
    destruct (Hc c Hin) as [H1 H2]. split; [exact H1|].
    intros x Hx. apply (Permutation_in _ Hperm). now apply H2.
  - rewrite chunks_concat, fold_sizes_sum by exact Hk.
    rewrite firstn_all2 by lia. exact Hperm.
Qed.

Lemma KFold_split_length (k n : nat) (shuffled : list nat) :
  length (sklearn.KFold_split k shuffled n) = k.
Proof.
  unfold sklearn.KFold_split.
  now rewrite length_map, chunks_length, fold_sizes_length.
Qed.

Section Folds.

Context (B : sklearn.Backend) (HB : sklearn.Backend_ok B).

Lemma repeated_folds_length (k repeats : nat) :
  forall (g : sklearn.RandomState B) (n : nat),
    length (sklearn.repeated_folds B k repeats g n) = (repeats * k)%nat.
Proof.
  induction repeats as [|r IH]; intros g n; simpl; [reflexivity|].
  now rewrite length_app, KFold_split_length, IH.
Qed.

Lemma repeated_folds_disjoint (k repeats : nat) :
  forall (g : sklearn.RandomState B) (n : nat),
    List.Forall (fun fold : list nat * list nat =>
              Permutation (snd fold ++ fst fold) (seq 0 n) /\
              (forall i : nat, In i (fst fold) -> ~ In i (snd fold)))
           (sklearn.repeated_folds B k repeats g n).
Proof.
  induction repeats as [|r IH]; intros g n; simpl; [constructor|].
  apply List.Forall_app. split; [|apply IH].
  unfold sklearn.KFold_split. rewrite List.Forall_forall. intros fold Hf.
  apply in_map_iff in Hf as [test [<- _]]. cbn [fst snd]. split.
  - apply filter_partition.
  - intros i Hi Hi'. apply filter_In in Hi as [_ Hi].
    apply filter_In in Hi' as [_ Hi']. rewrite Hi' in Hi. discriminate.
Qed.

Lemma repeated_folds_tests (k repeats : nat) :
  (0 < k)%nat ->
  forall (g : sklearn.RandomState B) (n r : nat),
    (r < repeats)%nat ->
    Permutation
      (concat (map snd (firstn k (skipn (r * k)
                                    (sklearn.repeated_folds B k repeats g n)))))
      (seq 0 n).
Proof.
  intros Hk. induction repeats as [|m IH]; intros g n r Hr; [lia|].
  cbn [sklearn.repeated_folds].
  pose proof (KFold_split_length k n (fst (sklearn.permutation B g n))) as Hl.
  set (first := sklearn.KFold_split k (fst (sklearn.permutation B g n)) n) in *.
  set (rest := sklearn.repeated_folds B k m (snd (sklearn.permutation B g n)) n).
  destruct r as [|r].
  - cbn [Nat.mul]. rewrite skipn_O.
    rewrite firstn_app, Hl, Nat.sub_diag, firstn_O, app_nil_r.
    rewrite firstn_all2 by lia.
    apply KFold_split_tests; [exact Hk | apply (sklearn.permutation_ok B HB)].
  - rewrite skipn_app, Hl.
    rewrite (skipn_all2 first) by (rewrite Hl; cbn [Nat.mul]; lia).
    replace (S r * k - k)%nat with (r * k)%nat by (cbn [Nat.mul]; lia).
    cbn [app]. apply IH. lia.
Qed.

(** X2. [cv.split] on [n] samples, when it returns, gives
    [n_splits * n_repeats] folds.  In every fold the training and the
    held-out positions are disjoint and together are all positions
    [0..n-1]; and in each repeat the held-out parts of its [n_splits]
    folds together are a rearrangement of [0..n-1]: every sample is
    held out exactly once per repeat. *)
Theorem folds_partition_the_samples (cv : sklearn.RepeatedKFold) (n : nat)
    (folds : list (list nat * list nat)) :
  sklearn.split B cv n = Some folds ->
  (0 < sklearn.n_splits cv)%nat ->
  (sklearn.n_splits cv <= n)%nat /\
  length folds = (sklearn.n_repeats cv * sklearn.n_splits cv)%nat /\
  List.Forall (fun fold : list nat * list nat =>
            Permutation (snd fold ++ fst fold) (seq 0 n) /\
            (forall i : nat, In i (fst fold) -> ~ In i (snd fold))) folds /\
  (forall r : nat,
      (r < sklearn.n_repeats cv)%nat ->
      Permutation
        (concat (map snd (firstn (sklearn.n_splits cv)
                            (skipn (r * sklearn.n_splits cv) folds))))
        (seq 0 n)).
Proof.
  unfold sklearn.split. intros H Hk.
  destruct (Nat.ltb n (sklearn.n_splits cv)) eqn:E; [discriminate|].
  apply Nat.ltb_ge in E. injection H as <-.
  split; [exact E|]. split; [apply repeated_folds_length|].
  split; [apply repeated_folds_disjoint|].
  intros r Hr. now apply repeated_folds_tests.
Qed.

End Folds.

(** Ten folds, three repeats, on the 455 training samples of the
    documented split. *)
Lemma folds_partition_the_samples_witness :
  exists folds : list (list nat * list nat),
    sklearn.split toy.backend
      {| sklearn.n_splits := 10; sklearn.n_repeats := 3;
         sklearn.cv_random_state := 321 |} 455 = Some folds /\
    length folds = 30%nat /\
    Permutation (concat (map snd (firstn 10 (skipn 10 folds)))) (seq 0 455).
Proof.
  eexists. split; [reflexivity|].
  destruct (folds_partition_the_samples toy.backend toy_backend_ok
              {| sklearn.n_splits := 10; sklearn.n_repeats := 3;
                 sklearn.cv_random_state := 321 |} 455 _ eq_refl)
    as (_ & Hlen & _ & Hrep); [cbn; lia|].
  split; [exact Hlen|].
  apply (Hrep 1%nat). cbn. lia.
Defined.

(** ** The sizes of the folds *)

Lemma chunks_sizes (sizes : list nat) :
  forall l : list nat,
    (list_sum sizes <= length l)%nat ->
    map (@length nat) (sklearn.chunks l sizes) = sizes.
Proof.
  induction sizes as [|s sizes IH]; intros l Hl; [reflexivity|].
  cbn [sklearn.chunks map]. change (list_sum (s :: sizes)) with
    (s + list_sum sizes)%nat in Hl. f_equal.
  - rewrite length_firstn. lia.
  - apply IH. rewrite length_skipn. lia.
Qed.

Lemma KFold_split_test_sizes (k n : nat) (shuffled : list nat) :
  (0 < k)%nat ->
  Permutation shuffled (seq 0 n) ->
  map (fun fold : list nat * list nat => length (snd fold))
      (sklearn.KFold_split k shuffled n)
  = sklearn.fold_sizes n k.
Proof.
  intros Hk Hperm. unfold sklearn.KFold_split. rewrite map_map. cbn [snd].
  assert (Hnd : List.NoDup shuffled).
  { apply (Permutation_NoDup (Permutation_sym Hperm)), seq_NoDup. }
  assert (Hlen : length shuffled = n)
    by (rewrite (Permutation_length Hperm); apply length_seq).
  etransitivity;
    [|apply (chunks_sizes (sklearn.fold_sizes n k) shuffled);
      rewrite fold_sizes_sum by exact Hk; lia].
  apply map_ext_in. intros c Hc. apply Permutation_length, mask_of_chunk.
  - pose proof (chunks_NoDup (sklearn.fold_sizes n k) shuffled Hnd) as H.
    rewrite List.Forall_forall in H. exact (proj1 (H c Hc)).
  - pose proof (chunks_NoDup (sklearn.fold_sizes n k) shuffled Hnd) as H.
    rewrite List.Forall_forall in H. intros x Hx.
    apply (Permutation_in _ Hperm). exact (proj2 (H c Hc) x Hx).
Qed.

Lemma fold_sizes_balanced (n k : nat) :
  List.Forall (fun size => (n / k <= size <= n / k + 1)%nat)
         (sklearn.fold_sizes n k).
Proof.
  unfold sklearn.fold_sizes. apply List.Forall_forall. intros size Hs.
  apply in_map_iff in Hs as [j [<- _]].
  generalize (n / k)%nat. intros q. destruct (Nat.ltb j (n mod k)); lia.
Qed.

Section FoldSizes.

Context (B : sklearn.Backend) (HB : sklearn.Backend_ok B).

Lemma repeated_folds_test_sizes (k repeats : nat) :
  (0 < k)%nat ->
  forall (g : sklearn.RandomState B) (n : nat),
    map (fun fold : list nat * list nat => length (snd fold))
        (sklearn.repeated_folds B k repeats g n)
    = concat (repeat (sklearn.fold_sizes n k) repeats).
Proof.
  intros Hk. induction repeats as [|r IH]; intros g n; [reflexivity|].
  cbn [sklearn.repeated_folds repeat concat].
  rewrite map_app, IH, KFold_split_test_sizes;
    [reflexivity | exact Hk | apply (sklearn.permutation_ok B HB)].
Qed.

(** X3. The folds are balanced: in every repeat the held-out parts have
    the sizes [n / k + 1] for the first [n mod k] folds and [n / k] for
    the others, so any two differ by at most one sample, and in every
    fold the training part holds all the other samples. *)
Theorem folds_are_balanced (cv : sklearn.RepeatedKFold) (n : nat)
    (folds : list (list nat * list nat)) :
  sklearn.split B cv n = Some folds ->
  (0 < sklearn.n_splits cv)%nat ->
  map (fun fold : list nat * list nat => length (snd fold)) folds
  = concat (repeat (sklearn.fold_sizes n (sklearn.n_splits cv))
                   (sklearn.n_repeats cv)) /\
  List.Forall (fun fold : list nat * list nat =>
            (n / sklearn.n_splits cv <= length (snd fold)
             <= n / sklearn.n_splits cv + 1)%nat /\
            (length (fst fold) + length (snd fold) = n)%nat) folds.
Proof.
  unfold sklearn.split. intros H Hk.
  destruct (Nat.ltb n (sklearn.n_splits cv)) eqn:E; [discriminate|].
  injection H as <-.
  pose proof (repeated_folds_test_sizes (sklearn.n_splits cv)
                (sklearn.n_repeats cv) Hk
                (sklearn.RandomState_seed B (sklearn.cv_random_state cv)) n)
    as Hsizes.
  split; [exact Hsizes|].
  pose proof (repeated_folds_disjoint B (sklearn.n_splits cv)
                (sklearn.n_repeats cv)
                (sklearn.RandomState_seed B (sklearn.cv_random_state cv)) n)
    as Hparts.
  rewrite List.Forall_forall in *. intros fold Hfold. split.
  - assert (Hin : In (length (snd fold))
                     (concat (repeat (sklearn.fold_sizes n (sklearn.n_splits cv))
                                     (sklearn.n_repeats cv)))).
    { rewrite <- Hsizes. apply in_map_iff. exists fold. split; [reflexivity|].
      exact Hfold. }
    apply in_concat in Hin as [sizes [Hrep Hin]].
    apply repeat_spec in Hrep. subst sizes.
    pose proof (fold_sizes_balanced n (sklearn.n_splits cv)) as Hb.
    rewrite List.Forall_forall in Hb. exact (Hb _ Hin).
  - destruct (Hparts fold Hfold) as [Hperm _].
    apply Permutation_length in Hperm.
    rewrite length_app, length_seq in Hperm. lia.
Qed.

End FoldSizes.

(** The ten folds of the 455 training samples of the documented split:
    five of 46 samples, then five of 45, in each of the three repeats. *)
Lemma folds_are_balanced_witness :
  exists folds : list (list nat * list nat),
    sklearn.split toy.backend
      {| sklearn.n_splits := 10; sklearn.n_repeats := 3;
         sklearn.cv_random_state := 321 |} 455 = Some folds /\
    map (fun fold : list nat * list nat => length (snd fold)) (firstn 10 folds)
    = [46; 46; 46; 46; 46; 45; 45; 45; 45; 45]%nat.
Proof.
  eexists. split; [reflexivity|].
  destruct (folds_are_balanced toy.backend toy_backend_ok
              {| sklearn.n_splits := 10; sklearn.n_repeats := 3;
                 sklearn.cv_random_state := 321 |} 455 _ eq_refl)
    as (Hsizes & _); [cbn; lia|].
  rewrite <- firstn_map, Hsizes. vm_compute. reflexivity.
Defined.

(** ** The table of scores of the search *)

Lemma mapM_Forall {A C : Type} (f : A -> option C) (P : C -> Prop)
    (l : list A) (k : list C) :
  mapM f l = Some k ->
  (forall (x : A) (y : C), In x l -> f x = Some y -> P y) ->
  List.Forall P k.
Proof.
  intros H. apply mapM_Some_1 in H.
  induction H as [|x y l k Hxy _ IH]; intros HP; constructor.
  - apply (HP x y); [now left | exact Hxy].
  - apply IH. intros x' y' Hin. apply HP. now right.
Qed.

Lemma take_Forall {A : Type} (P : A -> Prop) (rows out : list A)
    (positions : list nat) :
  pd.take rows positions = Some out -> List.Forall P rows -> List.Forall P out.
Proof.
  unfold pd.take. intros H HP.
  apply (mapM_Forall _ P _ _ H).
  intros i y _ Hy. rewrite List.Forall_forall in HP.
  apply HP. eapply nth_error_In. exact Hy.
Qed.

Lemma sum_abs_diff_binary (y p : list Z) :
  length y = length p ->
  List.Forall binary y -> List.Forall binary p ->
  sklearn.sum_abs_diff y p
  = Z.of_nat (length y) - Z.of_nat (sklearn.count_equal y p).
Proof.
  unfold sklearn.sum_abs_diff, sklearn.count_equal.
  revert p. induction y as [|a y IH]; intros [|b p] Hlen Hy Hp;
    try discriminate; [reflexivity|].
  inversion Hy as [|? ? Ha Hy']; subst. inversion Hp as [|? ? Hb Hp']; subst.
  injection Hlen as Hlen. specialize (IH p Hlen Hy' Hp').
  cbn [combine map fold_right List.filter fst snd length].
  destruct Ha as [-> | ->], Hb as [-> | ->];
    change (Z.abs (0 - 0)) with 0; change (Z.abs (0 - 1)) with 1;
    change (Z.abs (1 - 0)) with 1; change (Z.abs (1 - 1)) with 0;
    change (0 =? 0) with true; change (0 =? 1) with false;
    change (1 =? 0) with false; change (1 =? 1) with true;
    cbn [length]; rewrite IH; lia.
Qed.

Lemma neg_mae_accuracy (y_true y_pred : list Z) (q : Q) :
  sklearn.neg_mean_absolute_error y_true y_pred = Some q ->
  y_true <> [] ->
  List.Forall binary y_true ->
  List.Forall binary y_pred ->
  (q == sklearn.accuracy_fraction y_true y_pred - 1)%Q.
Proof.
  unfold sklearn.neg_mean_absolute_error. intros H Hne Hy Hp.
  destruct (Nat.eqb (length y_true) (length y_pred)) eqn:E; [|discriminate].
  apply Nat.eqb_eq in E. injection H as <-.
  unfold sklearn.accuracy_fraction.
  rewrite (sum_abs_diff_binary y_true y_pred E Hy Hp).
  assert (Hpos : (0 < length y_true)%nat)
    by (destruct y_true; [contradiction | simpl; lia]).
  assert (Hn : ~ (inject_Z (Z.of_nat (length y_true)) == 0)%Q).
  { unfold Qeq. simpl. lia. }
  unfold Zminus. rewrite inject_Z_plus, inject_Z_opp.
  field. exact Hn.
Qed.



Lemma neg_mae_range (y_true y_pred : list Z) (q : Q) :
  sklearn.neg_mean_absolute_error y_true y_pred = Some q ->
  List.Forall binary y_true ->
  List.Forall binary y_pred ->
  (-1 <= q <= 0)%Q.
Proof.
  intros H Hy Hp. destruct y_true as [|a y] eqn:Ey.
  - unfold sklearn.neg_mean_absolute_error in H.
    destruct (Nat.eqb (length []) (length y_pred)); [|discriminate].
    injection H as <-. split; vm_compute; discriminate.
  - rewrite <- Ey in *.
    assert (Hne : y_true <> []) by (rewrite Ey; discriminate).
    rewrite (neg_mae_accuracy _ _ _ H Hne Hy Hp).
    destruct (accuracy_fraction_range y_true y_pred Hne) as [H0 H1].
    split; lra.
Qed.

Lemma Qsum_range (row : list Q) :
  List.Forall (fun q => (-1 <= q <= 0)%Q) row ->
  (- inject_Z (Z.of_nat (length row)) <= sklearn.Qsum row <= 0)%Q.
Proof.
  unfold sklearn.Qsum.
  induction 1 as [|q row [Hq1 Hq2] _ [IH1 IH2]].
  - split; vm_compute; discriminate.
  - cbn [fold_right length]. rewrite Nat2Z.inj_succ. unfold Z.succ.
    rewrite inject_Z_plus. change (inject_Z 1) with 1%Q.
    split; lra.
Qed.

Lemma average_range (row : list Q) :
  List.Forall (fun q => (-1 <= q <= 0)%Q) row ->
  (-1 <= sklearn.average row <= 0)%Q.
Proof.
  intros H. destruct (Qsum_range row H) as [H1 H2].
  unfold sklearn.average. destruct row as [|q0 row'] eqn:Er.
  - split; vm_compute; discriminate.
  - rewrite <- Er in *.
    assert (HposQ : (0 < inject_Z (Z.of_nat (length row)))%Q).
    { rewrite Er. unfold Qlt. simpl. lia. }
    split.
    + apply Qle_shift_div_l; [exact HposQ | lra].
    + apply Qle_shift_div_r; [exact HposQ | lra].
Qed.

Lemma select_best_inv (grid : list float) (table : list (list Q))
    (i : nat) (c : float) (m : Q) :
  sklearn.select_best grid table = Some (i, c, m) ->
  length grid = length table /\
  nth_error grid i = Some c /\
  exists row : list Q, nth_error table i = Some row /\ m = sklearn.average row.
Proof.
  unfold sklearn.select_best. intros H.
  destruct (Nat.eqb (length grid) (length table)) eqn:El; [|discriminate].
  apply Nat.eqb_eq in El.
  destruct (sklearn.best_index (map sklearn.average table)) as [[i' m']|] eqn:E;
    [|discriminate].
  destruct (nth_error grid i') as [c'|] eqn:Ec; [|discriminate].
  injection H as <- <- <-.
  split; [exact El|]. split; [exact Ec|].
  apply best_index_first_max in E. destruct E as [E _].
  rewrite nth_error_map in E.
  destruct (nth_error table i') as [row|]; [|discriminate].
  injection E as <-. exists row. split; reflexivity.
Qed.

Section SearchTable.

Context (B : sklearn.Backend).

Lemma predict_binary (est : sklearn.Estimator) (X : pd.DataFrame)
    (p : list Z) :
  sklearn.predict B est X = Some p ->
  length p = pd.nrows X /\ List.Forall binary p.
Proof.
  unfold sklearn.predict.
  destruct (sklearn.coef_ est) as [w|]; [|discriminate].
  destruct (sklearn.intercept_ est) as [b|]; [|discriminate].
  intros [= <-]. split; [apply length_map|].
  apply List.Forall_forall. intros v Hv. apply in_map_iff in Hv as [row [<- _]].
  destruct (F64.ltb F64.zero _); [right | left]; reflexivity.
Qed.

Lemma fit_and_score_range (base : sklearn.Params) (X : pd.DataFrame)
    (y : list Z) (c : float) (fold : list nat * list nat) (seed : Z) (q : Q) :
  sklearn.fit_and_score B base X y c fold seed = Some q ->
  List.Forall binary y ->
  (-1 <= q <= 0)%Q.
Proof.
  unfold sklearn.fit_and_score. intros H Hy.
  destruct (pd.iloc X (fst fold)) as [x_tr|]; [|discriminate].
  destruct (pd.take y (fst fold)) as [y_tr|]; [|discriminate].
  destruct (pd.iloc X (snd fold)) as [x_te|]; [|discriminate].
  destruct (pd.take y (snd fold)) as [y_te|] eqn:Ete; [|discriminate].
  destruct (sklearn.predict B _ x_te) as [y_pred|] eqn:Ep; [|discriminate].
  apply (neg_mae_range y_te y_pred q H).
  - exact (take_Forall binary y y_te (snd fold) Ete Hy).
  - exact (proj2 (predict_binary _ _ _ Ep)).
Qed.

Lemma cross_validate_inv (base : sklearn.Params) (X : pd.DataFrame)
    (y : list Z) (grid : list float) (folds : list (list nat * list nat))
    (task_seed : nat -> Z) (table : list (list Q)) :
  sklearn.cross_validate B base X y grid folds task_seed = Some table ->
  length table = length grid /\
  List.Forall (fun row : list Q =>
            length row = length folds /\
            (List.Forall binary y ->
             List.Forall (fun q => (-1 <= q <= 0)%Q) row)) table.
Proof.
  unfold sklearn.cross_validate. intros H. split.
  - apply length_mapM in H. rewrite <- H, length_combine, length_seq. lia.
  - apply (mapM_Forall _ _ _ _ H).
    intros [a c] row _ Hrow. cbn [fst snd] in Hrow. split.
    + apply length_mapM in Hrow.
      rewrite <- Hrow, length_combine, length_seq. lia.
    + intros Hy. apply (mapM_Forall _ _ _ _ Hrow).
      intros [b fold] q _ Hq. cbn [fst snd] in Hq.
      exact (fit_and_score_range _ _ _ _ _ _ _ Hq Hy).
Qed.

Lemma GridSearchCV_fit_inv (search : sklearn.GridSearchCV)
    (base : sklearn.Estimator) (X : pd.DataFrame) (y : list Z)
    (task_seed : nat -> Z) (g g' : sklearn.RandomState B)
    (res : sklearn.SearchResults) :
  sklearn.GridSearchCV_fit B search base X y task_seed g = Some (res, g') ->
  exists (grid : list float) (folds : list (list nat * list nat)),
    sklearn.param_grid search = Some grid /\
    sklearn.split B (sklearn.cv search) (pd.nrows X) = Some folds /\
    sklearn.cross_validate B (sklearn.params base) X y grid folds task_seed
    = Some (sklearn.cv_scores res) /\
    sklearn.select_best grid (sklearn.cv_scores res)
    = Some (sklearn.best_index_ res, sklearn.best_params_C res,
            sklearn.best_score_ res).
Proof.
  unfold sklearn.GridSearchCV_fit. intros H.
  destruct (sklearn.param_grid search) as [grid|]; [|discriminate].
  destruct (sklearn.split B (sklearn.cv search) (pd.nrows X)) as [folds|];
    [|discriminate].
  destruct (sklearn.cross_validate B _ X y grid folds task_seed)
    as [table|] eqn:Ecv; [|discriminate].
  destruct (sklearn.select_best grid table) as [[[i c] m]|] eqn:E;
    [|discriminate].
  injection H as <- _. exists grid, folds.
  cbn [sklearn.cv_scores sklearn.best_index_ sklearn.best_params_C
       sklearn.best_score_].
  split; [reflexivity|]. split; [reflexivity|].
  split; [exact Ecv | exact E].
Qed.

Lemma search_table_shape (search : sklearn.GridSearchCV)
    (base : sklearn.Estimator) (X : pd.DataFrame) (y : list Z)
    (task_seed : nat -> Z) (g g' : sklearn.RandomState B)
    (res : sklearn.SearchResults) :
  sklearn.GridSearchCV_fit B search base X y task_seed g = Some (res, g') ->
  exists grid : list float,
    sklearn.param_grid search = Some grid /\
    length (sklearn.cv_scores res) = length grid /\
    (sklearn.n_splits (sklearn.cv search) <= pd.nrows X)%nat /\
    List.Forall (fun row : list Q =>
              length row = (sklearn.n_repeats (sklearn.cv search)
                            * sklearn.n_splits (sklearn.cv search))%nat)
           (sklearn.cv_scores res) /\
    nth_error grid (sklearn.best_index_ res) = Some (sklearn.best_params_C res) /\
    (exists row : list Q,
        nth_error (sklearn.cv_scores res) (sklearn.best_index_ res) = Some row /\
        sklearn.best_score_ res = sklearn.average row) /\
    (List.Forall binary y ->
     List.Forall (List.Forall (fun q => (-1 <= q <= 0)%Q)) (sklearn.cv_scores res) /\
     (-1 <= sklearn.best_score_ res <= 0)%Q).
Proof.
  intros H.
  apply GridSearchCV_fit_inv in H as (grid & folds & Hgrid & Hsplit & Hcv & Hsel).
  apply cross_validate_inv in Hcv as [Hlen Hrows].
  apply select_best_inv in Hsel as (_ & Hc & row & Hrow & Hm).
  assert (Hfolds : length folds
                   = (sklearn.n_repeats (sklearn.cv search)
                      * sklearn.n_splits (sklearn.cv search))%nat
                   /\ (sklearn.n_splits (sklearn.cv search) <= pd.nrows X)%nat).
  { unfold sklearn.split in Hsplit.
    destruct (Nat.ltb (pd.nrows X) (sklearn.n_splits (sklearn.cv search)))
      eqn:E; [discriminate|].
    apply Nat.ltb_ge in E. injection Hsplit as <-.
    split; [apply repeated_folds_length | exact E]. }
  destruct Hfolds as [Hfolds Hn].
  exists grid. split; [exact Hgrid|]. split; [exact Hlen|]. split; [exact Hn|].
  split.
  { eapply List.Forall_impl; [|exact Hrows].
    intros r [Hr _]. now rewrite Hr. }
  split; [exact Hc|]. split; [exists row; split; [exact Hrow | exact Hm]|].
  intros Hy.
  assert (Hall : List.Forall (List.Forall (fun q => (-1 <= q <= 0)%Q))
                   (sklearn.cv_scores res)).
  { eapply List.Forall_impl; [|exact Hrows]. intros r [_ Hr]. exact (Hr Hy). }
  split; [exact Hall|].
  rewrite Hm. apply average_range.
  rewrite List.Forall_forall in Hall. apply Hall.
  eapply nth_error_In. exact Hrow.
Qed.

End SearchTable.

(** ** The order of the selected columns *)

Lemma fold_setitem_keys_sublist {V : Type} (pairs : list (string * V)) :
  forall acc : py.dict V,
    sublist (py.keys (fold_left (fun d kv => py.setitem d (fst kv) (snd kv))
                                pairs acc))
            (py.keys acc ++ map fst pairs).
Proof.
  induction pairs as [|[k v] pairs IH]; intros acc; cbn [fold_left map fst snd].
  - rewrite app_nil_r. reflexivity.
  - etransitivity; [apply IH|].
    destruct (in_dec String.string_dec k (py.keys acc)) as [Hin|Hout].
    + rewrite setitem_keys by exact Hin.
      apply sublist_app; [reflexivity|]. apply sublist_cons. reflexivity.
    + rewrite setitem_fresh by exact Hout.
      unfold py.keys. rewrite map_app, <- app_assoc. reflexivity.
Qed.

Lemma filter_keys_sublist {V : Type} (f : string * V -> bool)
    (l : list (string * V)) :
  sublist (map fst (List.filter f l)) (map fst l).
Proof.
  induction l as [|kv l IH]; cbn [List.filter map]; [reflexivity|].
  destruct (f kv); cbn [map].
  - now apply sublist_skip.
  - now apply sublist_cons.
Qed.

Lemma zip_keys_sublist {A C : Type} (a : list A) (b : list C) :
  sublist (map fst (py.zip a b)) a.
Proof.
  unfold py.zip. revert b.
  induction a as [|x a IH]; intros [|y b]; cbn [combine map fst].
  - reflexivity.
  - reflexivity.
  - apply sublist_nil_l.
  - apply sublist_skip, IH.
Qed.

(** X5. The selected features are listed in the order of the columns of
    [data], each once: the list is a subsequence of the column labels.
    The reduced frames therefore keep the column order of the full
    frames, and there are at most as many selected features as
    coefficients. *)
Theorem selected_keeps_the_column_order (columns : list string)
    (coef : list float) :
  sublist (selected_of (feature_importance_of columns coef)) columns /\
  List.NoDup (selected_of (feature_importance_of columns coef)) /\
  (length (selected_of (feature_importance_of columns coef))
   <= Nat.min (length columns) (length coef))%nat.
Proof.
  assert (Hkeys : sublist (py.keys (feature_importance_of columns coef))
                          (map fst (py.zip columns coef))).
  { unfold feature_importance_of, py.dict_of.
    exact (fold_setitem_keys_sublist (py.zip columns coef) []). }
  assert (Hsel : sublist (selected_of (feature_importance_of columns coef))
                         (py.keys (feature_importance_of columns coef))).
  { unfold selected_of, py.items, py.keys. apply filter_keys_sublist. }
  split; [|split].
  - etransitivity; [exact Hsel|]. etransitivity; [exact Hkeys|].
    apply zip_keys_sublist.
  - apply NoDup_ListNoDup. eapply sublist_NoDup; [|exact Hsel].
    apply NoDup_ListNoDup. unfold feature_importance_of.
    apply dict_of_keys_NoDup.
  - apply sublist_length in Hsel, Hkeys.
    rewrite length_map in Hkeys. unfold py.zip in Hkeys.
    rewrite length_combine in Hkeys. lia.
Qed.

(** ** A selection that keeps every column *)

Lemma filter_all {A : Type} (f : A -> bool) (l : list A) :
  forallb f l = true -> List.filter f l = l.
Proof.
  induction l as [|a l IH]; cbn [forallb List.filter]; [reflexivity|].
  intros H. apply andb_prop in H as [Ha Hl]. rewrite Ha. f_equal. now apply IH.
Qed.

Lemma forallb_zip_snd {A : Type} (f : float -> bool) (a : list A)
    (b : list float) :
  forallb f b = true ->
  forallb (fun kv : A * float => f (snd kv)) (py.zip a b) = true.
Proof.
  unfold py.zip. revert b.
  induction a as [|x a IH]; intros [|y b]; cbn [combine forallb snd];
    try reflexivity.
  intros H. apply andb_prop in H as [Hy Hb]. rewrite Hy. now apply IH.
Qed.

Lemma get_loc_app (pre rest : list string) (k : string) :
  ~ In k pre -> pd.get_loc (pre ++ k :: rest) k = Some (length pre).
Proof.
  induction pre as [|k' pre IH]; cbn [app pd.get_loc length]; intros Hk.
  - now rewrite String.eqb_refl.
  - destruct (String.eqb k' k) eqn:E.
    + apply String.eqb_eq in E. exfalso. apply Hk. now left.
    + rewrite IH; [reflexivity|]. intros Hin. apply Hk. now right.
Qed.

Lemma mapM_get_loc (l : list string) :
  forall pre : list string,
    List.NoDup (pre ++ l) ->
    mapM (pd.get_loc (pre ++ l)) l = Some (seq (length pre) (length l)).
Proof.
  induction l as [|k l IH]; intros pre Hnd; [reflexivity|].
  cbn [mapM length seq].
  rewrite get_loc_app by (apply NoDup_remove_2 in Hnd; intros Hin; apply Hnd,
                          in_or_app; now left).
  specialize (IH (pre ++ [k])). rewrite <- app_assoc in IH. cbn [app] in IH.
  rewrite (IH Hnd), length_app. cbn [length].
  replace (length pre + 1)%nat with (S (length pre)) by lia. reflexivity.
Qed.

Lemma map_nth_seq {A : Type} (d : A) (row : list A) :
  map (fun j => nth j row d) (seq 0 (length row)) = row.
Proof.
  induction row as [|x row IH]; [reflexivity|].
  cbn [length seq map nth]. f_equal.
  rewrite <- seq_shift, map_map. exact IH.
Qed.

(** Asking a frame for all its columns, in their order, gives the frame
    back. *)
Lemma getitem_all_columns (df : pd.DataFrame) :
  well_formed df -> List.NoDup (pd.columns df) ->
  pd.getitem df (pd.columns df) = Some df.
Proof.
  intros Hwf Hnd. unfold pd.getitem.
  pose proof (mapM_get_loc (pd.columns df) [] Hnd) as Hlocs.
  cbn [app length] in Hlocs. rewrite Hlocs.
  destruct df as [cols rows]. cbn [pd.columns pd.values] in *.
  f_equal. f_equal. unfold well_formed in Hwf. cbn [pd.columns pd.values] in Hwf.
  induction Hwf as [|row rows Hrow _ IH]; [reflexivity|].
  cbn [map]. rewrite IH, <- Hrow, map_nth_seq. reflexivity.
Qed.

(** X6. When no coefficient is a zero the selection changes nothing:
    every feature is selected, and the reduced frame is the frame
    itself, for a frame with distinct column labels and one coefficient
    per column ([extra] stands for the column of [data] beyond those of
    the frame, the target). *)
Theorem selection_without_zeros_keeps_the_frame (df : pd.DataFrame)
    (extra : list string) (coef : list float) :
  well_formed df ->
  List.NoDup (pd.columns df) ->
  length coef = length (pd.columns df) ->
  forallb py.ne_zero coef = true ->
  selected_of (feature_importance_of (pd.columns df ++ extra) coef)
  = pd.columns df /\
  pd.getitem df
    (selected_of (feature_importance_of (pd.columns df ++ extra) coef))
  = Some df.
Proof.
  intros Hwf Hnd Hlen Hnz.
  assert (Hsel : selected_of (feature_importance_of (pd.columns df ++ extra) coef)
                 = pd.columns df).
  { unfold feature_importance_of. rewrite zip_truncates by lia.
    rewrite dict_of_distinct by (rewrite zip_fst by congruence; exact Hnd).
    unfold selected_of, py.items.
    rewrite filter_all by (apply forallb_zip_snd; exact Hnz).
    apply zip_fst. congruence. }
  split; [exact Hsel|]. rewrite Hsel. now apply getitem_all_columns.
Qed.

(** ** What a completed run has done

    The converse of the completion lemmas: from the fact that a cell
    sequence returned, the values it computed on the way. *)

Section Inversion.

Context (B : sklearn.Backend).

Lemma bind_Some {A C : Type} (m : NB B A) (k : A -> NB B C) (s : State B)
    (r : C * State B) :
  bind m k s = Some r ->
  exists (a : A) (s' : State B), m s = Some (a, s') /\ k a s' = Some r.
Proof.
  unfold bind. destruct (m s) as [[a s']|]; [|discriminate].
  intros H. exists a, s'. split; [reflexivity | exact H].
Qed.

Lemma bind_lift_Some {A C : Type} (o : option A) (k : A -> NB B C)
    (s : State B) (r : C * State B) :
  bind (lift o) k s = Some r -> exists a : A, o = Some a /\ k a s = Some r.
Proof.
  unfold bind, lift. destruct o as [a|]; [|discriminate].
  intros H. exists a. split; [reflexivity | exact H].
Qed.

Lemma bind_load_Some {C : Type} (r : nat) (k : sklearn.Estimator -> NB B C)
    (s : State B) (res : C * State B) :
  bind (load r) k s = Some res ->
  exists est : sklearn.Estimator,
    nth_error (heap s) r = Some est /\ k est s = Some res.
Proof.
  unfold bind, load. destruct (nth_error (heap s) r) as [est|]; [|discriminate].
  intros H. exists est. split; [reflexivity | exact H].
Qed.

Lemma bind_coef_0_Some {C : Type} (r : nat) (k : list float -> NB B C)
    (s : State B) (res : C * State B) :
  bind (coef_0 B r) k s = Some res ->
  exists (est : sklearn.Estimator) (coef : list float),
    nth_error (heap s) r = Some est /\
    sklearn.coef_ est = Some coef /\
    k coef s = Some res.
Proof.
  unfold coef_0, bind, load, lift.
  destruct (nth_error (heap s) r) as [est|]; [|discriminate].
  destruct (sklearn.coef_ est) as [coef|] eqn:E; [|discriminate].
  intros H. exists est, coef. split; [reflexivity|]. split; [exact E | exact H].
Qed.

Lemma bind_search_fit_Some {C : Type} (search : sklearn.GridSearchCV)
    (X : pd.DataFrame) (y : list Z) (task_seed : nat -> Z)
    (k : sklearn.SearchResults -> NB B C) (s : State B) (r : C * State B) :
  bind (search_fit B search X y task_seed) k s = Some r ->
  exists (base : sklearn.Estimator) (res : sklearn.SearchResults)
         (g : sklearn.RandomState B),
    nth_error (heap s) (sklearn.estimator search) = Some base /\
    sklearn.GridSearchCV_fit B search base X y task_seed (np_random s)
    = Some (res, g) /\
    k res {| heap := heap s; np_random := g; out := out s |} = Some r.
Proof.
  unfold search_fit, bind, load.
  destruct (nth_error (heap s) (sklearn.estimator search)) as [base|];
    [|discriminate].
  destruct (sklearn.GridSearchCV_fit B search base X y task_seed (np_random s))
    as [[res g]|] eqn:E; [|discriminate].
  intros H. exists base, res, g.
  split; [reflexivity|]. split; [exact E | exact H].
Qed.

Lemma bind_fit_Some {C : Type} (r : nat) (X : pd.DataFrame) (y : list Z)
    (k : sklearn.Estimator -> NB B C) (s : State B) (res : C * State B) :
  bind (fit B r X y) k s = Some res ->
  exists est : sklearn.Estimator,
    nth_error (heap s) r = Some est /\
    bind (fit B r X y) k s
    = k (sklearn.fit_with_seed B (sklearn.params est) X y
           (fst (sklearn.draw_solver_seed B (sklearn.params est) (np_random s))))
        {| heap := <[r := sklearn.fit_with_seed B (sklearn.params est) X y
                       (fst (sklearn.draw_solver_seed B (sklearn.params est)
                               (np_random s)))]> (heap s);
           np_random := snd (sklearn.draw_solver_seed B (sklearn.params est)
                               (np_random s));
           out := out s |}.
Proof.
  unfold fit. unfold bind at 1. unfold bind at 1. unfold load.
  destruct (nth_error (heap s) r) as [est|] eqn:E; [|discriminate].
  intros _. exists est. split; [reflexivity|].
  unfold bind at 1. unfold bind at 1. unfold load. rewrite E. reflexivity.
Qed.

Lemma insert_last {A : Type} (l : list A) (x y : A) :
  <[length l := y]> (l ++ [x]) = l ++ [y].
Proof.
  rewrite insert_app_r_alt by lia. now rewrite Nat.sub_diag.
Qed.

Lemma nth_error_last {A : Type} (l : list A) (x : A) :
  nth_error (l ++ [x]) (length l) = Some x.
Proof.
  rewrite nth_error_app2 by lia. now rewrite Nat.sub_diag.
Qed.

(** The cells that load, split and tune. *)
Lemma tune_inv (ds : Bunch) (task_seed : nat -> Z) (s s' : State B) (t : Tuned) :
  tune B ds task_seed s = Some (t, s') ->
  exists g1 : sklearn.RandomState B,
    pd.new_DataFrame (data ds) (feature_names ds) = Some (X t) /\
    Y t = {| pd.name := "target"; pd.labels := target ds |} /\
    data_ t = pd.concat_axis1 (X t) (Y t) /\
    sklearn.train_test_split B (X t) (Y t) (F64.literal 2 10) 123
    = Some (x_train t, x_test t, y_train t, y_test t) /\
    lasso_model t = length (heap s) /\
    sklearn.param_grid (search t) = grid_C /\
    sklearn.cv (search t)
    = {| sklearn.n_splits := 10; sklearn.n_repeats := 3;
         sklearn.cv_random_state := 321 |} /\
    sklearn.GridSearchCV_fit B (search t) (sklearn.unfitted untuned_params)
      (x_train t) (pd.labels (y_train t)) task_seed (np_random s)
    = Some (results t, g1) /\
    s' = {| heap := heap s
                    ++ [sklearn.fit_with_seed B untuned_params (x_train t)
                          (pd.labels (y_train t)) (fst (sklearn.randint B g1))];
            np_random := snd (sklearn.randint B g1);
            out := out s
                   ++ [Print "Features: " (VIndex (feature_names ds));
                       Display (VEstimator
                         (sklearn.fit_with_seed B untuned_params (x_train t)
                            (pd.labels (y_train t))
                            (fst (sklearn.randint B g1))))] |}.
Proof.
  unfold tune. intros H.
  apply bind_lift_Some in H as (X0 & HX & H).
  rewrite bind_emit in H.
  apply bind_lift_Some in H as ([[[xtr xte] ytr] yte] & Hsplit & H).
  rewrite bind_alloc in H. nb_simpl_in H.
  apply bind_search_fit_Some in H as (base & res & g1 & Hbase & Hfit & H).
  nb_simpl_in H. cbn [sklearn.estimator heap] in Hbase.
  rewrite nth_error_last in Hbase. injection Hbase as <-.
  cbn [np_random] in Hfit.
  pose proof H as H'.
  apply bind_fit_Some in H' as (est & Hest & Heq).
  rewrite Heq in H. clear Heq.
  cbn [heap] in Hest. rewrite nth_error_last in Hest. injection Hest as <-.
  rewrite bind_emit in H. nb_simpl_in H.
  unfold ret in H. injection H as <- <-.
  cbn [X Y data_ x_train x_test y_train y_test lasso_model search results
       sklearn.param_grid sklearn.cv].
  exists g1.
  split; [exact HX|]. split; [reflexivity|]. split; [reflexivity|].
  split; [exact Hsplit|]. split; [reflexivity|]. split; [reflexivity|].
  split; [reflexivity|]. split; [exact Hfit|].
  rewrite insert_last, <- app_assoc.
  rewrite (new_DataFrame_columns _ _ _ HX). reflexivity.
Qed.

End Inversion.

Section InversionNotebooks.

Context (B : sklearn.Backend).

(** src/lasso_breast_cancer.ipynb, from the state [s0] left by the cells
    that tune. *)
Lemma lasso_breast_cancer_inv (ds : Bunch) (task_seed : nat -> Z)
    (s s' : State B) (f : Final) :
  lasso_breast_cancer B ds task_seed s = Some (f, s') ->
  exists (s0 : State B) (full : sklearn.Estimator) (coef : list float)
         (predicted_y : list Z) (a : float),
    tune B ds task_seed s = Some (tuned f, s0) /\
    nth_error (heap s0) (lasso_model (tuned f)) = Some full /\
    sklearn.coef_ full = Some coef /\
    feature_importance f
    = feature_importance_of (pd.columns (data_ (tuned f))) coef /\
    pd.getitem (x_train (tuned f)) (selected_of (feature_importance f))
    = Some (x_train_selected f) /\
    pd.getitem (x_test (tuned f)) (selected_of (feature_importance f))
    = Some (x_test_selected f) /\
    final_model f = length (heap s0) /\
    let refit :=
      sklearn.fit_with_seed B (refit_params (results (tuned f)))
        (x_train_selected f) (pd.labels (y_train (tuned f)))
        (fst (sklearn.randint B (np_random s0))) in
    sklearn.predict B refit (x_test_selected f) = Some predicted_y /\
    sklearn.score B refit (x_test_selected f) (pd.labels (y_test (tuned f)))
    = Some a /\
    s' = {| heap := heap s0 ++ [refit];
            np_random := snd (sklearn.randint B (np_random s0));
            out := out s0
                   ++ [Print "MAE: "
                         (VScore (sklearn.best_score_ (results (tuned f))));
                       Print "Config: "
                         (VParams (sklearn.best_params_C (results (tuned f))));
                       Display (VDict (feature_importance f));
                       Display (VEstimator refit);
                       Display (VArray predicted_y);
                       Print "score:" (VFloat a)] |}.
Proof.
  unfold lasso_breast_cancer. intros H.
  apply bind_Some in H as (t & s0 & Htune & H).
  rewrite bind_emit in H. rewrite bind_emit in H. nb_simpl_in H.
  apply bind_coef_0_Some in H as (full & coef & Hfull & Hcoef & H).
  nb_simpl_in Hfull.
  rewrite bind_emit in H. nb_simpl_in H.
  apply bind_lift_Some in H as (xs & Hxs & H).
  apply bind_lift_Some in H as (xts & Hxts & H).
  rewrite bind_alloc in H. nb_simpl_in H.
  pose proof H as H'.
  apply bind_fit_Some in H' as (est & Hest & Heq).
  rewrite Heq in H. clear Heq.
  cbn [heap] in Hest. rewrite nth_error_last in Hest. injection Hest as <-.
  rewrite bind_emit in H. nb_simpl_in H.
  rewrite insert_last in H.
  apply bind_load_Some in H as (model & Hmodel & H).
  cbn [heap] in Hmodel. rewrite nth_error_last in Hmodel. injection Hmodel as <-.
  apply bind_lift_Some in H as (predicted_y & Hp & H).
  rewrite bind_emit in H. nb_simpl_in H.
  apply bind_load_Some in H as (model & Hmodel & H).
  cbn [heap] in Hmodel. rewrite nth_error_last in Hmodel. injection Hmodel as <-.
  apply bind_lift_Some in H as (a & Ha & H).
  rewrite bind_emit in H. nb_simpl_in H.
  unfold ret in H. injection H as <- <-.
  cbn [tuned feature_importance x_train_selected x_test_selected final_model].
  exists s0, full, coef, predicted_y, a.
  split; [exact Htune|]. split; [exact Hfull|]. split; [exact Hcoef|].
  split; [reflexivity|]. split; [exact Hxs|]. split; [exact Hxts|].
  split; [reflexivity|]. cbv zeta.
  split; [exact Hp|]. split; [exact Ha|].
  repeat rewrite <- app_assoc. reflexivity.
Qed.

(** src/unnamed/part_000, from the state [s0] left by the cells that
    tune. *)
Lemma part_000_inv (ds : Bunch) (task_seed : nat -> Z)
    (s s' : State B) (f : Final) :
  part_000 B ds task_seed s = Some (f, s') ->
  exists (s0 : State B) (full : sklearn.Estimator) (coef : list float)
         (p_train p_test : list Z) (a_train a_test : float),
    tune B ds task_seed s = Some (tuned f, s0) /\
    nth_error (heap s0) (lasso_model (tuned f)) = Some full /\
    sklearn.coef_ full = Some coef /\
    feature_importance f
    = feature_importance_of (pd.columns (data_ (tuned f))) coef /\
    pd.getitem (x_train (tuned f)) (selected_of (feature_importance f))
    = Some (x_train_selected f) /\
    pd.getitem (x_test (tuned f)) (selected_of (feature_importance f))
    = Some (x_test_selected f) /\
    final_model f = length (heap s0) /\
    let refit :=
      sklearn.fit_with_seed B (refit_params (results (tuned f)))
        (x_train_selected f) (pd.labels (y_train (tuned f)))
        (fst (sklearn.randint B (np_random s0))) in
    sklearn.predict B refit (x_train_selected f) = Some p_train /\
    sklearn.accuracy_score p_train (pd.labels (y_train (tuned f)))
    = Some a_train /\
    sklearn.predict B refit (x_test_selected f) = Some p_test /\
    sklearn.accuracy_score p_test (pd.labels (y_test (tuned f)))
    = Some a_test /\
    s' = {| heap := heap s0 ++ [refit];
            np_random := snd (sklearn.randint B (np_random s0));
            out := out s0
                   ++ [Print "MAE = "
                         (VScore (sklearn.best_score_ (results (tuned f))));
                       Print "The optimum ʎ ="
                         (VParams (sklearn.best_params_C (results (tuned f))));
                       Display (VDict (feature_importance f));
                       Print "Selected features: "
                         (VList (selected_of (feature_importance f)));
                       Display (VEstimator refit);
                       Print "Accuracy on training data:" (VFloat a_train);
                       Display (VFloat a_test)] |}.
Proof.
  unfold part_000. intros H.
  apply bind_Some in H as (t & s0 & Htune & H).
  rewrite bind_emit in H. rewrite bind_emit in H. nb_simpl_in H.
  apply bind_coef_0_Some in H as (full & coef & Hfull & Hcoef & H).
  nb_simpl_in Hfull.
  rewrite bind_emit in H. nb_simpl_in H.
  rewrite bind_emit in H. nb_simpl_in H.
  apply bind_lift_Some in H as (xs & Hxs & H).
  apply bind_lift_Some in H as (xts & Hxts & H).
  rewrite bind_alloc in H. nb_simpl_in H.
  pose proof H as H'.
  apply bind_fit_Some in H' as (est & Hest & Heq).
  rewrite Heq in H. clear Heq.
  cbn [heap] in Hest. rewrite nth_error_last in Hest. injection Hest as <-.
  rewrite bind_emit in H. nb_simpl_in H.
  rewrite insert_last in H.
  apply bind_load_Some in H as (model & Hmodel & H).
  cbn [heap] in Hmodel. rewrite nth_error_last in Hmodel. injection Hmodel as <-.
  apply bind_lift_Some in H as (p_train & Hp1 & H).
  apply bind_lift_Some in H as (a_train & Ha1 & H).
  rewrite bind_emit in H. nb_simpl_in H.
  apply bind_load_Some in H as (model & Hmodel & H).
  cbn [heap] in Hmodel. rewrite nth_error_last in Hmodel. injection Hmodel as <-.
  apply bind_lift_Some in H as (p_test & Hp2 & H).
  apply bind_lift_Some in H as (a_test & Ha2 & H).
  rewrite bind_emit in H. nb_simpl_in H.
  unfold ret in H. injection H as <- <-.
  cbn [tuned feature_importance x_train_selected x_test_selected final_model].
  exists s0, full, coef, p_train, p_test, a_train, a_test.
  split; [exact Htune|]. split; [exact Hfull|]. split; [exact Hcoef|].
  split; [reflexivity|]. split; [exact Hxs|]. split; [exact Hxts|].
  split; [reflexivity|]. cbv zeta.
  split; [exact Hp1|]. split; [exact Ha1|].
  split; [exact Hp2|]. split; [exact Ha2|].
  repeat rewrite <- app_assoc. reflexivity.
Qed.

End InversionNotebooks.

(** ** Completed runs of the notebooks *)


Lemma new_DataFrame_inv (rows : list (list float)) (names : list string)
    (df : pd.DataFrame) :
  pd.new_DataFrame rows names = Some df ->
  forallb (fun row => Nat.eqb (length row) (length names)) rows = true /\
  pd.columns df = names /\ pd.values df = rows.
Proof.
  unfold pd.new_DataFrame.
  destruct (forallb (fun row => Nat.eqb (length row) (length names)) rows);
    [|discriminate].
  intros [= <-]. split; [reflexivity|]. split; reflexivity.
Qed.

Lemma accuracy_score_swap (a b : list Z) (x : float) :
  sklearn.accuracy_score a b = Some x -> sklearn.accuracy_score b a = Some x.
Proof.
  unfold sklearn.accuracy_score.
  destruct (Nat.eqb (length a) (length b)) eqn:E; [|discriminate].
  apply Nat.eqb_eq in E. rewrite <- E, Nat.eqb_refl, (count_equal_sym b a).
  exact (fun H => H).
Qed.

Section CompletedRuns.

Context (B : sklearn.Backend).


(** What the two notebooks have in common once they have returned: the
    cells that tune ran first, the coefficients were read from the
    object they fitted, and a second object was fitted on the selected
    columns. *)
Lemma notebook_inv (nb : Bunch -> (nat -> Z) -> NB B Final) (ds : Bunch)
    (task_seed : nat -> Z) (s s' : State B) (f : Final) :
  is_notebook B nb ->
  nb ds task_seed s = Some (f, s') ->
  exists (s0 : State B) (full : sklearn.Estimator) (coef : list float),
    tune B ds task_seed s = Some (tuned f, s0) /\
    nth_error (heap s0) (lasso_model (tuned f)) = Some full /\
    sklearn.coef_ full = Some coef /\
    feature_importance f
    = feature_importance_of (pd.columns (data_ (tuned f))) coef /\
    pd.getitem (x_train (tuned f)) (selected_of (feature_importance f))
    = Some (x_train_selected f) /\
    pd.getitem (x_test (tuned f)) (selected_of (feature_importance f))
    = Some (x_test_selected f) /\
    final_model f = length (heap s0) /\
    heap s'
    = heap s0
      ++ [sklearn.fit_with_seed B (refit_params (results (tuned f)))
            (x_train_selected f) (pd.labels (y_train (tuned f)))
            (fst (sklearn.randint B (np_random s0)))] /\
    np_random s' = snd (sklearn.randint B (np_random s0)) /\
    In (Display (VDict (feature_importance f))) (out s').
Proof.
  intros [-> | ->] H.
  - apply lasso_breast_cancer_inv in H
      as (s0 & full & coef & p & a & Ht & Hfull & Hcoef & Hfi & Hxs & Hxts
          & Hfm & _ & _ & ->).
    exists s0, full, coef. cbn [heap np_random out].
    split; [exact Ht|]. split; [exact Hfull|]. split; [exact Hcoef|].
    split; [exact Hfi|]. split; [exact Hxs|]. split; [exact Hxts|].
    split; [exact Hfm|]. split; [reflexivity|]. split; [reflexivity|].
    apply in_or_app. right. right. right. left. reflexivity.
  - apply part_000_inv in H
      as (s0 & full & coef & p1 & p2 & a1 & a2 & Ht & Hfull & Hcoef & Hfi
          & Hxs & Hxts & Hfm & _ & _ & _ & _ & ->).
    exists s0, full, coef. cbn [heap np_random out].
    split; [exact Ht|]. split; [exact Hfull|]. split; [exact Hcoef|].
    split; [exact Hfi|]. split; [exact Hxs|]. split; [exact Hxts|].
    split; [exact Hfm|]. split; [reflexivity|]. split; [reflexivity|].
    apply in_or_app. right. right. right. left. reflexivity.
Qed.


(** X8. When both notebooks return from the same session state, on the
    same dataset and with the same worker seeds, they have computed the
    same variables and left the same objects and generator state behind;
    the score printed by lasso_breast_cancer.ipynb is the second
    accuracy shown by the unnamed notebook, and the only float that the
    latter shows in addition is its training accuracy. *)
Theorem notebooks_agree (ds : Bunch) (task_seed : nat -> Z)
    (s s1 s2 : State B) (f1 f2 : Final) :
  lasso_breast_cancer B ds task_seed s = Some (f1, s1) ->
  part_000 B ds task_seed s = Some (f2, s2) ->
  f1 = f2 /\
  heap s1 = heap s2 /\
  np_random s1 = np_random s2 /\
  exists a_train a_test : float,
    float_outputs (out s1) = (float_outputs (out s) ++ [a_test])%list /\
    float_outputs (out s2) = (float_outputs (out s) ++ [a_train; a_test])%list.
Proof.
  intros H1 H2.
  apply lasso_breast_cancer_inv in H1
    as (s0 & full & coef & p & a & Ht & Hfull & Hcoef & Hfi & Hxs & Hxts
        & Hfm & Hp & Ha & ->).
  apply part_000_inv in H2
    as (s0' & full' & coef' & p1 & p2 & a1 & a2 & Ht' & Hfull' & Hcoef' & Hfi'
        & Hxs' & Hxts' & Hfm' & Hp1 & Ha1 & Hp2 & Ha2 & ->).
  rewrite Ht in Ht'. injection Ht' as Etuned <-.
  rewrite <- Etuned in *.
  rewrite Hfull in Hfull'. injection Hfull' as <-.
  rewrite Hcoef in Hcoef'. injection Hcoef' as <-.
  rewrite <- Hfi in Hfi'. rewrite Hfi' in Hxs', Hxts'.
  rewrite Hxs in Hxs'. injection Hxs' as Exs.
  rewrite Hxts in Hxts'. injection Hxts' as Exts.
  rewrite <- Hfm in Hfm'.
  assert (Ef : f1 = f2).
  { destruct f1 as [t1 fi1 xs1 xts1 fm1], f2 as [t2 fi2 xs2 xts2 fm2].
    cbn [tuned feature_importance x_train_selected x_test_selected
         final_model] in *.
    congruence. }
  subst f2. split; [reflexivity|].
  cbn [heap np_random out].
  split; [reflexivity|]. split; [reflexivity|].
  rewrite Hp in Hp2. injection Hp2 as <-.
  unfold sklearn.score in Ha. rewrite Hp in Ha.
  apply accuracy_score_swap in Ha. rewrite Ha in Ha2. injection Ha2 as <-.
  assert (Hout : float_outputs (out s0) = float_outputs (out s)).
  { apply tune_inv in Ht as (g1 & _ & _ & _ & _ & _ & _ & _ & _ & ->).
    cbn [out]. unfold float_outputs. rewrite flat_map_app.
    cbn [flat_map app]. apply app_nil_r. }
  exists a1, a. unfold float_outputs in *. rewrite !flat_map_app, Hout.
  split; reflexivity.
Qed.

End CompletedRuns.

Section RunsOnData.

Context (B : sklearn.Backend) (HB : sklearn.Backend_ok B).

(** The data behind the variables of the tuning cells. *)
Lemma tune_data (ds : Bunch) (task_seed : nat -> Z) (s s0 : State B)
    (t : Tuned) :
  tune B ds task_seed s = Some (t, s0) ->
  exists (ind_train ind_test : list nat) (k : nat),
    forallb (fun row => Nat.eqb (length row) (length (feature_names ds)))
            (data ds) = true /\
    length (data ds) = length (target ds) /\
    sklearn.n_test_samples (F64.literal 2 10) (length (data ds)) = Some k /\
    pd.take (target ds) ind_train = Some (pd.labels (y_train t)) /\
    pd.take (target ds) ind_test = Some (pd.labels (y_test t)) /\
    pd.nrows (x_train t) = (length (data ds) - k)%nat /\
    pd.nrows (x_test t) = k.
Proof.
  intros H.
  apply tune_inv in H as (g1 & HX & HY & _ & Hsplit & _).
  apply new_DataFrame_inv in HX as (Hrows & _ & Hvalues).
  apply (train_test_split_sizes B HB) in Hsplit
    as (tr & te & k & Hlen & Hk & Htr & Hte & Hn1 & Hn2).
  change (pd.nrows (X t)) with (length (pd.values (X t))) in *.
  rewrite Hvalues in *.
  rewrite HY in Hlen, Htr, Hte. cbn [pd.labels] in Hlen, Htr, Hte.
  exists tr, te, k.
  split; [exact Hrows|]. split; [exact Hlen|]. split; [exact Hk|].
  split; [exact Htr|]. split; [exact Hte|]. split; [exact Hn1 | exact Hn2].
Qed.

(** X9. In a notebook that returns, the search has filled a table of 99
    rows, one per grid value, of 30 scores each, one per fold and
    repeat; the reported [C] is the grid value at the reported index;
    and when the labels of the dataset are 0 and 1 every score of the
    table and the value printed under the label MAE lie between -1 and
    0: the printed number is the negated error and is never positive.
    (The solver of the embedding returns coefficients for every fold; a
    fit that fails inside a worker is not part of it.) *)
Theorem tuning_fills_the_table (nb : Bunch -> (nat -> Z) -> NB B Final)
    (ds : Bunch) (task_seed : nat -> Z) (s s' : State B) (f : Final) :
  is_notebook B nb ->
  nb ds task_seed s = Some (f, s') ->
  length (sklearn.cv_scores (results (tuned f))) = 99%nat /\
  List.Forall (fun row : list Q => length row = 30%nat)
         (sklearn.cv_scores (results (tuned f))) /\
  nth_error grid_values (sklearn.best_index_ (results (tuned f)))
  = Some (sklearn.best_params_C (results (tuned f))) /\
  (List.Forall binary (target ds) ->
   List.Forall (List.Forall (fun q => (-1 <= q <= 0)%Q))
          (sklearn.cv_scores (results (tuned f))) /\
   (-1 <= sklearn.best_score_ (results (tuned f)) <= 0)%Q).
Proof.
  intros Hnb H.
  apply (notebook_inv B nb ds task_seed s s' f Hnb) in H
    as (s0 & _ & _ & Ht & _).
  destruct (tune_data ds task_seed s s0 (tuned f) Ht)
    as (tr & te & k & _ & _ & _ & Htr & _).
  apply tune_inv in Ht as (g1 & _ & _ & _ & _ & _ & Hgrid & Hcv & Hfit & _).
  apply search_table_shape in Hfit
    as (grid & Hg & Hlen & _ & Hrows & Hbest & _ & Hrange).
  rewrite Hgrid, grid_C_computed in Hg.
  assert (Eg : grid = grid_values) by congruence. subst grid.
  rewrite Hcv in Hrows. cbn [sklearn.n_repeats sklearn.n_splits Nat.mul Nat.add]
    in Hrows.
  split; [rewrite Hlen; exact grid_values_length|].
  split; [exact Hrows|]. split; [exact Hbest|].
  intros Hbin. apply Hrange.
  exact (take_Forall binary (target ds) _ tr Htr Hbin).
Qed.



End RunsOnData.

(** ** Runs on the toy backend *)

(** The unnamed notebook on the toy dataset: a table of 99 rows and a
    printed score between -1 and 0. *)
Lemma tuning_fills_the_table_witness :
  exists (f : Final) (s : State toy.backend),
    part_000 toy.backend toy.dataset toy.task_seed (initial toy.backend 5)
    = Some (f, s) /\
    length (sklearn.cv_scores (results (tuned f))) = 99%nat /\
    (-1 <= sklearn.best_score_ (results (tuned f)) <= 0)%Q.
Proof.
  destruct (part_000_runs toy.backend toy_backend_ok toy.dataset
              toy.task_seed 5 toy_dataset_ok)
    as (t & full & coef & xs & xts & refit & p1 & p2 & a1 & a2 & Hrun & _).
  do 2 eexists. split; [exact Hrun|].
  destruct (tuning_fills_the_table toy.backend toy_backend_ok
              (part_000 toy.backend) toy.dataset toy.task_seed _ _ _
              (or_intror eq_refl) Hrun) as (Hlen & _ & _ & Hrange).
  split; [exact Hlen|]. apply Hrange.
  apply List.Forall_forall. intros v Hv.
  apply in_map_iff in Hv as [i [<- _]]. unfold binary.
  pose proof (Nat.mod_upper_bound i 2). lia.
Defined.

(** Two columns, two nonzero coefficients: the frame is kept. *)
Lemma selection_without_zeros_keeps_the_frame_witness :
  pd.getitem
    {| pd.columns := ["mean radius"; "mean texture"];
       pd.values := [[F64.one; F64.zero]; [F64.zero; F64.one]] |}
    (selected_of
       (feature_importance_of (["mean radius"; "mean texture"] ++ ["target"])
          [F64.one; F64.of_Z (-2)]))
  = Some {| pd.columns := ["mean radius"; "mean texture"];
            pd.values := [[F64.one; F64.zero]; [F64.zero; F64.one]] |}.
Proof.
  apply (selection_without_zeros_keeps_the_frame
           {| pd.columns := ["mean radius"; "mean texture"];
              pd.values := [[F64.one; F64.zero]; [F64.zero; F64.one]] |}
           ["target"] [F64.one; F64.of_Z (-2)]).
  - repeat constructor.
  - apply NoDup_ListNoDup.
    apply (bool_decide_unpack (NoDup ["mean radius"; "mean texture"])).
    vm_compute. exact I.
  - reflexivity.
  - vm_compute. reflexivity.
Defined.


(** Both notebooks on the toy dataset. *)
Lemma notebooks_agree_witness :
  exists (f : Final) (s1 s2 : State toy.backend) (a_train a_test : float),
    lasso_breast_cancer toy.backend toy.dataset toy.task_seed
      (initial toy.backend 5) = Some (f, s1) /\
    part_000 toy.backend toy.dataset toy.task_seed (initial toy.backend 5)
    = Some (f, s2) /\
    heap s1 = heap s2 /\
    float_outputs (out s1) = [a_test] /\
    float_outputs (out s2) = [a_train; a_test].
Proof.
  destruct (lasso_breast_cancer_runs toy.backend toy_backend_ok toy.dataset
              toy.task_seed 5 toy_dataset_ok)
    as (t & full & coef & xs & xts & refit & p & a & Hrun1 & _).
  destruct (part_000_runs toy.backend toy_backend_ok toy.dataset
              toy.task_seed 5 toy_dataset_ok)
    as (t' & full' & coef' & xs' & xts' & refit' & p1 & p2 & a1 & a2
        & Hrun2 & _).
  destruct (notebooks_agree toy.backend toy.dataset toy.task_seed _ _ _ _ _
              Hrun1 Hrun2) as (Ef & Hheap & _ & a_train & a_test & H1 & H2).
  rewrite <- Ef in Hrun2.
  do 3 eexists. exists a_train, a_test.
  split; [exact Hrun1|]. split; [exact Hrun2|]. split; [exact Hheap|].
  split; [exact H1 | exact H2].
Defined.


